(** * PDF annotation merger and XFDF importer: a shallow embedding

    The development follows the two source files of the repository:

    - [merge_pdf_annotations.py]: the fingerprint ([AnnotationKey],
      [round_rect]), the extractor ([extract_annotation_keys]), the
      per-annotation re-creation ([copy_annotation]) and the merge run
      ([merge_pdf_annotations]);
    - [xfdf_importer.py]: the colour parser ([parse_color]), the reader of
      the XFDF file ([parse_xfdf]), the two translators
      ([create_annotation_dict], [convert_pymupdf_to_pdf_annot]) and the two
      import runs ([import_xfdf_to_pdf], [import_annotations_direct]).

    Conventions of the embedding.

    - A Python [float] is modelled by the rational number it denotes ([Q]);
      subtraction and division are exact.  [round(x, n)] rounds that exact
      value half-to-even on the [n]-th decimal, which is what CPython does;
      its result is represented by the integer count of units [10^-n], so
      two rounded coordinates are equal floats exactly when their counts are
      equal.
    - Python [int]s are [Z].  The page number of an annotation of the merger
      and of the direct import is a position in the document, as the
      extraction produces it ([nat]); the page number of an annotation read
      from an XFDF file is the integer of the file ([Z]), negative ones
      included, and pikepdf's indexing of pages is modelled with them.  A
      character is a code point below 256.
    - A [dict] or a pikepdf [Dictionary] is a [gmap]; a [set] is a [gset];
      the dictionary [by_page], whose iteration order matters, is an
      association list in insertion order.
    - A Python exception is a value of [PyExc] carried by [result].
    - The file system is a map from files to bytes; a path reaches a file
      through the resolution of the operating system, a parameter of the
      import runs, so that two paths to one file share its bytes.  Opening a
      file for writing truncates it at once.
    - The document libraries (PyMuPDF, pikepdf), the XML reader and the clock
      are parameters of the sections below.  The accessors of an opened
      document do not fail, and neither does the final [save]. *)

From Stdlib Require Import QArith Qround Qabs Lqa Lia ZArith Ascii String.
From Stdlib.Strings Require Import Byte.
From stdpp Require Import gmap strings list fin_maps fin_sets.

Local Set Warnings "-register-all,-clear-no-such-hyp".
Local Open Scope Z_scope.

(** ** Python values and exceptions *)

Inductive PyExc : Type :=
  | ValueError
  | TypeError
  | IndexError
  | FileNotFoundError
  | ExternalError.

Inductive result (A : Type) : Type :=
  | Ok (a : A)
  | Raise (e : PyExc).
Arguments Ok {A} a.
Arguments Raise {A} e.

Definition result_bind {A B} (f : A → result B) (m : result A) : result B :=
  match m with
  | Ok a => f a
  | Raise e => Raise e
  end.

Global Instance result_mbind : MBind result := @result_bind.
Global Instance result_mret : MRet result := @Ok.

Definition is_ok {A} (m : result A) : bool :=
  match m with Ok _ => true | Raise _ => false end.

(** A dynamically typed geometry value: a number, or a list/tuple of values.
    [vertices] of an annotation is a list of points, a list of strokes (lists
    of points), or a flat list of numbers, depending on who produced it. *)
Inductive PyVal : Type :=
  | PyFloat (q : Q)
  | PySeq (l : list PyVal).

(** Truth value of [annot.get(key)]: absent, [None], an empty sequence and
    zero are false. *)
Definition py_truth (v : option PyVal) : bool :=
  match v with
  | None => false
  | Some (PyFloat q) => negb (Qeq_bool q 0)
  | Some (PySeq []) => false
  | Some (PySeq (_ :: _)) => true
  end.

(** [for x in v]: a number is not iterable. *)
Definition py_iter (v : PyVal) : result (list PyVal) :=
  match v with
  | PySeq l => Ok l
  | PyFloat _ => Raise TypeError
  end.

(** [float(v)] *)
Definition py_float (v : PyVal) : result Q :=
  match v with
  | PyFloat q => Ok q
  | PySeq _ => Raise TypeError
  end.

(** [h - v] for a float [h] *)
Definition py_rsub (h : Q) (v : PyVal) : result Q :=
  match v with
  | PyFloat q => Ok (h - q)%Q
  | PySeq _ => Raise TypeError
  end.

(** [s[i]] on a list *)
Definition py_index (s : list PyVal) (i : nat) : result PyVal :=
  match s !! i with
  | Some v => Ok v
  | None => Raise IndexError
  end.

(** Truth value of a string or list that may be absent. *)
Definition str_truth (s : option string) : bool :=
  match s with
  | Some s => negb (bool_decide (s = ""%string))
  | None => false
  end.

Definition list_truth {A} (l : option (list A)) : bool :=
  match l with
  | Some (_ :: _) => true
  | _ => false
  end.

(** ** merge_pdf_annotations.py: the fingerprint *)

(** [round(x, precision)]: the exact value of [x] scaled by [10^precision]
    and rounded to the nearest integer, ties to the even one.  The result is
    the number of units [10^-precision]: Python returns the double nearest to
    that many units, and the model keeps the count, which is what decides
    whether two rounded values are equal.  A distance to the returned double
    is the distance to the count's multiple up to the rounding of that
    double. *)
Definition round_half_even (q : Q) : Z :=
  let f := Qfloor q in
  match Qcompare (q - inject_Z f) (1 # 2) with
  | Lt => f
  | Gt => f + 1
  | Eq => if Z.even f then f else f + 1
  end.

Definition py_round (x : Q) (precision : nat) : Z :=
  round_half_even (x * inject_Z (10 ^ Z.of_nat precision)).

(** [fitz.Rect]: four floats. *)
Record Rect : Type := mkRect { x0 : Q; y0 : Q; x1 : Q; y1 : Q }.

Definition round_rect (rect : Rect) (precision : nat) : Z * Z * Z * Z :=
  (py_round (x0 rect) precision, py_round (y0 rect) precision,
   py_round (x1 rect) precision, py_round (y1 rect) precision).

Definition default_precision : nat := 1.

(** The dataclass [AnnotationKey]; its [__eq__] and [__hash__] compare the
    four fields. *)
Record AnnotationKey : Type := mkKey {
  page : nat;
  annot_type : string;
  rect : Z * Z * Z * Z;
  content : string;
}.

Global Instance AnnotationKey_eq_dec : EqDecision AnnotationKey.
Proof. solve_decision. Defined.

Definition key_to_tuple (k : AnnotationKey) : nat * string * (Z * Z * Z * Z) * string :=
  (page k, annot_type k, rect k, content k).

Definition key_of_tuple (t : nat * string * (Z * Z * Z * Z) * string) : AnnotationKey :=
  let '(p, ty, r, c) := t in mkKey p ty r c.

Global Instance AnnotationKey_countable : Countable AnnotationKey.
Proof.
  apply (inj_countable' key_to_tuple key_of_tuple).
  by intros [].
Defined.

(** ** merge_pdf_annotations.py: annotations, extraction, re-creation *)

(** [annot.type[0]]: the PyMuPDF type code, as the enumeration the source
    branches on; every other code is [PDF_ANNOT_OTHER]. *)
Inductive AnnotTypeCode : Type :=
  | PDF_ANNOT_TEXT
  | PDF_ANNOT_FREE_TEXT
  | PDF_ANNOT_LINE
  | PDF_ANNOT_SQUARE
  | PDF_ANNOT_CIRCLE
  | PDF_ANNOT_POLYGON
  | PDF_ANNOT_POLYLINE
  | PDF_ANNOT_HIGHLIGHT
  | PDF_ANNOT_UNDERLINE
  | PDF_ANNOT_STRIKE_OUT
  | PDF_ANNOT_STAMP
  | PDF_ANNOT_CARET
  | PDF_ANNOT_INK
  | PDF_ANNOT_OTHER (code : Z).

Definition Color : Type := list Q.

(** What the merge reads of a [fitz.Annot]:
    [type] is the pair [(code, name)], [info_content] and [info_title] are
    [info.get('content')] and [info.get('title')], [colors] is the pair
    [(stroke, fill)] when the colour dictionary is present. *)
Record FitzAnnot : Type := mkAnnot {
  type_code : AnnotTypeCode;
  type_name : string;
  a_rect : Rect;
  info_content : option string;
  info_title : option string;
  colors : option (option Color * option Color);
  opacity : option Q;
  vertices : option (list PyVal);
}.

(** A page is the list of its annotations in document order, a document the
    list of its pages. *)
Abbreviation Page := (list FitzAnnot).
Abbreviation Doc := (list (list FitzAnnot)).

(** [info.get('content', '') or ''] *)
Definition content_or_empty (annot : FitzAnnot) : string :=
  default ""%string (info_content annot).

(** The key built at lines 91-96 and again at lines 318-323. *)
Definition make_key (page_num : nat) (annot : FitzAnnot) : AnnotationKey :=
  {| page := page_num;
     annot_type := type_name annot;
     rect := round_rect (a_rect annot) default_precision;
     content := content_or_empty annot |}.

(** [extract_annotation_keys]: a dictionary from key to annotation data; a
    later annotation with the same key overwrites the earlier entry. *)
Definition extract_page (page_num : nat) (annotations : gmap AnnotationKey FitzAnnot)
    (annots : Page) : gmap AnnotationKey FitzAnnot :=
  foldl (λ acc annot, <[make_key page_num annot := annot]> acc) annotations annots.

Fixpoint extract_pages (page_num : nat) (pages : list Page)
    (annotations : gmap AnnotationKey FitzAnnot) : gmap AnnotationKey FitzAnnot :=
  match pages with
  | [] => annotations
  | p :: ps => extract_pages (S page_num) ps (extract_page page_num annotations p)
  end.

Definition extract_annotation_keys (doc : Doc) : gmap AnnotationKey FitzAnnot :=
  extract_pages 0 doc ∅.

(** The constructor call [copy_annotation] makes on the target page. *)
Inductive AddCall : Type :=
  | add_freetext_annot (r : Rect) (text : string) (fill_color : option Color)
  | add_text_annot (tl : Q * Q) (text : string)
  | add_highlight_annot_quads (quads : list PyVal)
  | add_highlight_annot_rect (r : Rect)
  | add_underline_annot_quads (quads : list PyVal)
  | add_underline_annot_rect (r : Rect)
  | add_strikeout_annot_quads (quads : list PyVal)
  | add_strikeout_annot_rect (r : Rect)
  | add_ink_annot (ink_list : list PyVal)
  | add_line_annot (p1 p2 : PyVal)
  | add_rect_annot (r : Rect)
  | add_circle_annot (r : Rect)
  | add_polygon_annot (points : list PyVal)
  | add_polyline_annot (points : list PyVal)
  | add_stamp_annot (r : Rect)
  | add_caret_annot (tl : Q * Q).

(** [rect.tl] *)
Definition rect_tl (r : Rect) : Q * Q := (x0 r, y0 r).

(** The type dispatch of [copy_annotation] (lines 130-210).
    [None]: the type is not supported, the function returns [False] at once.
    [Some None]: the type is supported but [new_annot] stays [None].
    [Some (Some c)]: the constructor call [c] is made. *)
Definition select_call (annot : FitzAnnot) : option (option AddCall) :=
  let r := a_rect annot in
  let text := default ""%string (info_content annot) in
  let quads := vertices annot in
  match type_code annot with
  | PDF_ANNOT_FREE_TEXT =>
      Some (Some (add_freetext_annot r text
                    (match colors annot with Some (_, fill) => fill | None => None end)))
  | PDF_ANNOT_TEXT => Some (Some (add_text_annot (rect_tl r) text))
  | PDF_ANNOT_HIGHLIGHT =>
      match quads with
      | Some (q :: qs) => Some (Some (add_highlight_annot_quads (q :: qs)))
      | _ => Some (Some (add_highlight_annot_rect r))
      end
  | PDF_ANNOT_UNDERLINE =>
      match quads with
      | Some (q :: qs) => Some (Some (add_underline_annot_quads (q :: qs)))
      | _ => Some (Some (add_underline_annot_rect r))
      end
  | PDF_ANNOT_STRIKE_OUT =>
      match quads with
      | Some (q :: qs) => Some (Some (add_strikeout_annot_quads (q :: qs)))
      | _ => Some (Some (add_strikeout_annot_rect r))
      end
  | PDF_ANNOT_INK =>
      match quads with
      | Some (s :: ss) => Some (Some (add_ink_annot (s :: ss)))
      | _ => Some None
      end
  | PDF_ANNOT_LINE =>
      match quads with
      | Some (p1 :: p2 :: _) => Some (Some (add_line_annot p1 p2))
      | _ => Some None
      end
  | PDF_ANNOT_SQUARE => Some (Some (add_rect_annot r))
  | PDF_ANNOT_CIRCLE => Some (Some (add_circle_annot r))
  | PDF_ANNOT_POLYGON =>
      match quads with
      | Some (v :: vs) => Some (Some (add_polygon_annot (v :: vs)))
      | _ => Some None
      end
  | PDF_ANNOT_POLYLINE =>
      match quads with
      | Some (v :: vs) => Some (Some (add_polyline_annot (v :: vs)))
      | _ => Some None
      end
  | PDF_ANNOT_STAMP => Some (Some (add_stamp_annot r))
  | PDF_ANNOT_CARET => Some (Some (add_caret_annot (rect_tl r)))
  | PDF_ANNOT_OTHER _ => None
  end.

(** The statistics dictionary returned by the merge. *)
Record Stats : Type := mkStats {
  base_annotations : Z;
  merged_annotations : Z;
  failed_annotations : Z;
  duplicate_annotations : Z;
  files_processed : Z;
}.

(** The mutable state of the loop over one page of a candidate: the target
    page of the base document, the running set of keys and the two counters
    of the candidate. *)
Record PageState : Type := mkPageState {
  target_page : Page;
  seen : gset AnnotationKey;
  merged_count : Z;
  failed_count : Z;
}.

(** The state of the loop over the pages of one candidate. *)
Record MergeState : Type := mkMergeState {
  base_doc : Doc;
  all_seen_keys : gset AnnotationKey;
  merged : Z;
  failed : Z;
}.

(** The state of a whole run: the base document being written to, the
    running set of keys and the statistics. *)
Record RunState : Type := mkRunState {
  run_doc : Doc;
  run_seen : gset AnnotationKey;
  run_stats : Stats;
}.

Section Merge.

(** The calls [copy_annotation] makes into PyMuPDF once the dispatch has
    chosen a constructor: the constructor itself, then [set_colors],
    [set_info], [set_opacity] and [update].  The result is the target page
    as the library leaves it, and whether all the calls returned ([true]) or
    one of them raised ([false]; the exception is caught at line 236, or at
    line 173 for an ink annotation). *)
Variable recreate : Page → AddCall → FitzAnnot → Page * bool.

(** [copy_annotation]: the new state of the target page and the returned
    boolean. *)
Definition copy_annotation (target : Page) (annot : FitzAnnot) : Page * bool :=
  match select_call annot with
  | Some (Some call) => recreate target call annot
  | Some None => (target, false)
  | None => (target, false)
  end.

(** The body of the loop over the annotations of a source page
    (lines 316-333). *)
Definition merge_annot (unique_keys : gset AnnotationKey) (page_num : nat)
    (st : PageState) (annot : FitzAnnot) : PageState :=
  let key := make_key page_num annot in
  if decide (key ∈ unique_keys) then
    let r := copy_annotation (target_page st) annot in
    if r.2 then
      {| target_page := r.1;
         seen := {[key]} ∪ seen st;
         merged_count := merged_count st + 1;
         failed_count := failed_count st |}
    else
      {| target_page := r.1;
         seen := seen st;
         merged_count := merged_count st;
         failed_count := failed_count st + 1 |}
  else st.

(** The loop over the pages of a candidate (lines 310-333).
    [base_doc[page_num]] raises when the base has no such page. *)
Fixpoint merge_pages (unique_keys : gset AnnotationKey) (page_num : nat)
    (source_pages : list Page) (st : MergeState) : result MergeState :=
  match source_pages with
  | [] => Ok st
  | source_page :: rest =>
      match base_doc st !! page_num with
      | None => Raise IndexError
      | Some target =>
          let ps := foldl (merge_annot unique_keys page_num)
                      {| target_page := target;
                         seen := all_seen_keys st;
                         merged_count := merged st;
                         failed_count := failed st |}
                      source_page in
          merge_pages unique_keys (S page_num) rest
            {| base_doc := <[page_num := target_page ps]> (base_doc st);
               all_seen_keys := seen ps;
               merged := merged_count ps;
               failed := failed_count ps |}
      end
  end.

(** The body of the loop over the candidate files (lines 285-338).  An
    input is [None] when PyMuPDF cannot repair or open it. *)
Definition merge_candidate (rs : RunState) (input : option Doc) : result RunState :=
  match input with
  | None => Raise ExternalError
  | Some source_doc =>
      let source_keys := extract_annotation_keys source_doc in
      let unique_keys := dom source_keys ∖ run_seen rs in
      st ← merge_pages unique_keys 0 source_doc
             {| base_doc := run_doc rs;
                all_seen_keys := run_seen rs;
                merged := 0;
                failed := 0 |};
      let stats := run_stats rs in
      Ok {| run_doc := base_doc st;
            run_seen := all_seen_keys st;
            run_stats :=
              {| base_annotations := base_annotations stats;
                 merged_annotations := merged_annotations stats + merged st;
                 failed_annotations := failed_annotations stats + failed st;
                 duplicate_annotations :=
                   duplicate_annotations stats
                   + (Z.of_nat (size source_keys) - Z.of_nat (size unique_keys));
                 files_processed := files_processed stats |} |}
  end.

Fixpoint merge_candidates (rs : RunState) (inputs : list (option Doc)) : result RunState :=
  match inputs with
  | [] => Ok rs
  | input :: rest => rs' ← merge_candidate rs input; merge_candidates rs' rest
  end.

(** [merge_pdf_annotations]: the statistics, and the base document as it is
    handed to [save]. *)
Definition merge_pdf_annotations (inputs : list (option Doc)) : result (Stats * Doc) :=
  if (length inputs <? 2)%nat then Raise ValueError
  else
    match inputs with
    | [] => Raise ValueError
    | None :: _ => Raise ExternalError
    | Some base :: rest =>
        let base_keys := extract_annotation_keys base in
        rs ← merge_candidates
               {| run_doc := base;
                  run_seen := dom base_keys;
                  run_stats :=
                    {| base_annotations := Z.of_nat (size base_keys);
                       merged_annotations := 0;
                       failed_annotations := 0;
                       duplicate_annotations := 0;
                       files_processed := Z.of_nat (length inputs) |} |}
               rest;
        Ok (run_stats rs, run_doc rs)
    end.

End Merge.

(** ** xfdf_importer.py: the colour parser *)

(** Characters are code points below 256.  [is_space]: the blanks [int]
    skips at both ends of its text. *)
Definition is_space (c : ascii) : bool :=
  let n := nat_of_ascii c in
  ((9 <=? n) && (n <=? 13) || (n =? 32) || (n =? 133) || (n =? 160))%nat.

Definition hex_digit (c : ascii) : option Z :=
  let n := Z.of_nat (nat_of_ascii c) in
  if (48 <=? n) && (n <=? 57) then Some (n - 48)
  else if (97 <=? n) && (n <=? 102) then Some (n - 87)
  else if (65 <=? n) && (n <=? 70) then Some (n - 55)
  else None.

Fixpoint skip_spaces (s : string) : string :=
  match s with
  | String c r => if is_space c then skip_spaces r else s
  | EmptyString => s
  end.

(** The digits of a base-16 literal: hex digits, single underscores between
    them.  Returns the value and the unread rest. *)
Fixpoint scan_hex (s : string) (acc : Z) (prev_digit : bool) : option (Z * string) :=
  match s with
  | EmptyString => if prev_digit then Some (acc, s) else None
  | String c r =>
      match hex_digit c with
      | Some v => scan_hex r (16 * acc + v) true
      | None =>
          if Ascii.eqb c "_" then
            if prev_digit then scan_hex r acc false else None
          else if prev_digit then Some (acc, s) else None
      end
  end.

(** [int(text, 16)]; [None] stands for [ValueError]. *)
Definition py_int16 (text : string) : option Z :=
  let s := skip_spaces text in
  let '(sign, s) :=
    match s with
    | String "+" r => (1, r)
    | String "-" r => (-1, r)
    | _ => (1, s)
    end in
  let s :=
    match s with
    | String "0" (String "x" r) | String "0" (String "X" r) =>
        match r with String "_" r' => r' | _ => r end
    | _ => s
    end in
  match scan_hex s 0 false with
  | Some (v, rest) =>
      match skip_spaces rest with
      | EmptyString => Some (sign * v)
      | _ => None
      end
  | None => None
  end.

Definition int16 (text : string) : result Z :=
  match py_int16 text with
  | Some v => Ok v
  | None => Raise ValueError
  end.

Definition default_yellow : list Q := [1%Q; 1%Q; 0%Q].

(** [parse_color] *)
Definition parse_color (color_str : option string) : result (list Q) :=
  match color_str with
  | Some (String "#" hex_color) =>
      if (String.length hex_color =? 6)%nat then
        r ← int16 (substring 0 2 hex_color);
        g ← int16 (substring 2 2 hex_color);
        b ← int16 (substring 4 2 hex_color);
        Ok [(inject_Z r / 255)%Q; (inject_Z g / 255)%Q; (inject_Z b / 255)%Q]
      else Ok default_yellow
  | _ => Ok default_yellow
  end.

(** ** xfdf_importer.py: persisted objects *)

(** A pikepdf object. *)
Inductive PdfVal : Type :=
  | PName (s : string)
  | PString (s : string)
  | PReal (q : Q)
  | PInt (z : Z)
  | PBool (b : bool)
  | PArray (l : list PdfVal)
  | PDict (entries : list (string * PdfVal)).

(** A pikepdf [Dictionary], keyed by name. *)
Abbreviation Dictionary := (gmap string PdfVal).

(** [Array(v)] of a Python value. *)
Fixpoint of_py (v : PyVal) : PdfVal :=
  match v with
  | PyFloat q => PReal q
  | PySeq l => PArray (map of_py l)
  end.

Definition real_array (l : list Q) : PdfVal := PArray (PReal <$> l).

(** [if c: annot_dict[k] = v] *)
Definition set_if (c : bool) (k : string) (v : PdfVal) (d : Dictionary) : Dictionary :=
  if c then <[k := v]> d else d.

(** An entry of a page's annotation array: an object that was there, or the
    result of [pdf.make_indirect(annot_dict)]. *)
Inductive PdfObject : Type :=
  | ExistingObject (objid : nat)
  | IndirectAnnot (d : Dictionary).

(** The value under [/Annots]: an array, or an object that cannot be
    iterated. *)
Inductive AnnotsEntry : Type :=
  | AnnotsArray (items : list PdfObject)
  | AnnotsScalar.

Record PdfPage : Type := mkPdfPage {
  MediaBox : option (list Q);
  Annots : option AnnotsEntry;
}.

Record Pdf : Type := mkPdf { pages : list PdfPage }.

(** Lookup in a [type_map] with a default. *)
Fixpoint type_map_get (type_map : list (string * string)) (k : string) (dflt : string) : string :=
  match type_map with
  | [] => dflt
  | (k', v) :: rest => if String.eqb k k' then v else type_map_get rest k dflt
  end.

Definition ascii_lower (c : ascii) : ascii :=
  let n := nat_of_ascii c in
  if ((65 <=? n) && (n <=? 90))%nat then ascii_of_nat (n + 32) else c.

(** [str.lower()] *)
Fixpoint lower (s : string) : string :=
  match s with
  | EmptyString => EmptyString
  | String c r => String (ascii_lower c) (lower r)
  end.

Definition is_in (k : string) (l : list string) : bool :=
  existsb (String.eqb k) l.

(** ** xfdf_importer.py: the translator of parsed XFDF data *)

(** An annotation dictionary as [parse_xfdf] builds it.  [xa_type],
    [xa_page] and [xa_rect] are read with [annot[...]], the others with
    [annot.get(...)].  [xa_page] is the integer [int(elem.get('page', '0'))]
    of the file: nothing keeps it from being negative. *)
Record XfdfAnnot : Type := mkXfdfAnnot {
  xa_type : string;
  xa_page : Z;
  xa_rect : list Q;
  xa_name : option string;
  xa_color : option (list Q);
  xa_title : option string;
  xa_subject : option string;
  xa_opacity : option Q;
  xa_width : option Q;
  xa_flags : option Z;
  xa_contents : option string;
  xa_inklist : option (list (list (Q * Q)));
  xa_start : option (list Q);
  xa_end : option (list Q);
  xa_quadpoints : option (list Q);
  xa_vertices : option (list Q);
}.

Definition type_map_xfdf : list (string * string) :=
  [("text", "/Text"); ("freetext", "/FreeText"); ("highlight", "/Highlight");
   ("underline", "/Underline"); ("strikeout", "/StrikeOut"); ("squiggly", "/Squiggly");
   ("ink", "/Ink"); ("line", "/Line"); ("square", "/Square"); ("circle", "/Circle");
   ("polygon", "/Polygon"); ("polyline", "/PolyLine"); ("stamp", "/Stamp");
   ("caret", "/Caret"); ("fileattachment", "/FileAttachment")]%string.

(** [build_ink_list] *)
Definition build_ink_list (strokes : list (list (Q * Q))) : list PdfVal :=
  map (λ stroke, real_array (flat_map (λ pt : Q * Q, [pt.1; pt.2]) stroke)) strokes.

Definition border_style (width : Q) : PdfVal :=
  PDict [("/W", PReal width); ("/S", PName "/S")]%string.

Definition opacity_below_one (o : option Q) : bool :=
  match Qcompare (default 1%Q o) 1 with Lt => true | _ => false end.

(** The part of [create_annotation_dict] before the type-specific handling
    (lines 163-197); [stamps] are the two readings of the clock, already
    formatted by [format_pdf_date]. *)
Definition xfdf_common_dict (stamps : string * string) (annot : XfdfAnnot) : Dictionary :=
  let annot_type := lower (xa_type annot) in
  let subtype := type_map_get type_map_xfdf annot_type "/Text" in
  let d : Dictionary :=
    <["/F" := PInt (default 4 (xa_flags annot))]>
      (<["/Rect" := real_array (xa_rect annot)]>
         (<["/Subtype" := PName subtype]>
            (<["/Type" := PName "/Annot"]> ∅))) in
  let d := set_if (list_truth (xa_color annot)) "/C"
             (real_array (default [] (xa_color annot))) d in
  let d := set_if (str_truth (xa_name annot)) "/NM"
             (PString (default "" (xa_name annot))) d in
  let d := set_if (str_truth (xa_title annot)) "/T"
             (PString (default "" (xa_title annot))) d in
  let d := set_if (str_truth (xa_subject annot)) "/Subj"
             (PString (default "" (xa_subject annot))) d in
  let d := set_if (str_truth (xa_contents annot)) "/Contents"
             (PString (default "" (xa_contents annot))) d in
  let d := set_if (opacity_below_one (xa_opacity annot)) "/CA"
             (PReal (default 1%Q (xa_opacity annot))) d in
  let d := <["/CreationDate" := PString stamps.1]> d in
  <["/M" := PString stamps.2]> d.

(** [create_annotation_dict] *)
Definition create_annotation_dict (stamps : string * string) (annot : XfdfAnnot) : Dictionary :=
  let annot_type := lower (xa_type annot) in
  let d := xfdf_common_dict stamps annot in
  if String.eqb annot_type "ink" then
    let ink_list := build_ink_list (default [] (xa_inklist annot)) in
    let d := set_if (negb (bool_decide (ink_list = []))) "/InkList" (PArray ink_list) d in
    <["/BS" := border_style (default 1%Q (xa_width annot))]> d
  else if String.eqb annot_type "line" then
    set_if (list_truth (xa_start annot) && list_truth (xa_end annot)) "/L"
      (real_array (default [] (xa_start annot) ++ default [] (xa_end annot))) d
  else if is_in annot_type ["highlight"; "underline"; "strikeout"; "squiggly"] then
    set_if (list_truth (xa_quadpoints annot)) "/QuadPoints"
      (real_array (default [] (xa_quadpoints annot))) d
  else if is_in annot_type ["polygon"; "polyline"] then
    set_if (list_truth (xa_vertices annot)) "/Vertices"
      (real_array (default [] (xa_vertices annot))) d
  else if String.eqb annot_type "square" || String.eqb annot_type "circle" then
    <["/BS" := border_style (default 1%Q (xa_width annot))]> d
  else if String.eqb annot_type "text" then
    <["/Name" := PName "/Comment"]> (<["/Open" := PBool false]> d)
  else d.

(** ** xfdf_importer.py: the translator of extracted (screen-space) data *)

(** An annotation dictionary in the extraction format.  [pa_type], [pa_page]
    and [pa_rect] are read with [annot[...]], the others with
    [annot.get(...)]; [pa_rect] is indexed from 0 to 3. *)
Record PyAnnot : Type := mkPyAnnot {
  pa_type : string;
  pa_page : nat;
  pa_rect : Rect;
  pa_flags : option Z;
  pa_stroke_color : option (list Q);
  pa_fill_color : option (list Q);
  pa_author : option string;
  pa_subject : option string;
  pa_content : option string;
  pa_opacity : option Q;
  pa_vertices : option PyVal;
  pa_border_width : option Q;
}.

Definition type_map_pymupdf : list (string * string) :=
  [("Text", "/Text"); ("FreeText", "/FreeText"); ("Highlight", "/Highlight");
   ("Underline", "/Underline"); ("StrikeOut", "/StrikeOut"); ("Squiggly", "/Squiggly");
   ("Ink", "/Ink"); ("Line", "/Line"); ("Square", "/Square"); ("Circle", "/Circle");
   ("Polygon", "/Polygon"); ("PolyLine", "/PolyLine"); ("Stamp", "/Stamp");
   ("Caret", "/Caret"); ("FileAttachment", "/FileAttachment")]%string.

(** The loop shared by the ink, quad-point and vertex branches: every item
    that is a list or tuple of at least two elements contributes [float(v[0])]
    and [float(page_height - v[1])]; the other items are passed over. *)
Fixpoint flip_points (page_height : Q) (pts : list PyVal) : result (list Q) :=
  match pts with
  | [] => Ok []
  | PySeq (a :: b :: _) :: rest =>
      x ← py_float a;
      y ← py_rsub page_height b;
      r ← flip_points page_height rest;
      Ok (x :: y :: r)
  | _ :: rest => flip_points page_height rest
  end.

(** The loop over the strokes of an ink annotation (lines 492-498). *)
Fixpoint flip_strokes (page_height : Q) (strokes : list PyVal) : result (list PdfVal) :=
  match strokes with
  | [] => Ok []
  | stroke :: rest =>
      pts ← py_iter stroke;
      stroke_array ← flip_points page_height pts;
      r ← flip_strokes page_height rest;
      Ok (real_array stroke_array :: r)
  end.

(** The line branch (lines 508-515). *)
Definition line_endpoints (page_height : Q) (vertices : option PyVal) : result (option PdfVal) :=
  match vertices with
  | None => Ok None
  | Some (PyFloat q) =>
      (* [len] of a number *)
      if Qeq_bool q 0 then Ok None else Raise TypeError
  | Some (PySeq v) =>
      match v with
      | v0 :: v1 :: _ =>
          let start := match v0 with PySeq s => s | PyFloat _ => take 2 v end in
          let end_ := match v1 with PySeq s => s | PyFloat _ => take 2 (drop 2 v) end in
          sx ← py_index start 0;
          sy' ← py_index start 1;
          sy ← py_rsub page_height sy';
          ex ← py_index end_ 0;
          ey' ← py_index end_ 1;
          ey ← py_rsub page_height ey';
          Ok (Some (PArray [of_py sx; PReal sy; of_py ex; PReal ey]))
      | _ => Ok None
      end
  end.

(** The quad-point and vertex branches (lines 518-525 and 528-535): the
    flattened, flipped list when [vertices] is true and the list is not
    empty. *)
Definition flipped_flat (page_height : Q) (vertices : option PyVal) : result (option PdfVal) :=
  if py_truth vertices then
    match vertices with
    | Some v =>
        items ← py_iter v;
        flat ← flip_points page_height items;
        match flat with
        | [] => Ok None
        | _ :: _ => Ok (Some (real_array flat))
        end
    | None => Ok None
    end
  else Ok None.

Definition set_opt (k : string) (v : option PdfVal) (d : Dictionary) : Dictionary :=
  match v with
  | Some v => <[k := v]> d
  | None => d
  end.

(** The part of [convert_pymupdf_to_pdf_annot] before the type-specific
    handling (lines 444-486). *)
Definition pymupdf_common_dict (stamps : string * string) (annot : PyAnnot)
    (page_height : Q) : Dictionary :=
  let annot_type := pa_type annot in
  let subtype := type_map_get type_map_pymupdf annot_type "/Text" in
  let rect := pa_rect annot in
  let pdf_rect :=
    [x0 rect; (page_height - y1 rect)%Q; x1 rect; (page_height - y0 rect)%Q] in
  let d : Dictionary :=
    <["/F" := PInt (default 4 (pa_flags annot))]>
      (<["/Rect" := real_array pdf_rect]>
         (<["/Subtype" := PName subtype]>
            (<["/Type" := PName "/Annot"]> ∅))) in
  let d :=
    if list_truth (pa_stroke_color annot)
    then <["/C" := real_array (default [] (pa_stroke_color annot))]> d
    else set_if (list_truth (pa_fill_color annot)) "/C"
           (real_array (default [] (pa_fill_color annot))) d in
  let d := set_if (str_truth (pa_author annot)) "/T"
             (PString (default "" (pa_author annot))) d in
  let d := set_if (str_truth (pa_subject annot)) "/Subj"
             (PString (default "" (pa_subject annot))) d in
  let d := set_if (str_truth (pa_content annot)) "/Contents"
             (PString (default "" (pa_content annot))) d in
  let d := set_if (opacity_below_one (pa_opacity annot)) "/CA"
             (PReal (default 1%Q (pa_opacity annot))) d in
  let d := <["/CreationDate" := PString stamps.1]> d in
  <["/M" := PString stamps.2]> d.

(** [convert_pymupdf_to_pdf_annot] *)
Definition convert_pymupdf_to_pdf_annot (stamps : string * string) (annot : PyAnnot)
    (page_height : Q) : result Dictionary :=
  let annot_type := pa_type annot in
  let d := pymupdf_common_dict stamps annot page_height in
  if String.eqb annot_type "Ink" then
    ink ← (if py_truth (pa_vertices annot) then
             match pa_vertices annot with
             | Some v =>
                 strokes ← py_iter v;
                 ink_list ← flip_strokes page_height strokes;
                 Ok (Some (PArray ink_list))
             | None => Ok None
             end
           else Ok None);
    Ok (<["/BS" := border_style (default 1%Q (pa_border_width annot))]>
          (set_opt "/InkList" ink d))
  else if String.eqb annot_type "Line" then
    l ← line_endpoints page_height (pa_vertices annot);
    Ok (set_opt "/L" l d)
  else if is_in annot_type ["Highlight"; "Underline"; "StrikeOut"; "Squiggly"] then
    q ← flipped_flat page_height (pa_vertices annot);
    Ok (set_opt "/QuadPoints" q d)
  else if is_in annot_type ["Polygon"; "PolyLine"] then
    v ← flipped_flat page_height (pa_vertices annot);
    Ok (set_opt "/Vertices" v d)
  else if String.eqb annot_type "Text" then
    Ok (<["/Name" := PName "/Comment"]> (<["/Open" := PBool false]> d))
  else Ok d.

(** The page height of [import_annotations_direct] (lines 377-381). *)
Definition page_height_of (page : PdfPage) : result Q :=
  match MediaBox page with
  | Some mediabox =>
      match mediabox !! 3%nat, mediabox !! 1%nat with
      | Some top, Some bottom => Ok (top - bottom)%Q
      | _, _ => Raise IndexError
      end
  | None => Ok 792%Q
  end.

(** ** xfdf_importer.py: the import runs *)

(** The file system: the bytes stored in each file.  A key is the name of a
    file, not a spelling of a path to it; the import functions reach a file
    through the name their [resolve] gives a path (see below), so that two
    paths to one file read and write the same entry. *)
Abbreviation FS := (gmap string (list byte)).

(** [open(path, 'rb').read()], for the name of the file *)
Definition read_file (fs : FS) (path : string) : result (list byte) :=
  match fs !! path with
  | Some data => Ok data
  | None => Raise FileNotFoundError
  end.

(** [with open(src, 'rb') as s, open(dst, 'wb') as d: d.write(s.read())]:
    the source is opened, the destination is created or truncated, and only
    then is the source read. *)
Definition copy_file (fs : FS) (src dst : string) : result FS :=
  _ ← read_file fs src;
  let fs1 := <[dst := []]> fs in
  data ← read_file fs1 src;
  Ok (<[dst := data]> fs1).

(** [by_page.setdefault(page_num, []).append(annot)] on a dictionary that
    keeps its keys in insertion order. *)
Fixpoint setdefault_append {A} (by_page : list (nat * list A)) (page_num : nat) (annot : A)
    : list (nat * list A) :=
  match by_page with
  | [] => [(page_num, [annot])]
  | (p, l) :: rest =>
      if decide (p = page_num) then (p, l ++ [annot]) :: rest
      else (p, l) :: setdefault_append rest page_num annot
  end.

Definition group_by_page {A} (page_of : A → nat) (annotations : list A) : list (nat * list A) :=
  foldl (λ by_page annot, setdefault_append by_page (page_of annot) annot) [] annotations.

(** The entries copied out of the page's annotation array (lines 301-308 and
    384-393): none when the key is absent or the value cannot be iterated. *)
Definition existing_items (page : PdfPage) : list PdfObject :=
  match Annots page with
  | Some (AnnotsArray items) => items
  | Some AnnotsScalar => []
  | None => []
  end.

(** [page[Name.Annots] = Array(annots_array)] *)
Definition set_annots (page : PdfPage) (annots_array : list PdfObject) : PdfPage :=
  {| MediaBox := MediaBox page; Annots := Some (AnnotsArray annots_array) |}.

Section ImportLoop.

(** The loop of [import_annotations_direct], over page numbers that are
    positions in the document (the page numbers of the extraction format).
    It is stated for any record ([A]), for what is read of the page before
    translating ([prepare]: the page height) and for the translator
    ([translate], which is given the number of annotations imported so far to
    read the clock); the loop over the annotations of one page is shared with
    [import_xfdf_to_pdf]. *)
Context {A T : Type}.
Variable prepare : PdfPage → result T.
Variable translate : T → Z → A → result Dictionary.

(** The loop over the annotations of one page (lines 311-320, 395-406). *)
Fixpoint add_annots (h : T) (annots_array : list PdfObject) (imported_count : Z)
    (page_annots : list A) : result (list PdfObject * Z) :=
  match page_annots with
  | [] => Ok (annots_array, imported_count)
  | annot_data :: rest =>
      annot_dict ← translate h imported_count annot_data;
      add_annots h (annots_array ++ [IndirectAnnot annot_dict]) (imported_count + 1) rest
  end.

(** The loop over [by_page.items()] (lines 293-323, 370-409). *)
Fixpoint import_groups (pdf_pages : list PdfPage) (imported_count : Z)
    (by_page : list (nat * list A)) : result (list PdfPage * Z) :=
  match by_page with
  | [] => Ok (pdf_pages, imported_count)
  | (page_num, page_annots) :: rest =>
      match pdf_pages !! page_num with
      | None => import_groups pdf_pages imported_count rest
      | Some page =>
          h ← prepare page;
          r ← add_annots h (existing_items page) imported_count page_annots;
          import_groups (<[page_num := set_annots page r.1]> pdf_pages) r.2 rest
      end
  end.

Definition import_pages (page_of : A → nat) (pdf : Pdf) (annotations : list A)
    : result (Pdf * Z) :=
  r ← import_groups (pages pdf) 0 (group_by_page page_of annotations);
  Ok ({| pages := r.1 |}, r.2).

End ImportLoop.

(** The loop of [import_xfdf_to_pdf].  Its page numbers are the integers of
    the XFDF file, so the dictionary is keyed by integers. *)
Fixpoint setdefault_append_int {A} (by_page : list (Z * list A)) (page_num : Z) (annot : A)
    : list (Z * list A) :=
  match by_page with
  | [] => [(page_num, [annot])]
  | (p, l) :: rest =>
      if decide (p = page_num) then (p, l ++ [annot]) :: rest
      else (p, l) :: setdefault_append_int rest page_num annot
  end.

Definition group_by_page_int {A} (page_of : A → Z) (annotations : list A)
    : list (Z * list A) :=
  foldl (λ by_page annot, setdefault_append_int by_page (page_of annot) annot) [] annotations.

(** [pdf.pages[page_num]] of pikepdf: a negative number counts from the end
    of the document, and a number that reaches no page raises [IndexError].
    The result is the position of the page, and the page. *)
Definition pages_getitem (pdf_pages : list PdfPage) (page_num : Z) : result (nat * PdfPage) :=
  let index :=
    if page_num <? 0 then page_num + Z.of_nat (length pdf_pages) else page_num in
  if index <? 0 then Raise IndexError
  else match pdf_pages !! Z.to_nat index with
       | Some page => Ok (Z.to_nat index, page)
       | None => Raise IndexError
       end.

Section XfdfImportLoop.

Variable clock : Z → string * string.

(** The loop over [by_page.items()] (lines 293-323): a group is passed over
    when its page number is the page count or more, and only then. *)
Fixpoint xfdf_import_groups (pdf_pages : list PdfPage) (imported_count : Z)
    (by_page : list (Z * list XfdfAnnot)) : result (list PdfPage * Z) :=
  match by_page with
  | [] => Ok (pdf_pages, imported_count)
  | (page_num, page_annots) :: rest =>
      if Z.of_nat (length pdf_pages) <=? page_num
      then xfdf_import_groups pdf_pages imported_count rest
      else
        located ← pages_getitem pdf_pages page_num;
        r ← add_annots (λ _ n annot, Ok (create_annotation_dict (clock n) annot)) tt
              (existing_items located.2) imported_count page_annots;
        xfdf_import_groups (<[located.1 := set_annots located.2 r.1]> pdf_pages) r.2 rest
  end.

Definition xfdf_import_pages (pdf : Pdf) (annotations : list XfdfAnnot) : result (Pdf * Z) :=
  r ← xfdf_import_groups (pages pdf) 0 (group_by_page_int xa_page annotations);
  Ok ({| pages := r.1 |}, r.2).

End XfdfImportLoop.

Section Importer.

(** pikepdf: the parser behind [pikepdf.open] ([None] when it rejects the
    bytes) and the serializer behind [pdf.save], with its [linearize]
    option. *)
Variable pdf_parse : list byte → option Pdf.
Variable pdf_serialize : bool → Pdf → list byte.

(** [parse_xfdf], the ElementTree reader of the interchange file. *)
Variable parse_xfdf : FS → string → result (string * list XfdfAnnot).

(** The clock: the two formatted readings taken while the [n]-th
    annotation of a run is translated. *)
Variable clock : Z → string * string.

(** The operating system's resolution of a path to the file it reaches:
    paths that reach the same file (another spelling of the path, a link)
    resolve to the same name. *)
Variable resolve : string → string.

(** [pikepdf.open(pdf_path, allow_overwriting_input=True)]: the file is
    read into memory and parsed. *)
Definition pdf_open (fs : FS) (pdf_path : string) : result Pdf :=
  data ← read_file fs pdf_path;
  match pdf_parse data with
  | Some pdf => Ok pdf
  | None => Raise ExternalError
  end.

(** [pdf.save(output_path, ...)], for the name of the file *)
Definition pdf_save (fs : FS) (pdf : Pdf) (output_path : string) (linearize : bool) : FS :=
  <[output_path := pdf_serialize linearize pdf]> fs.

(** [import_xfdf_to_pdf]: the returned count and the file system it
    leaves. *)
Definition import_xfdf_to_pdf (fs : FS) (pdf_path xfdf_path output_path : string)
    (linearize : bool) : result (Z * FS) :=
  parsed ← parse_xfdf fs xfdf_path;
  match parsed.2 with
  | [] =>
      fs' ← copy_file fs (resolve pdf_path) (resolve output_path);
      Ok (0, fs')
  | annotations =>
      pdf ← pdf_open fs (resolve pdf_path);
      r ← xfdf_import_pages clock pdf annotations;
      Ok (r.2, pdf_save fs r.1 (resolve output_path) linearize)
  end.

(** [import_annotations_direct] *)
Definition import_annotations_direct (fs : FS) (pdf_path : string)
    (annotations : list PyAnnot) (output_path : string) : result (Z * FS) :=
  match annotations with
  | [] =>
      fs' ← copy_file fs (resolve pdf_path) (resolve output_path);
      Ok (0, fs')
  | _ =>
      pdf ← pdf_open fs (resolve pdf_path);
      r ← import_pages page_height_of
            (λ page_height n annot, convert_pymupdf_to_pdf_annot (clock n) annot page_height)
            pa_page pdf annotations;
      Ok (r.2, pdf_save fs r.1 (resolve output_path) false)
  end.

End Importer.

(** ** merge_pdf_annotations.py: the command line *)

Section Main.

(** PyMuPDF behind [copy_annotation]; [os.path.exists]; [os.path.abspath];
    and what [repair_pdf] followed by [open_pdf_safe] makes of a path
    ([None] when one of them raises). *)
Variable recreate : Page → AddCall → FitzAnnot → Page * bool.
Variable path_exists : string → bool.
Variable abspath : string → string.
Variable open_input : string → option Doc.

(** [main]: the exit code, and the path and document handed to [save] when
    the run gets that far.  [argv] is [sys.argv]. *)
Definition main (argv : list string) : Z * option (string * Doc) :=
  if (length argv <? 4)%nat then (1, None)
  else
    match argv with
    | _ :: output_path :: input_paths =>
        if negb (forallb path_exists input_paths) then (1, None)
        else if existsb (λ path, String.eqb (abspath path) (abspath output_path)) input_paths
        then (1, None)
        else
          match merge_pdf_annotations recreate (map open_input input_paths) with
          | Ok (stats, doc) => (0, Some (output_path, doc))
          | Raise _ => (1, None)
          end
    | _ => (1, None)
    end.

End Main.

(** ** xfdf_importer.py: the XFDF reader *)

(** An ElementTree element: its tag (a namespace, when there is one, in
    braces before the local name), its attributes, its text and its child
    elements. *)
Inductive Element : Type :=
  mkElement (tag : string) (attrib : gmap string string) (text : option string)
            (children : list Element).

Definition elem_tag (e : Element) : string := let (t, _, _, _) := e in t.
Definition elem_attrib (e : Element) : gmap string string := let (_, a, _, _) := e in a.
Definition elem_text (e : Element) : option string := let (_, _, t, _) := e in t.
Definition elem_children (e : Element) : list Element := let (_, _, _, c) := e in c.

(** [elem.get(key, default)] and [elem.get(key)] *)
Definition elem_get (e : Element) (key dflt : string) : string :=
  default dflt (elem_attrib e !! key).

(** The tag that the path [xfdf:name] stands for under
    [ns = {'xfdf': 'http://ns.adobe.com/xfdf/'}]. *)
Definition xfdf (name : string) : string :=
  ("{http://ns.adobe.com/xfdf/}" ++ name)%string.

(** [parent.findall(path)] and [parent.find(path)] for a path that is one
    tag: the children with that tag, and the first of them. *)
Definition findall (path : string) (parent : Element) : list Element :=
  filter (λ e, elem_tag e = path) (elem_children parent).

Definition find (path : string) (parent : Element) : option Element :=
  head (findall path parent).

(** [a or b] on the results of [find]: an element without children is
    false, like [None]. *)
Definition elem_or (a b : option Element) : option Element :=
  match a with
  | Some e => match elem_children e with [] => b | _ :: _ => a end
  | None => b
  end.

(** [a or b] on the results of [findall]. *)
Definition list_or {A} (a b : list A) : list A :=
  match a with [] => b | _ :: _ => a end.

(** [s.split(sep)] for a separator of one character. *)
Fixpoint str_split (sep : ascii) (s : string) : list string :=
  match s with
  | EmptyString => [EmptyString]
  | String c r =>
      if Ascii.eqb c sep then EmptyString :: str_split sep r
      else match str_split sep r with
           | w :: ws => String c w :: ws
           | [] => [String c EmptyString]
           end
  end.

(** [sep in s] *)
Fixpoint str_contains (sep : ascii) (s : string) : bool :=
  match s with
  | EmptyString => false
  | String c r => Ascii.eqb c sep || str_contains sep r
  end.

(** The record [parse_xfdf] builds for one element.  The first ten keys are
    always set; the others are set by the branches. *)
Record XfdfDict : Type := mkXfdfDict {
  xd_type : string;
  xd_page : Z;
  xd_rect : list Q;
  xd_name : string;
  xd_color : list Q;
  xd_title : string;
  xd_subject : string;
  xd_opacity : Q;
  xd_width : Q;
  xd_flags : Z;
  xd_contents : option string;
  xd_inklist : option (list (list (Q * Q)));
  xd_start : option (list Q);
  xd_end : option (list Q);
  xd_quadpoints : option (list Q);
  xd_vertices : option (list Q);
}.

(** The record as the translator and the import loop read it. *)
Definition as_annot (d : XfdfDict) : XfdfAnnot :=
  {| xa_type := xd_type d; xa_page := xd_page d; xa_rect := xd_rect d;
     xa_name := Some (xd_name d); xa_color := Some (xd_color d);
     xa_title := Some (xd_title d); xa_subject := Some (xd_subject d);
     xa_opacity := Some (xd_opacity d); xa_width := Some (xd_width d);
     xa_flags := Some (xd_flags d); xa_contents := xd_contents d;
     xa_inklist := xd_inklist d; xa_start := xd_start d; xa_end := xd_end d;
     xa_quadpoints := xd_quadpoints d; xa_vertices := xd_vertices d |}.

Section XfdfReader.

(** [float(text)] and [int(text)] of Python. *)
Variable float : string → result Q.
Variable int : string → result Z.

(** [parse_rect], [parse_point] and [parse_coords] *)
Definition parse_rect (rect_str : string) : result (list Q) :=
  mapM float (str_split "," rect_str).

Definition parse_point (point_str : string) : result (list Q) :=
  mapM float (str_split "," point_str).

Definition parse_coords (coords_str : string) : result (list Q) :=
  mapM float (str_split "," coords_str).

(** The loop over the points of one gesture (lines 127-130). *)
Fixpoint gesture_points (point_strs : list string) : result (list (Q * Q)) :=
  match point_strs with
  | [] => Ok []
  | point_str :: rest =>
      match str_split "," point_str with
      | c0 :: c1 :: _ =>
          x ← float c0;
          y ← float c1;
          points ← gesture_points rest;
          Ok ((x, y) :: points)
      | _ => gesture_points rest
      end
  end.

(** The loop over the gestures (lines 124-132). *)
Fixpoint gesture_strokes (gestures : list Element) : result (list (list (Q * Q))) :=
  match gestures with
  | [] => Ok []
  | gesture :: rest =>
      match elem_text gesture with
      | Some (String c r as gesture_text) =>
          points ← gesture_points (str_split ";" gesture_text);
          strokes ← gesture_strokes rest;
          Ok (match points with [] => strokes | _ :: _ => points :: strokes end)
      | _ => gesture_strokes rest
      end
  end.

(** [parse_inklist] *)
Definition parse_inklist (elem : Element) : result (list (list (Q * Q))) :=
  match elem_or (find (xfdf "inklist") elem) (find "inklist" elem) with
  | None => Ok []
  | Some inklist_elem =>
      gesture_strokes
        (list_or (findall (xfdf "gesture") inklist_elem) (findall "gesture" inklist_elem))
  end.

(** The text of the contents element when it is found and not empty
    (lines 64-66). *)
Definition contents_of (elem : Element) : option string :=
  match elem_or (find (xfdf "contents") elem) (find "contents" elem) with
  | Some contents_elem =>
      match elem_text contents_elem with
      | Some (String _ _ as t) => Some t
      | _ => None
      end
  | None => None
  end.

(** The body of the loop of [parse_xfdf] (lines 47-83). *)
Definition parse_element (elem : Element) : result XfdfDict :=
  let tag :=
    if str_contains "}" (elem_tag elem)
    then default ""%string (last (str_split "}" (elem_tag elem)))
    else elem_tag elem in
  page ← int (elem_get elem "page" "0");
  rect ← parse_rect (elem_get elem "rect" "0,0,0,0");
  color ← parse_color (elem_attrib elem !! "color"%string);
  opacity ← float (elem_get elem "opacity" "1.0");
  width ← float (elem_get elem "width" "1.0");
  flags ← int (elem_get elem "flags" "4");
  let annot inklist start end_ quadpoints vertices :=
    {| xd_type := tag; xd_page := page; xd_rect := rect;
       xd_name := elem_get elem "name" ""; xd_color := color;
       xd_title := elem_get elem "title" ""; xd_subject := elem_get elem "subject" "";
       xd_opacity := opacity; xd_width := width; xd_flags := flags;
       xd_contents := contents_of elem;
       xd_inklist := inklist; xd_start := start; xd_end := end_;
       xd_quadpoints := quadpoints; xd_vertices := vertices |} in
  if String.eqb tag "ink" then
    inklist ← parse_inklist elem;
    Ok (annot (Some inklist) None None None None)
  else if String.eqb tag "line" then
    start ← parse_point (elem_get elem "start" "0,0");
    end_ ← parse_point (elem_get elem "end" "0,0");
    Ok (annot None (Some start) (Some end_) None None)
  else if is_in tag ["highlight"; "underline"; "strikeout"; "squiggly"] then
    match elem_attrib elem !! "coords"%string with
    | Some (String _ _ as coords) =>
        quadpoints ← parse_coords coords;
        Ok (annot None None None (Some quadpoints) None)
    | _ => Ok (annot None None None None None)
    end
  else if is_in tag ["polygon"; "polyline"] then
    match elem_attrib elem !! "vertices"%string with
    | Some (String _ _ as vertices) =>
        vertices ← parse_coords vertices;
        Ok (annot None None None None (Some vertices))
    | _ => Ok (annot None None None None None)
    end
  else Ok (annot None None None None None).

(** [parse_xfdf], from the root element of the parsed file on. *)
Definition parse_xfdf_root (root : Element) : result (string * list XfdfDict) :=
  let f_elem := elem_or (find (xfdf "f") root) (find "f" root) in
  let source_pdf :=
    match f_elem with
    | Some f => elem_get f "href" ""
    | None => ""%string
    end in
  match elem_or (find (xfdf "annots") root) (find "annots" root) with
  | None => Ok (source_pdf, [])
  | Some annots_elem =>
      annotations ← mapM parse_element (elem_children annots_elem);
      Ok (source_pdf, annotations)
  end.

End XfdfReader.

(** ** Typed geometry *)

(** A point as the pair the extraction produces, and the
    flattened list of points with every [y] replaced by [page_height - y]. *)
Definition py_point (p : Q * Q) : PyVal := PySeq [PyFloat p.1; PyFloat p.2].
Definition py_points (ps : list (Q * Q)) : PyVal := PySeq (map py_point ps).
Definition flipped (page_height : Q) (ps : list (Q * Q)) : list Q :=
  flat_map (λ p : Q * Q, [p.1; (page_height - p.2)%Q]) ps.

(** ** Sample data of the examples *)

Definition sample_annot (code : AnnotTypeCode) (name : string) (r : Rect)
    (text : option string) (verts : option (list PyVal)) : FitzAnnot :=
  {| type_code := code; type_name := name; a_rect := r;
     info_content := text; info_title := None; colors := None;
     opacity := None; vertices := verts |}.

(** Highlights on one line; the left edges are 0.046875, 0.0625, 0.03125
    and 0.25 (all exact binary fractions). *)
Definition highlight_a : FitzAnnot :=
  sample_annot PDF_ANNOT_HIGHLIGHT "Highlight" (mkRect (3 # 64) 10 50 20) (Some "foo"%string) None.

Definition highlight_b : FitzAnnot :=
  sample_annot PDF_ANNOT_HIGHLIGHT "Highlight" (mkRect (1 # 16) 10 50 20) (Some "foo"%string) None.

Definition highlight_c : FitzAnnot :=
  sample_annot PDF_ANNOT_HIGHLIGHT "Highlight" (mkRect (1 # 32) 10 50 20) (Some "foo"%string) None.

Definition highlight_d : FitzAnnot :=
  sample_annot PDF_ANNOT_HIGHLIGHT "Highlight" (mkRect (1 # 4) 10 50 20) (Some "foo"%string) None.

(** An external library that accepts every call and appends the source
    annotation to the target page, and one that rejects every call. *)
Definition accept_all (target : Page) (call : AddCall) (annot : FitzAnnot) : Page * bool :=
  (target ++ [annot], true).

Definition reject_all (target : Page) (call : AddCall) (annot : FitzAnnot) : Page * bool :=
  (target, false).

Definition empty_one_page_doc : Doc := [[]].
Definition doc_with_repeated_highlight : Doc := [[highlight_a; highlight_a]].

(** A file system with one PDF file (its first bytes, [%PDF]) and an XFDF
    reader that finds no annotation. *)
Definition pdf_bytes : list byte := [x25; x50; x44; x46].
Definition one_file_fs : FS := {[ "doc.pdf"%string := pdf_bytes ]}.
Definition no_annotations (fs : FS) (xfdf_path : string) : result (string * list XfdfAnnot) :=
  Ok (""%string, []).

(** A resolution of paths for the examples: [./name] reaches the file
    [name], every other path the file of its own name. *)
Definition same_directory (path : string) : string :=
  match path with
  | String "." (String "/" name) => name
  | _ => path
  end.

(** A Letter page that already holds one annotation, a one-page document,
    and a clock that stands still. *)
Definition letter_page : PdfPage :=
  {| MediaBox := Some [0; 0; 612; 792]%Q;
     Annots := Some (AnnotsArray [ExistingObject 7]) |}.

Definition one_page_pdf : Pdf := {| pages := [letter_page] |}.
Definition still_clock (n : Z) : string * string :=
  ("D:20260101000000", "D:20260101000000")%string.

Definition sample_py_annot (kind : string) (page_num : nat) (verts : option PyVal) : PyAnnot :=
  {| pa_type := kind; pa_page := page_num; pa_rect := mkRect 10 10 50 20;
     pa_flags := None; pa_stroke_color := None; pa_fill_color := None;
     pa_author := None; pa_subject := None; pa_content := None;
     pa_opacity := None; pa_vertices := verts; pa_border_width := None |}.

(** A polygon with an empty vertex list. *)
Definition empty_polygon : PyAnnot := sample_py_annot "Polygon" 0 (Some (PySeq [])).

(** An ink annotation with one stroke of three points. *)
Definition three_point_stroke : list (Q * Q) := [(1, 1); (2, 2); (3, 3)]%Q.
Definition sample_ink : PyAnnot :=
  sample_py_annot "Ink" 0 (Some (PySeq (map py_points [three_point_stroke]))).

(** A parser that reads every file as the one-page document, a serializer
    that writes one byte per page, and an ink annotation for a page the
    document does not have. *)
Definition parse_one_page (data : list byte) : option Pdf := Some one_page_pdf.
Definition serialize_page_marks (linearize : bool) (pdf : Pdf) : list byte :=
  map (λ _, x25) (pages pdf).

Definition far_ink : PyAnnot :=
  sample_py_annot "Ink" 5 (Some (PySeq (map py_points [three_point_stroke]))).

(** The dictionaries the translator is expected to produce for
    [empty_polygon] and [sample_ink] on the Letter page, the document after
    the import of one annotation, and the file system after it is saved. *)
Definition sample_common_dict (subtype : string) : Dictionary :=
  <["/M" := PString "D:20260101000000"]>
    (<["/CreationDate" := PString "D:20260101000000"]>
       (<["/F" := PInt 4]>
          (<["/Rect" := real_array [10; 792 - 20; 50; 792 - 10]%Q]>
             (<["/Subtype" := PName subtype]>
                (<["/Type" := PName "/Annot"]> ∅))))).

Definition empty_polygon_dict : Dictionary := sample_common_dict "/Polygon".
Definition sample_ink_dict : Dictionary :=
  <["/BS" := border_style 1]>
    (<["/InkList" := PArray [real_array (flipped 792 three_point_stroke)]]>
       (sample_common_dict "/Ink")).

Definition imported_pdf (d : Dictionary) : Pdf :=
  {| pages := [set_annots letter_page [ExistingObject 7; IndirectAnnot d]] |}.

Definition imported_fs (d : Dictionary) : FS :=
  <["out.pdf"%string := serialize_page_marks false (imported_pdf d)]> one_file_fs.

(** ** Vocabulary of the statements *)

(** The four coordinates of two rectangles differ by less than [eps]. *)
Definition rects_within (eps : Q) (ra rb : Rect) : Prop :=
  (Qabs (x0 ra - x0 rb) < eps ∧ Qabs (y0 ra - y0 rb) < eps ∧
   Qabs (x1 ra - x1 rb) < eps ∧ Qabs (y1 ra - y1 rb) < eps)%Q.

(** Some coordinate of two rectangles differs by at least [eps]. *)
Definition rects_apart (eps : Q) (ra rb : Rect) : Prop :=
  (eps <= Qabs (x0 ra - x0 rb) ∨ eps <= Qabs (y0 ra - y0 rb) ∨
   eps <= Qabs (x1 ra - x1 rb) ∨ eps <= Qabs (y1 ra - y1 rb))%Q.

(** [u] and [v] lie strictly within 0.05 of the same multiple of 0.1. *)
Definition same_tenth (u v : Q) : Prop :=
  ∃ k : Z, (Qabs (u - inject_Z k / 10) < 1 # 20 ∧ Qabs (v - inject_Z k / 10) < 1 # 20)%Q.

Definition rects_same_tenths (ra rb : Rect) : Prop :=
  same_tenth (x0 ra) (x0 rb) ∧ same_tenth (y0 ra) (y0 rb) ∧
  same_tenth (x1 ra) (x1 rb) ∧ same_tenth (y1 ra) (y1 rb).

(** The fingerprints of the annotations of a document, one per annotation,
    in page order and then document order. *)
Fixpoint doc_keys_from (page_num : nat) (pages : list Page) : list AnnotationKey :=
  match pages with
  | [] => []
  | p :: ps => map (make_key page_num) p ++ doc_keys_from (S page_num) ps
  end.

Definition doc_keys (doc : Doc) : list AnnotationKey := doc_keys_from 0 doc.

(** The number of annotation records of a document, and the set of their
    fingerprints. *)
Definition record_count (doc : Doc) : nat := length (doc_keys doc).
Definition fingerprints (doc : Doc) : gset AnnotationKey := list_to_set (doc_keys doc).

(** The keys written by the type-specific part of the translators. *)
Definition type_specific_keys : list string :=
  ["/BS"; "/InkList"; "/L"; "/QuadPoints"; "/Vertices"; "/Name"; "/Open"]%string.

(** The annotations grouped under a page number ([by_page.get(i, [])]). *)
Fixpoint group_lookup {A} (i : nat) (by_page : list (nat * list A)) : list A :=
  match by_page with
  | [] => []
  | (p, l) :: rest => if decide (p = i) then l else group_lookup i rest
  end.

(** The number of grouped annotations whose page number is below [n]. *)
Fixpoint in_range_total {A} (n : nat) (by_page : list (nat * list A)) : nat :=
  match by_page with
  | [] => 0
  | (p, l) :: rest => (if decide (p < n)%nat then length l else 0) + in_range_total n rest
  end.

(** The groups whose page number is below [n]. *)
Definition in_range_groups {A} (n : nat) (by_page : list (nat * list A)) : list (nat * list A) :=
  filter (λ g, (g.1 < n)%nat) by_page.

(** [item] is the indirect object made of the translation of [annot] for
    [page]. *)
Definition translation_of {A T} (prepare : PdfPage → result T)
    (translate : T → Z → A → result Dictionary) (page : PdfPage)
    (annot : A) (item : PdfObject) : Prop :=
  ∃ h n d, prepare page = Ok h ∧ translate h n annot = Ok d ∧ item = IndirectAnnot d.

(** [pages'] is [pages] with, on every page, the translations of the
    annotations of that page appended, in their order, after the entries the
    page had. *)
Definition appended {A T} (prepare : PdfPage → result T)
    (translate : T → Z → A → result Dictionary) (page_of : A → nat)
    (annotations : list A) (pages pages' : list PdfPage) : Prop :=
  length pages' = length pages ∧
  ∀ i page, pages !! i = Some page →
    ∃ page' news,
      pages' !! i = Some page' ∧
      MediaBox page' = MediaBox page ∧
      existing_items page' = existing_items page ++ news ∧
      Forall2 (translation_of prepare translate page)
        (filter (λ a, page_of a = i) annotations) news.

(** The inputs on which a merge run completes: at least two of them, all of
    which open, no candidate with more pages than the base. *)
Definition candidate_fits (n : nat) (input : option Doc) : bool :=
  match input with
  | Some cand => bool_decide (length cand ≤ n)%nat
  | None => false
  end.

Definition run_completes (inputs : list (option Doc)) : bool :=
  bool_decide (2 ≤ length inputs)%nat &&
  match inputs with
  | Some base :: rest => forallb (candidate_fits (length base)) rest
  | _ => false
  end.

(** The entries [extract_annotation_keys] writes, one per annotation, in the
    order it writes them. *)
Fixpoint doc_entries_from (page_num : nat) (pages : list Page)
    : list (AnnotationKey * FitzAnnot) :=
  match pages with
  | [] => []
  | p :: ps => map (λ annot, (make_key page_num annot, annot)) p
               ++ doc_entries_from (S page_num) ps
  end.

Definition doc_entries (doc : Doc) : list (AnnotationKey * FitzAnnot) :=
  doc_entries_from 0 doc.

(** The annotations [copy_annotation] has a constructor call for: a
    supported kind, with the geometry the kind needs. *)
Definition has_call (annot : FitzAnnot) : Prop :=
  ∃ call, select_call annot = Some (Some call).

(** The state of a run on the empty one-page base before its only
    candidate, and after the candidate with the repeated highlight when the
    library accepts, or rejects, every call. *)
Definition sample_start : RunState :=
  {| run_doc := empty_one_page_doc; run_seen := ∅; run_stats := mkStats 0 0 0 0 2 |}.

Definition sample_accepted : RunState :=
  {| run_doc := [[highlight_a; highlight_a]];
     run_seen := {[make_key 0 highlight_a]};
     run_stats := mkStats 0 2 0 0 2 |}.

Definition sample_rejected : RunState :=
  {| run_doc := empty_one_page_doc; run_seen := ∅; run_stats := mkStats 0 0 2 0 2 |}.

(** A command line with two inputs, and a file system in which every path
    exists, is its own absolute path, and opens as the document with the
    repeated highlight. *)
Definition sample_argv : list string :=
  ["merge_pdf_annotations.py"; "merged.pdf"; "a.pdf"; "b.pdf"]%string.

Definition every_path_exists (path : string) : bool := true.
Definition opens_as_sample (path : string) : option Doc := Some doc_with_repeated_highlight.

(** Every character, for exhaustive checks of [py_int16] on short texts. *)
Definition all_ascii : list ascii := map ascii_of_nat (seq 0 256).

Definition two_char_int_in_range (c1 c2 : ascii) : bool :=
  match py_int16 (String c1 (String c2 EmptyString)) with
  | Some v => (-15 <=? v) && (v <=? 255)
  | None => true
  end.

(** A line annotation whose two endpoints are given as one flat pair of
    numbers, on the first page. *)
Definition flat_pair_line : PyAnnot :=
  sample_py_annot "Line" 0 (Some (PySeq [PyFloat 1; PyFloat 2])).

(** A parser that rejects every file. *)
Definition parse_nothing (data : list byte) : option Pdf := None.

(** The entries every annotation dictionary has, and the entries either
    translator can write before the type-specific handling. *)
Definition required_keys : list string :=
  ["/Type"; "/Subtype"; "/Rect"; "/F"; "/CreationDate"; "/M"]%string.

Definition common_keys : list string :=
  required_keys ++ ["/C"; "/NM"; "/T"; "/Subj"; "/Contents"; "/CA"]%string.


(** An item the geometry loops use: a list or tuple of at least two
    elements. *)
Definition is_point_like (v : PyVal) : bool :=
  match v with
  | PySeq (_ :: _ :: _) => true
  | _ => false
  end.

(** A type the translators have no table entry for, and a text note. *)
Definition unknown_kind : PyAnnot := sample_py_annot "Redact" 0 None.
Definition text_note : PyAnnot := sample_py_annot "Text" 0 None.
(** A line whose endpoints are four numbers in a row, and a highlight
    whose vertex list holds a bare number, a one-element item and a point
    with a third coordinate. *)
Definition flat_line : PyAnnot :=
  sample_py_annot "Line" 0 (Some (PySeq (map PyFloat [1; 2; 3; 4]%Q))).

Definition ragged_points : list PyVal :=
  [PyFloat 7; PySeq [PyFloat 8]; PySeq [PyFloat 1; PyFloat 2; PyFloat 3]]%Q.

(** An annotation with both colours, full opacity and a blank author. *)
Definition two_colour_annot : PyAnnot :=
  {| pa_type := "Square"; pa_page := 0; pa_rect := mkRect 10 10 50 20;
     pa_flags := Some 0; pa_stroke_color := Some [1; 0; 0]%Q;
     pa_fill_color := Some [0; 0; 1]%Q;
     pa_author := Some ""%string; pa_subject := None; pa_content := None;
     pa_opacity := Some 1%Q; pa_vertices := None; pa_border_width := None |}.

(** A reader of unsigned decimal numerals, for [int] and (with the text
    [1.0]) for [float]; an XFDF highlight with a contents child, with every
    tag in the XFDF namespace or none. *)
Fixpoint decimal_value (s : string) (acc : Z) : option Z :=
  match s with
  | EmptyString => Some acc
  | String c r =>
      let n := Z.of_nat (nat_of_ascii c) in
      if (48 <=? n) && (n <=? 57) then decimal_value r (10 * acc + (n - 48)) else None
  end.

Definition decimal_int (s : string) : result Z :=
  match s with
  | EmptyString => Raise ValueError
  | _ => match decimal_value s 0 with Some v => Ok v | None => Raise ValueError end
  end.

Definition decimal_float (s : string) : result Q :=
  if String.eqb s "1.0" then Ok 1%Q else v ← decimal_int s; Ok (inject_Z v).

Definition in_namespace (namespaced : bool) (name : string) : string :=
  if namespaced then xfdf name else name.

Definition highlight_elem (namespaced : bool) : Element :=
  mkElement (in_namespace namespaced "highlight")
    {[ "page"%string := "0"%string; "rect"%string := "1,2,3,4"%string ]} None
    [mkElement (in_namespace namespaced "contents") ∅ (Some "note"%string) []].

Definition xfdf_root (namespaced : bool) : Element :=
  mkElement (in_namespace namespaced "xfdf") ∅ None
    [mkElement (in_namespace namespaced "f") {[ "href"%string := "doc.pdf"%string ]} None [];
     mkElement (in_namespace namespaced "annots") ∅ None [highlight_elem namespaced]].

Definition highlight_dict (namespaced : bool) : XfdfDict :=
  {| xd_type := "highlight"; xd_page := 0; xd_rect := [1; 2; 3; 4]%Q; xd_name := "";
     xd_color := default_yellow; xd_title := ""; xd_subject := "";
     xd_opacity := 1; xd_width := 1; xd_flags := 4;
     xd_contents := if namespaced then None else Some "note"%string;
     xd_inklist := None; xd_start := None; xd_end := None;
     xd_quadpoints := None; xd_vertices := None |}.

(** An ink element with two gestures, the second without text; the first
    has two points and a third entry with one coordinate only. *)
Definition ink_elem : Element :=
  mkElement (xfdf "ink")
    {[ "page"%string := "0"%string; "rect"%string := "1,2,3,4"%string ]} None
    [mkElement (xfdf "inklist") ∅ None
       [mkElement (xfdf "gesture") ∅ (Some "1,2;3,4;5"%string) [];
        mkElement (xfdf "gesture") ∅ None []]].

Definition ink_dict : XfdfDict :=
  {| xd_type := "ink"; xd_page := 0; xd_rect := [1; 2; 3; 4]%Q; xd_name := "";
     xd_color := default_yellow; xd_title := ""; xd_subject := "";
     xd_opacity := 1; xd_width := 1; xd_flags := 4; xd_contents := None;
     xd_inklist := Some [[(1, 2); (3, 4)]]%Q; xd_start := None; xd_end := None;
     xd_quadpoints := None; xd_vertices := None |}.

(** The position the XFDF import reaches with the page number [page_num]
    in a document of [count] pages: the number itself when it is a position
    of the document, the position counted from the end when it is negative
    and not below [-count], and none otherwise. *)
Definition reached (count : nat) (page_num : Z) : option nat :=
  if (0 <=? page_num) && (page_num <? Z.of_nat count) then Some (Z.to_nat page_num)
  else if (page_num <? 0) && (- Z.of_nat count <=? page_num)
       then Some (Z.to_nat (page_num + Z.of_nat count))
       else None.

(** The annotations the XFDF import adds to the page at position [i], in
    the order in which it adds them: group after group. *)
Definition added_to {A} (count i : nat) (by_page : list (Z * list A)) : list A :=
  flat_map snd (filter (λ g, reached count g.1 = Some i) by_page).

(** [pages'] is [pages] with, on every page, the dictionaries of the
    annotations that reach the page appended after the entries the page
    had. *)
Definition appended_xfdf (clock : Z → string * string) (annotations : list XfdfAnnot)
    (pages pages' : list PdfPage) : Prop :=
  length pages' = length pages ∧
  ∀ i page, pages !! i = Some page →
    ∃ page' news,
      pages' !! i = Some page' ∧
      MediaBox page' = MediaBox page ∧
      existing_items page' = existing_items page ++ news ∧
      Forall2 (λ annot item, ∃ n, item = IndirectAnnot (create_annotation_dict (clock n) annot))
        (added_to (length pages) i (group_by_page_int xa_page annotations)) news.

(** A text note of the XFDF import on the page numbered [page_num], and a
    reader that finds the given annotations. *)
Definition xfdf_note (page_num : Z) : XfdfAnnot :=
  {| xa_type := "text"; xa_page := page_num; xa_rect := [10; 10; 30; 30]%Q;
     xa_name := None; xa_color := None; xa_title := None; xa_subject := None;
     xa_opacity := None; xa_width := None; xa_flags := None; xa_contents := None;
     xa_inklist := None; xa_start := None; xa_end := None;
     xa_quadpoints := None; xa_vertices := None |}.
Definition reads_as (annotations : list XfdfAnnot) (fs : FS) (xfdf_path : string)
    : result (string * list XfdfAnnot) :=
  Ok (""%string, annotations).

(** * Theorems *)

(** Reduce a [result] bind whose first computation is known. *)
Ltac simpl_result := cbn [mbind mret result_mbind result_mret result_bind] in *.

(** ** The fingerprint *)

Lemma round_half_even_close (q : Q) :
  (inject_Z (round_half_even q) - (1 # 2) <= q ∧ q <= inject_Z (round_half_even q) + (1 # 2))%Q.
Proof.
  unfold round_half_even.
  pose proof (Qfloor_le q) as Hlo.
  pose proof (Qlt_floor q) as Hhi.
  rewrite inject_Z_plus in Hhi.
  change (inject_Z 1) with 1%Q in Hhi.
  destruct (Qcompare_spec (q - inject_Z (Qfloor q)) (1 # 2)) as [He | Hl | Hg].
  - destruct (Z.even (Qfloor q)).
    + split; lra.
    + rewrite inject_Z_plus. change (inject_Z 1) with 1%Q. split; lra.
  - split; lra.
  - rewrite inject_Z_plus. change (inject_Z 1) with 1%Q. split; lra.
Qed.

Lemma round_half_even_unique (q : Q) (k : Z) :
  (Qabs (q - inject_Z k) < 1 # 2)%Q → round_half_even q = k.
Proof.
  intros Hk. apply Qabs_Qlt_condition in Hk as [Hk1 Hk2].
  destruct (round_half_even_close q) as [Hr1 Hr2].
  assert (inject_Z (round_half_even q) < inject_Z (k + 1))%Q as H1.
  { rewrite inject_Z_plus. change (inject_Z 1) with 1%Q. lra. }
  assert (inject_Z k < inject_Z (round_half_even q + 1))%Q as H2.
  { rewrite inject_Z_plus. change (inject_Z 1) with 1%Q. lra. }
  rewrite <- Zlt_Qlt in H1, H2. lia.
Qed.

Lemma py_round_tenths (x : Q) :
  py_round x default_precision = round_half_even (x * 10).
Proof. reflexivity. Qed.

(** [round(0.25, 1)] is 0.2, [round(0.75, 1)] is 0.8, [round(-0.25, 1)] is
    -0.2, [round(0.046875, 1)] is 0.0 and [round(0.0625, 1)] is 0.1. *)
Example py_round_samples :
  py_round (1 # 4) 1 = 2 ∧ py_round (3 # 4) 1 = 8 ∧ py_round (-1 # 4) 1 = -2 ∧
  py_round (3 # 64) 1 = 0 ∧ py_round (1 # 16) 1 = 1.
Proof. repeat split. Qed.

Lemma py_round_same_tenth (u v : Q) :
  same_tenth u v → py_round u default_precision = py_round v default_precision.
Proof.
  intros (k & Hu & Hv). rewrite !py_round_tenths.
  apply Qabs_Qlt_condition in Hu as [Hu1 Hu2].
  apply Qabs_Qlt_condition in Hv as [Hv1 Hv2].
  assert (inject_Z k / 10 == inject_Z k * (1 # 10))%Q as Hd by (unfold Qdiv; reflexivity).
  rewrite Hd in *.
  rewrite (round_half_even_unique (u * 10) k), (round_half_even_unique (v * 10) k);
    [done | apply Qabs_Qlt_condition; split; lra ..].
Qed.

Lemma py_round_apart (u v : Q) :
  (3 # 20 <= Qabs (u - v))%Q → py_round u default_precision ≠ py_round v default_precision.
Proof.
  intros Hd Heq. rewrite !py_round_tenths in Heq.
  destruct (round_half_even_close (u * 10)) as [Hu1 Hu2].
  destruct (round_half_even_close (v * 10)) as [Hv1 Hv2].
  rewrite Heq in Hu1, Hu2.
  assert (Qabs (u - v) <= 1 # 10)%Q as Hc by (apply Qabs_Qle_condition; split; lra).
  lra.
Qed.

(** C3 (amended).  Two annotations on the same page, of the same kind and
    with the same content text have equal fingerprints when every pair of
    corresponding rect coordinates lies strictly within 0.05 of a common
    multiple of 0.1, and unequal fingerprints when some pair of coordinates
    differs by at least 0.15. *)
Theorem fingerprint_rounding (page_num : nat) (a b : FitzAnnot) :
  type_name a = type_name b →
  content_or_empty a = content_or_empty b →
  (rects_same_tenths (a_rect a) (a_rect b) → make_key page_num a = make_key page_num b) ∧
  (rects_apart (3 # 20) (a_rect a) (a_rect b) → make_key page_num a ≠ make_key page_num b).
Proof.
  intros Hty Hct. unfold make_key, round_rect. rewrite Hty, Hct. split.
  - intros (H0 & H1 & H2 & H3).
    by rewrite (py_round_same_tenth _ _ H0), (py_round_same_tenth _ _ H1),
      (py_round_same_tenth _ _ H2), (py_round_same_tenth _ _ H3).
  - intros Hapart Heq. injection Heq as E0 E1 E2 E3.
    destruct Hapart as [Hd | [Hd | [Hd | Hd]]];
      eapply py_round_apart; eassumption.
Qed.

(** C3 as stated fails: the rects of [highlight_a] and [highlight_b] differ
    by 0.015625 in one coordinate and by nothing in the others, and the
    fingerprints differ (0.046875 rounds to 0.0, 0.0625 to 0.1). *)
Lemma fingerprint_within_005_unequal :
  type_name highlight_a = type_name highlight_b ∧
  content_or_empty highlight_a = content_or_empty highlight_b ∧
  rects_within (1 # 20) (a_rect highlight_a) (a_rect highlight_b) ∧
  make_key 0 highlight_a ≠ make_key 0 highlight_b.
Proof.
  repeat split; try reflexivity.
  intros Heq. discriminate Heq.
Qed.

Lemma fingerprint_rounding_witness :
  make_key 0 highlight_a = make_key 0 highlight_c ∧
  make_key 0 highlight_a ≠ make_key 0 highlight_d.
Proof.
  split.
  - apply (fingerprint_rounding 0 highlight_a highlight_c); [reflexivity | reflexivity |].
    repeat split; [exists 0 | exists 100 | exists 500 | exists 200]; split; reflexivity.
  - apply (fingerprint_rounding 0 highlight_a highlight_d); [reflexivity | reflexivity |].
    left. intros Hc. discriminate Hc.
Defined.

(** ** Extraction *)

Lemma dom_extract_page (page_num : nat) (annots : Page) (m : gmap AnnotationKey FitzAnnot) :
  dom (extract_page page_num m annots) = list_to_set (map (make_key page_num) annots) ∪ dom m.
Proof.
  unfold extract_page. revert m.
  induction annots as [| a annots IH]; intros m; simpl.
  - set_solver.
  - rewrite IH, dom_insert_L. set_solver.
Qed.

Lemma dom_extract_pages (page_num : nat) (pages : list Page) (m : gmap AnnotationKey FitzAnnot) :
  dom (extract_pages page_num pages m) = list_to_set (doc_keys_from page_num pages) ∪ dom m.
Proof.
  revert page_num m.
  induction pages as [| p ps IH]; intros page_num m; simpl.
  - set_solver.
  - rewrite IH, dom_extract_page, list_to_set_app_L. set_solver.
Qed.

Lemma dom_extract_annotation_keys (doc : Doc) :
  dom (extract_annotation_keys doc) = fingerprints doc.
Proof.
  unfold extract_annotation_keys, fingerprints, doc_keys.
  rewrite dom_extract_pages, dom_empty_L. set_solver.
Qed.

Lemma size_extract_annotation_keys (doc : Doc) :
  size (extract_annotation_keys doc) = size (fingerprints doc).
Proof. by rewrite <- dom_extract_annotation_keys, size_dom. Qed.

Lemma size_fingerprints_NoDup (doc : Doc) :
  NoDup (doc_keys doc) → size (fingerprints doc) = record_count doc.
Proof. intros Hnd. unfold fingerprints, record_count. by apply size_list_to_set. Qed.

Lemma size_fingerprints_le (doc : Doc) :
  (size (fingerprints doc) ≤ record_count doc)%nat.
Proof.
  unfold fingerprints, record_count.
  induction (doc_keys doc) as [| k l IH]; cbn [list_to_set length].
  - by rewrite size_empty.
  - destruct (decide (k ∈ (list_to_set l : gset AnnotationKey))) as [Hin | Hout].
    + replace ({[k]} ∪ list_to_set l) with (list_to_set l : gset AnnotationKey) by set_solver.
      lia.
    + rewrite size_union by set_solver. rewrite size_singleton. lia.
Qed.

(** ** The merge loops *)

Section MergeFacts.

Variable recreate : Page → AddCall → FitzAnnot → Page * bool.

Lemma copy_annotation_unsupported (target : Page) (annot : FitzAnnot) :
  select_call annot = None → copy_annotation recreate target annot = (target, false).
Proof. intros Hs. unfold copy_annotation. by rewrite Hs. Qed.

Lemma copy_annotation_no_geometry (target : Page) (annot : FitzAnnot) :
  select_call annot = Some None → copy_annotation recreate target annot = (target, false).
Proof. intros Hs. unfold copy_annotation. by rewrite Hs. Qed.

Lemma merge_annot_counts (unique_keys : gset AnnotationKey) (page_num : nat)
    (st : PageState) (annot : FitzAnnot) :
  let st' := merge_annot recreate unique_keys page_num st annot in
  merged_count st' + failed_count st'
  = merged_count st + failed_count st
    + Z.of_nat (length (filter (λ k, k ∈ unique_keys) [make_key page_num annot])).
Proof.
  unfold merge_annot. simpl. rewrite filter_cons, filter_nil.
  destruct (decide (make_key page_num annot ∈ unique_keys)); simpl; [| lia].
  destruct (copy_annotation recreate (target_page st) annot).2; simpl; lia.
Qed.

Lemma foldl_merge_annot_counts (unique_keys : gset AnnotationKey) (page_num : nat)
    (annots : Page) (st : PageState) :
  let st' := foldl (merge_annot recreate unique_keys page_num) st annots in
  merged_count st' + failed_count st'
  = merged_count st + failed_count st
    + Z.of_nat (length (filter (λ k, k ∈ unique_keys) (map (make_key page_num) annots))).
Proof.
  revert st. induction annots as [| a annots IH]; intros st; simpl.
  - lia.
  - simpl in IH. rewrite IH.
    pose proof (merge_annot_counts unique_keys page_num st a) as Ha. simpl in Ha.
    rewrite Ha, !filter_cons, filter_nil.
    destruct (decide (make_key page_num a ∈ unique_keys)); simpl; lia.
Qed.

Lemma foldl_merge_annot_no_unique (page_num : nat) (annots : Page) (st : PageState) :
  foldl (merge_annot recreate ∅ page_num) st annots = st.
Proof.
  induction annots as [| a annots IH]; simpl; [done |].
  unfold merge_annot at 2. by rewrite decide_False by set_solver.
Qed.

(** A completed loop over the pages keeps the page count of the base
    document and accounts, as merged or failed, for every annotation whose
    key is in [unique_keys]. *)
Lemma merge_pages_ok (unique_keys : gset AnnotationKey) (source_pages : list Page)
    (page_num : nat) (st st' : MergeState) :
  merge_pages recreate unique_keys page_num source_pages st = Ok st' →
  length (base_doc st') = length (base_doc st) ∧
  merged st' + failed st'
  = merged st + failed st
    + Z.of_nat (length (filter (λ k, k ∈ unique_keys) (doc_keys_from page_num source_pages))).
Proof.
  revert page_num st.
  induction source_pages as [| sp rest IH]; intros page_num st Hrun; simpl in Hrun.
  - injection Hrun as <-. simpl. split; [done | lia].
  - destruct (base_doc st !! page_num) as [target |] eqn:Htarget; [| discriminate].
    apply IH in Hrun as [Hlen Hcnt]. simpl in Hlen, Hcnt.
    rewrite length_insert in Hlen. split; [done |].
    rewrite Hcnt. simpl. rewrite filter_app, length_app.
    pose proof (foldl_merge_annot_counts unique_keys page_num sp
                  {| target_page := target; seen := all_seen_keys st;
                     merged_count := merged st; failed_count := failed st |}) as Hf.
    simpl in Hf. rewrite Hf. lia.
Qed.

(** The loop over the pages completes whenever the base document has a page
    for every page of the candidate, whatever the external library does. *)
Lemma merge_pages_total (unique_keys : gset AnnotationKey) (source_pages : list Page)
    (page_num : nat) (st : MergeState) :
  (page_num + length source_pages ≤ length (base_doc st))%nat →
  ∃ st', merge_pages recreate unique_keys page_num source_pages st = Ok st'.
Proof.
  revert page_num st.
  induction source_pages as [| sp rest IH]; intros page_num st Hfit; simpl in *.
  - by eexists.
  - destruct (lookup_lt_is_Some_2 (base_doc st) page_num) as [target Htarget]; [lia |].
    rewrite Htarget. apply IH. simpl. rewrite length_insert. lia.
Qed.

Lemma merge_pages_no_unique (source_pages : list Page) (page_num : nat) (st : MergeState) :
  (page_num + length source_pages ≤ length (base_doc st))%nat →
  merge_pages recreate ∅ page_num source_pages st = Ok st.
Proof.
  revert page_num.
  induction source_pages as [| sp rest IH]; intros page_num Hfit; simpl in *; [done |].
  destruct (lookup_lt_is_Some_2 (base_doc st) page_num) as [target Htarget]; [lia |].
  rewrite Htarget, foldl_merge_annot_no_unique. simpl.
  rewrite list_insert_id by done.
  destruct st as [bd sk m f]. simpl in *. apply IH. lia.
Qed.

Lemma merge_candidate_total (rs : RunState) (cand : Doc) :
  (length cand ≤ length (run_doc rs))%nat →
  ∃ rs', merge_candidate recreate rs (Some cand) = Ok rs' ∧
         length (run_doc rs') = length (run_doc rs) ∧
         files_processed (run_stats rs') = files_processed (run_stats rs) ∧
         base_annotations (run_stats rs') = base_annotations (run_stats rs).
Proof.
  intros Hfit. unfold merge_candidate.
  set (st0 := {| base_doc := run_doc rs; all_seen_keys := run_seen rs;
                 merged := 0; failed := 0 |}).
  destruct (merge_pages_total
              (dom (extract_annotation_keys cand) ∖ run_seen rs) cand 0 st0)
    as [st' Hst']; [simpl; lia |].
  rewrite Hst'. simpl. eexists. split; [reflexivity |]. simpl.
  apply merge_pages_ok in Hst' as [Hlen _]. by rewrite Hlen.
Qed.

Lemma merge_candidates_total (cands : list Doc) (rs : RunState) :
  Forall (λ c : Doc, (length c ≤ length (run_doc rs))%nat) cands →
  ∃ rs', merge_candidates recreate rs (Some <$> cands) = Ok rs' ∧
         length (run_doc rs') = length (run_doc rs) ∧
         files_processed (run_stats rs') = files_processed (run_stats rs) ∧
         base_annotations (run_stats rs') = base_annotations (run_stats rs).
Proof.
  revert rs. induction cands as [| c cands IH]; intros rs Hfit.
  - by eexists.
  - apply Forall_cons in Hfit as [Hc Hrest].
    destruct (merge_candidate_total rs c Hc) as (rs1 & Hrs1 & Hlen1 & Hf1 & Hb1).
    rewrite fmap_cons. cbn [merge_candidates]. rewrite Hrs1. simpl_result.
    destruct (IH rs1) as (rs' & Hrs' & Hlen' & Hf' & Hb').
    { by rewrite Hlen1. }
    exists rs'. rewrite Hrs'. repeat split; congruence.
Qed.

Lemma merge_pages_is_ok (unique_keys : gset AnnotationKey) (source_pages : list Page)
    (page_num : nat) (st : MergeState) :
  (page_num ≤ length (base_doc st))%nat →
  is_ok (merge_pages recreate unique_keys page_num source_pages st)
  = bool_decide (page_num + length source_pages ≤ length (base_doc st))%nat.
Proof.
  revert page_num st.
  induction source_pages as [| sp rest IH]; intros page_num st Hle; cbn [merge_pages length].
  - cbn [is_ok]. symmetry. apply bool_decide_eq_true. lia.
  - destruct (base_doc st !! page_num) as [target |] eqn:Htarget.
    + apply lookup_lt_Some in Htarget. rewrite IH.
      * cbn [base_doc]. rewrite length_insert. apply bool_decide_ext. lia.
      * cbn [base_doc]. rewrite length_insert. lia.
    + apply lookup_ge_None in Htarget. cbn [is_ok]. symmetry.
      apply bool_decide_eq_false. lia.
Qed.

Lemma merge_candidate_is_ok (rs : RunState) (input : option Doc) :
  is_ok (merge_candidate recreate rs input) = candidate_fits (length (run_doc rs)) input.
Proof.
  destruct input as [cand |]; [| done]. unfold merge_candidate. cbn [candidate_fits].
  pose proof (merge_pages_is_ok (dom (extract_annotation_keys cand) ∖ run_seen rs) cand 0
                {| base_doc := run_doc rs; all_seen_keys := run_seen rs;
                   merged := 0; failed := 0 |}) as Hpages.
  cbn [base_doc plus] in Hpages. rewrite <- Hpages by lia.
  by destruct (merge_pages _ _ _ _ _).
Qed.

Lemma merge_candidates_is_ok (inputs : list (option Doc)) (rs : RunState) :
  is_ok (merge_candidates recreate rs inputs)
  = forallb (candidate_fits (length (run_doc rs))) inputs.
Proof.
  revert rs. induction inputs as [| input rest IH]; intros rs; [done |].
  cbn [merge_candidates forallb]. rewrite <- merge_candidate_is_ok.
  destruct input as [cand |]; [| done].
  destruct (merge_candidate recreate rs (Some cand)) as [rs1 |] eqn:Hstep; [| done].
  simpl_result. cbn [is_ok andb]. rewrite IH. f_equal. f_equal.
  assert (is_ok (merge_candidate recreate rs (Some cand)) = true) as Hok by (by rewrite Hstep).
  rewrite merge_candidate_is_ok in Hok. cbn [candidate_fits] in Hok.
  apply bool_decide_eq_true in Hok.
  destruct (merge_candidate_total rs cand Hok) as (rs2 & Hrs2 & Hlen & _).
  congruence.
Qed.

(** A run completes exactly on the inputs of [run_completes]: whether it
    does is decided by the inputs alone. *)
Lemma merge_pdf_annotations_is_ok (inputs : list (option Doc)) :
  is_ok (merge_pdf_annotations recreate inputs) = run_completes inputs.
Proof.
  unfold merge_pdf_annotations, run_completes.
  destruct inputs as [| first [| input rest]]; [done | by destruct first |].
  change (length (first :: input :: rest) <? 2)%nat with false.
  rewrite bool_decide_eq_true_2 by (simpl; lia). cbn [andb].
  destruct first as [base |]; [| done].
  rewrite <- (merge_candidates_is_ok (input :: rest)
                {| run_doc := base; run_seen := dom (extract_annotation_keys base);
                   run_stats :=
                     {| base_annotations := Z.of_nat (size (extract_annotation_keys base));
                        merged_annotations := 0; failed_annotations := 0;
                        duplicate_annotations := 0;
                        files_processed := Z.of_nat (length (Some base :: input :: rest)) |} |}).
  by destruct (merge_candidates _ _ _).
Qed.

End MergeFacts.

(** ** The merge run *)

(** C1 (amended).  Processing a candidate increments the duplicate counter
    by the number of distinct fingerprints among the candidate's annotation
    records minus the number of unique fingerprints (those not in the running
    seen set when the candidate is taken up); a fingerprint that occurs
    several times in the candidate counts once in both numbers.  The step
    completes whenever the base document has a page for every page of the
    candidate, and when the fingerprints of the candidate are pairwise
    distinct the first number is the number of its records. *)
Theorem duplicate_counter_increment
    (recreate : Page → AddCall → FitzAnnot → Page * bool) (rs : RunState) (cand : Doc) :
  (∀ rs', merge_candidate recreate rs (Some cand) = Ok rs' →
     duplicate_annotations (run_stats rs')
     = duplicate_annotations (run_stats rs)
       + (Z.of_nat (size (fingerprints cand))
          - Z.of_nat (size (fingerprints cand ∖ run_seen rs)))) ∧
  ((length cand ≤ length (run_doc rs))%nat →
     ∃ rs', merge_candidate recreate rs (Some cand) = Ok rs') ∧
  (∀ base st doc,
     merge_pdf_annotations recreate [Some base; Some cand] = Ok (st, doc) →
     duplicate_annotations st
     = Z.of_nat (size (fingerprints cand))
       - Z.of_nat (size (fingerprints cand ∖ fingerprints base))) ∧
  (NoDup (doc_keys cand) → size (fingerprints cand) = record_count cand).
Proof.
  assert (∀ rs0 rs', merge_candidate recreate rs0 (Some cand) = Ok rs' →
            duplicate_annotations (run_stats rs')
            = duplicate_annotations (run_stats rs0)
              + (Z.of_nat (size (fingerprints cand))
                 - Z.of_nat (size (fingerprints cand ∖ run_seen rs0)))) as Hstep.
  { intros rs0 rs' Hrun. unfold merge_candidate in Hrun.
    destruct (merge_pages _ _ _ _ _) as [st |]; simpl_result; [| discriminate].
    injection Hrun as <-. simpl.
    by rewrite size_extract_annotation_keys, dom_extract_annotation_keys. }
  split; [| split; [| split]].
  - apply Hstep.
  - intros Hfit.
    destruct (merge_candidate_total recreate rs cand Hfit) as (rs' & Hrs' & _).
    by exists rs'.
  - intros base st doc Hrun. unfold merge_pdf_annotations in Hrun.
    cbn [length Nat.ltb Nat.leb merge_candidates] in Hrun.
    destruct (merge_candidate _ _ _) as [rs' |] eqn:Hcand; simpl_result; [| discriminate].
    injection Hrun as <- _. apply Hstep in Hcand. cbn [run_stats run_seen] in Hcand.
    rewrite dom_extract_annotation_keys in Hcand. cbn in Hcand. lia.
  - apply size_fingerprints_NoDup.
Qed.

(** C1 as stated fails: a candidate with two records of one fingerprint that
    the base does not have has 2 records and 1 unique fingerprint, and the
    run leaves the duplicate counter at 0, not at 2 - 1. *)
Lemma duplicate_counter_not_record_count :
  ∃ st doc,
    merge_pdf_annotations accept_all
      [Some empty_one_page_doc; Some doc_with_repeated_highlight] = Ok (st, doc) ∧
    duplicate_annotations st = 0 ∧
    Z.of_nat (record_count doc_with_repeated_highlight)
    - Z.of_nat (size (fingerprints doc_with_repeated_highlight
                      ∖ fingerprints empty_one_page_doc)) = 1.
Proof.
  eexists _, _. split; [| split].
  - vm_compute. reflexivity.
  - reflexivity.
  - vm_compute. reflexivity.
Qed.

Lemma duplicate_counter_increment_witness :
  ∃ rs',
    merge_candidate accept_all
      {| run_doc := empty_one_page_doc; run_seen := ∅;
         run_stats := mkStats 0 0 0 0 2 |}
      (Some doc_with_repeated_highlight) = Ok rs'.
Proof.
  apply (duplicate_counter_increment accept_all
           {| run_doc := empty_one_page_doc; run_seen := ∅;
              run_stats := mkStats 0 0 0 0 2 |}
           doc_with_repeated_highlight).
  simpl. lia.
Defined.

(** C4.  Merging a document with itself as the sole candidate completes,
    merges nothing, fails nothing, leaves the document as it was and reports
    a duplicate count equal to the base annotation count. *)
Theorem merge_with_itself
    (recreate : Page → AddCall → FitzAnnot → Page * bool) (A : Doc) :
  ∃ st,
    merge_pdf_annotations recreate [Some A; Some A] = Ok (st, A) ∧
    merged_annotations st = 0 ∧
    failed_annotations st = 0 ∧
    duplicate_annotations st = base_annotations st ∧
    base_annotations st = Z.of_nat (size (fingerprints A)).
Proof.
  unfold merge_pdf_annotations. cbn [length Nat.ltb Nat.leb merge_candidates].
  unfold merge_candidate. cbn [run_seen run_doc run_stats].
  replace (dom (extract_annotation_keys A) ∖ dom (extract_annotation_keys A))
    with (∅ : gset AnnotationKey) by set_solver.
  rewrite merge_pages_no_unique by (simpl; lia).
  simpl_result. cbn.
  eexists. split; [reflexivity |]. cbn.
  rewrite size_extract_annotation_keys, size_empty. repeat split; lia.
Qed.

(** C7.  Whether a run completes is decided by its inputs alone, not by
    what the re-creation of any annotation does.  A run with fewer than two
    inputs raises [ValueError].  A run with at least two inputs that open, on
    a base document with a page for every page of every candidate, completes
    whatever the re-creation of each annotation does.  An annotation of an unsupported kind or without the
    geometry its kind needs is not re-created; an annotation whose
    re-creation fails only increments the failed counter; and a completed
    candidate has counted every annotation with a unique fingerprint as
    merged or as failed. *)
Theorem merge_failure_semantics
    (recreate : Page → AddCall → FitzAnnot → Page * bool) :
  (∀ inputs, is_ok (merge_pdf_annotations recreate inputs) = run_completes inputs) ∧
  (∀ inputs, (length inputs < 2)%nat →
     merge_pdf_annotations recreate inputs = Raise ValueError) ∧
  (∀ base cands, cands ≠ [] →
     Forall (λ c : Doc, (length c ≤ length base)%nat) cands →
     ∃ st doc,
       merge_pdf_annotations recreate (Some base :: (Some <$> cands)) = Ok (st, doc) ∧
       files_processed st = Z.of_nat (S (length cands))) ∧
  (∀ target annot,
     select_call annot = None ∨ select_call annot = Some None →
     copy_annotation recreate target annot = (target, false)) ∧
  (∀ unique_keys page_num st annot,
     make_key page_num annot ∈ unique_keys →
     (copy_annotation recreate (target_page st) annot).2 = false →
     merge_annot recreate unique_keys page_num st annot
     = {| target_page := (copy_annotation recreate (target_page st) annot).1;
          seen := seen st;
          merged_count := merged_count st;
          failed_count := failed_count st + 1 |}) ∧
  (∀ rs cand rs',
     merge_candidate recreate rs (Some cand) = Ok rs' →
     (merged_annotations (run_stats rs') - merged_annotations (run_stats rs))
     + (failed_annotations (run_stats rs') - failed_annotations (run_stats rs))
     = Z.of_nat (length (filter (λ k, k ∈ fingerprints cand ∖ run_seen rs) (doc_keys cand)))).
Proof.
  repeat apply conj.
  - apply merge_pdf_annotations_is_ok.
  - intros inputs Hlen. unfold merge_pdf_annotations.
    by destruct inputs as [| i1 [| i2 rest]]; [| | simpl in Hlen; lia].
  - intros base cands Hne Hfit. unfold merge_pdf_annotations.
    destruct cands as [| c cands]; [done |].
    cbn [length fmap list_fmap Nat.ltb Nat.leb].
    set (rs0 := {| run_doc := base |}).
    destruct (merge_candidates_total recreate (c :: cands) rs0 Hfit)
      as (rs' & Hrs' & _ & Hfiles & _).
    rewrite fmap_cons in Hrs'. rewrite Hrs'. simpl_result.
    eexists _, _. split; [reflexivity |].
    rewrite Hfiles. subst rs0. cbn [run_stats files_processed length].
    rewrite length_fmap. lia.
  - intros target annot [Hs | Hs].
    + by apply copy_annotation_unsupported.
    + by apply copy_annotation_no_geometry.
  - intros unique_keys page_num st annot Hin Hfail. unfold merge_annot.
    rewrite decide_True by done. by rewrite Hfail.
  - intros rs cand rs' Hrun. unfold merge_candidate in Hrun.
    destruct (merge_pages _ _ _ _ _) as [st |] eqn:Hpages; simpl_result; [| discriminate].
    injection Hrun as <-. cbn.
    apply merge_pages_ok in Hpages as [_ Hcnt]. cbn in Hcnt.
    rewrite dom_extract_annotation_keys in Hcnt. unfold doc_keys. lia.
Qed.

Lemma merge_failure_semantics_witness :
  merge_pdf_annotations reject_all [Some empty_one_page_doc] = Raise ValueError ∧
  ∃ st doc,
    merge_pdf_annotations reject_all
      (Some empty_one_page_doc :: (Some <$> [doc_with_repeated_highlight])) = Ok (st, doc) ∧
    files_processed st = Z.of_nat 2.
Proof.
  split.
  - apply (proj1 (proj2 (merge_failure_semantics reject_all))). simpl. lia.
  - apply (proj1 (proj2 (proj2 (merge_failure_semantics reject_all)))
             empty_one_page_doc [doc_with_repeated_highlight]).
    + discriminate.
    + repeat constructor.
Defined.

(** ** The colour parser *)

Lemma hex_digit_range (c : ascii) (v : Z) : hex_digit c = Some v → 0 ≤ v ≤ 15.
Proof.
  unfold hex_digit.
  repeat case_match; intros [= <-]; lia.
Qed.

Lemma hex_digit_plain (c : ascii) (v : Z) :
  hex_digit c = Some v →
  is_space c = false ∧ c ≠ "+"%char ∧ c ≠ "-"%char ∧ c ≠ "x"%char ∧ c ≠ "X"%char.
Proof.
  destruct c as [[] [] [] [] [] [] [] []]; vm_compute; intros [= <-]; done.
Qed.

(** [int] on two-character texts: digits, a sign, a blank at either end,
    and texts it rejects. *)
Example py_int16_samples :
  py_int16 "ff" = Some 255 ∧ py_int16 "+f" = Some 15 ∧ py_int16 "-f" = Some (-15) ∧
  py_int16 " f" = Some 15 ∧ py_int16 "f " = Some 15 ∧ py_int16 "-0" = Some 0 ∧
  py_int16 "GG" = None ∧ py_int16 "0x" = None ∧ py_int16 "_f" = None ∧
  py_int16 "f_" = None ∧ py_int16 "++" = None ∧ py_int16 "+ " = None ∧
  py_int16 "  " = None.
Proof. repeat split. Qed.

(** [int(text, 16)] on two hex digits. *)
Lemma py_int16_two_digits (h l : ascii) (vh vl : Z) :
  hex_digit h = Some vh → hex_digit l = Some vl →
  py_int16 (String h (String l EmptyString)) = Some (16 * vh + vl).
Proof.
  intros Hh Hl.
  destruct (hex_digit_plain h vh Hh) as (Hsp & Hplus & Hminus & _ & _).
  destruct (hex_digit_plain l vl Hl) as (_ & _ & _ & Hx & HX).
  unfold py_int16. cbn [skip_spaces]. rewrite Hsp.
  assert (∀ r : string,
            match String h r with
            | String "+" r' => (1, r')
            | String "-" r' => (-1, r')
            | _ => (1, String h r)
            end = (1, String h r)) as Hsign.
  { intros r. destruct h as [[] [] [] [] [] [] [] []]; done. }
  rewrite Hsign.
  assert (match String h (String l EmptyString) with
          | String "0" (String "x" r) | String "0" (String "X" r) =>
              match r with String "_" r' => r' | _ => r end
          | _ => String h (String l EmptyString)
          end = String h (String l EmptyString)) as Hprefix.
  { destruct h as [[] [] [] [] [] [] [] []]; try done.
    destruct l as [[] [] [] [] [] [] [] []]; done. }
  rewrite Hprefix. cbn [scan_hex]. rewrite Hh, Hl. cbn [skip_spaces].
  f_equal. lia.
Qed.

(** On a [#] followed by six hex digits the parser returns the three
    components, each in [0, 1]. *)
Lemma parse_color_six_hex_digits (c1 c2 c3 c4 c5 c6 : ascii) (v1 v2 v3 v4 v5 v6 : Z) :
  hex_digit c1 = Some v1 → hex_digit c2 = Some v2 → hex_digit c3 = Some v3 →
  hex_digit c4 = Some v4 → hex_digit c5 = Some v5 → hex_digit c6 = Some v6 →
  let rgb := [(inject_Z (16 * v1 + v2) / 255)%Q;
              (inject_Z (16 * v3 + v4) / 255)%Q;
              (inject_Z (16 * v5 + v6) / 255)%Q] in
  parse_color
    (Some (String "#" (String c1 (String c2 (String c3 (String c4 (String c5
             (String c6 EmptyString)))))))) = Ok rgb ∧
  Forall (λ x, (0 <= x ∧ x <= 1)%Q) rgb.
Proof.
  intros H1 H2 H3 H4 H5 H6 rgb. split.
  - unfold parse_color, int16. cbn [String.length Nat.eqb substring].
    rewrite (py_int16_two_digits c1 c2 v1 v2), (py_int16_two_digits c3 c4 v3 v4),
      (py_int16_two_digits c5 c6 v5 v6) by done.
    reflexivity.
  - apply hex_digit_range in H1, H2, H3, H4, H5, H6.
    assert (∀ v : Z, 0 ≤ v ≤ 255 → (0 <= inject_Z v / 255 ∧ inject_Z v / 255 <= 1)%Q) as Hc.
    { intros v Hv. unfold Qdiv, Qle. simpl. lia. }
    subst rgb. repeat constructor; apply Hc; lia.
Qed.

(** Absent, empty, not starting with [#], or of another length: yellow. *)
Lemma parse_color_defaults (s : string) :
  parse_color None = Ok default_yellow ∧
  parse_color (Some EmptyString) = Ok default_yellow ∧
  ((∀ r, s ≠ String "#" r) → parse_color (Some s) = Ok default_yellow) ∧
  (String.length s ≠ 6%nat → parse_color (Some (String "#" s)) = Ok default_yellow).
Proof.
  repeat split.
  - intros Hs. destruct s as [| c r]; [done |]. unfold parse_color.
    destruct (Ascii.eqb_spec c "#") as [-> | Hne]; [by destruct (Hs r) |].
    destruct c as [[] [] [] [] [] [] [] []]; done.
  - intros Hlen. unfold parse_color.
    by destruct (Nat.eqb_spec (String.length s) 6).
Qed.

(** C6, the failing input.  A [#] followed by six characters that are not
    hex digits is not answered with the default colour: [int] raises
    [ValueError] and the parser lets it through. *)
Theorem parse_color_non_hex_raises :
  parse_color (Some "#GGGGGG"%string) = Raise ValueError.
Proof. reflexivity. Qed.

(** The same slip lets a signed digit pair through: the red component of
    ["#-f0000"] is -15/255, outside [0, 1]. *)
Lemma parse_color_signed_component :
  parse_color (Some "#-f0000"%string) = Ok [(inject_Z (-15) / 255)%Q; (inject_Z 0 / 255)%Q; (inject_Z 0 / 255)%Q].
Proof. reflexivity. Qed.

(** ** The empty annotation list *)

Lemma copy_file_distinct (fs : FS) (src dst : string) (data : list byte) :
  src ≠ dst → fs !! src = Some data → copy_file fs src dst = Ok (<[dst := data]> fs).
Proof.
  intros Hne Hsrc. unfold copy_file, read_file.
  rewrite Hsrc. simpl_result.
  rewrite lookup_insert_ne by done. rewrite Hsrc. simpl_result.
  by rewrite insert_insert_eq.
Qed.

Lemma copy_file_same (fs : FS) (path : string) (data : list byte) :
  fs !! path = Some data → copy_file fs path path = Ok (<[path := []]> fs).
Proof.
  intros Hsrc. unfold copy_file, read_file.
  rewrite Hsrc. simpl_result.
  rewrite lookup_insert_eq. simpl_result.
  by rewrite insert_insert_eq.
Qed.

(** With an empty annotation list and an output path that reaches another
    file than the input path, both import functions return 0, leave every
    other file alone and store the bytes of the input in the output file; the
    document is neither parsed nor serialized. *)
Lemma import_empty_list_copies
    (pdf_parse : list byte → option Pdf) (pdf_serialize : bool → Pdf → list byte)
    (parse_xfdf : FS → string → result (string * list XfdfAnnot))
    (clock : Z → string * string) (resolve : string → string)
    (fs : FS) (pdf_path xfdf_path output_path : string) (data : list byte)
    (linearize : bool) (source : string) :
  resolve pdf_path ≠ resolve output_path →
  fs !! resolve pdf_path = Some data →
  import_annotations_direct pdf_parse pdf_serialize clock resolve fs pdf_path [] output_path
  = Ok (0, <[resolve output_path := data]> fs) ∧
  (parse_xfdf fs xfdf_path = Ok (source, []) →
   import_xfdf_to_pdf pdf_parse pdf_serialize parse_xfdf clock resolve fs pdf_path xfdf_path
     output_path linearize
   = Ok (0, <[resolve output_path := data]> fs)).
Proof.
  intros Hne Hsrc. split.
  - unfold import_annotations_direct. by rewrite (copy_file_distinct fs _ _ data).
  - intros Hparse. unfold import_xfdf_to_pdf. rewrite Hparse. simpl_result. cbn [snd].
    by rewrite (copy_file_distinct fs _ _ data).
Qed.

(** C9, the failing input.  With an empty annotation list and the output
    path equal to the input path, both import functions return 0 and leave an
    empty file where the PDF was: the file is truncated when it is opened for
    writing, before it is read. *)
Theorem import_empty_list_same_path
    (pdf_parse : list byte → option Pdf) (pdf_serialize : bool → Pdf → list byte)
    (clock : Z → string * string) (linearize : bool) :
  one_file_fs !! "doc.pdf"%string = Some pdf_bytes ∧
  import_annotations_direct pdf_parse pdf_serialize clock same_directory one_file_fs
    "doc.pdf" [] "doc.pdf"
  = Ok (0, {[ "doc.pdf"%string := [] ]}) ∧
  import_xfdf_to_pdf pdf_parse pdf_serialize no_annotations clock same_directory one_file_fs
    "doc.pdf" "comments.xfdf" "doc.pdf" linearize
  = Ok (0, {[ "doc.pdf"%string := [] ]}).
Proof.
  assert (copy_file one_file_fs "doc.pdf" "doc.pdf" = Ok {[ "doc.pdf"%string := [] ]}) as Hcopy.
  { rewrite (copy_file_same one_file_fs "doc.pdf" pdf_bytes) by done.
    unfold one_file_fs. by rewrite insert_singleton_eq. }
  split; [done | split].
  - unfold import_annotations_direct, same_directory. by rewrite Hcopy.
  - unfold import_xfdf_to_pdf, no_annotations, same_directory. simpl_result. cbn [snd].
    by rewrite Hcopy.
Qed.

(** ** The translators *)

Lemma lookup_set_if_ne (c : bool) (k k' : string) (v : PdfVal) (d : Dictionary) :
  k ≠ k' → set_if c k v d !! k' = d !! k'.
Proof. intros Hne. unfold set_if. destruct c; [by rewrite lookup_insert_ne | done]. Qed.

Lemma lookup_set_opt_ne (k k' : string) (o : option PdfVal) (d : Dictionary) :
  k ≠ k' → set_opt k o d !! k' = d !! k'.
Proof. intros Hne. unfold set_opt. destruct o; [by rewrite lookup_insert_ne | done]. Qed.

Lemma lookup_set_opt_eq (k : string) (o : option PdfVal) (d : Dictionary) :
  d !! k = None → set_opt k o d !! k = o.
Proof. intros Hk. unfold set_opt. destruct o; [by rewrite lookup_insert_eq | done]. Qed.

Ltac dict_lookup :=
  repeat first
    [ rewrite lookup_insert_eq
    | rewrite lookup_insert_ne by done
    | rewrite lookup_set_if_ne by done
    | rewrite lookup_set_opt_ne by done
    | rewrite lookup_empty ].

Ltac split_keys H :=
  unfold type_specific_keys in H;
  repeat (apply not_elem_of_cons in H as [? H]).

Lemma pymupdf_common_dict_rect (stamps : string * string) (annot : PyAnnot) (h : Q) :
  pymupdf_common_dict stamps annot h !! "/Rect"
  = Some (real_array [x0 (pa_rect annot); (h - y1 (pa_rect annot))%Q;
                      x1 (pa_rect annot); (h - y0 (pa_rect annot))%Q]).
Proof.
  unfold pymupdf_common_dict. cbv zeta.
  destruct (list_truth (pa_stroke_color annot)); by dict_lookup.
Qed.

Lemma pymupdf_common_dict_subtype (stamps : string * string) (annot : PyAnnot) (h : Q) :
  pymupdf_common_dict stamps annot h !! "/Subtype"
  = Some (PName (type_map_get type_map_pymupdf (pa_type annot) "/Text")).
Proof.
  unfold pymupdf_common_dict. cbv zeta.
  destruct (list_truth (pa_stroke_color annot)); by dict_lookup.
Qed.

Lemma pymupdf_common_dict_no_geometry (stamps : string * string) (annot : PyAnnot) (h : Q)
    (k : string) :
  k ∈ ["/InkList"; "/L"; "/QuadPoints"; "/Vertices"]%string →
  pymupdf_common_dict stamps annot h !! k = None.
Proof.
  intros Hk. unfold pymupdf_common_dict. cbv zeta.
  repeat (apply elem_of_cons in Hk as [-> | Hk]);
    [destruct (list_truth (pa_stroke_color annot)); by dict_lookup .. |].
  by apply elem_of_nil in Hk.
Qed.

Lemma xfdf_common_dict_subtype (stamps : string * string) (annot : XfdfAnnot) :
  xfdf_common_dict stamps annot !! "/Subtype"
  = Some (PName (type_map_get type_map_xfdf (lower (xa_type annot)) "/Text")).
Proof. unfold xfdf_common_dict. cbv zeta. by dict_lookup. Qed.

Lemma xfdf_common_dict_no_vertices (stamps : string * string) (annot : XfdfAnnot) :
  xfdf_common_dict stamps annot !! "/Vertices" = None.
Proof. unfold xfdf_common_dict. cbv zeta. by dict_lookup. Qed.

(** The type-specific part of the translator writes only its own keys. *)
Lemma convert_frame (stamps : string * string) (annot : PyAnnot) (h : Q)
    (d : Dictionary) (k : string) :
  k ∉ type_specific_keys →
  convert_pymupdf_to_pdf_annot stamps annot h = Ok d →
  d !! k = pymupdf_common_dict stamps annot h !! k.
Proof.
  intros Hk. split_keys Hk. unfold convert_pymupdf_to_pdf_annot. cbv zeta.
  repeat case_match; simpl_result; try discriminate;
    repeat (match goal with
            | |- context [result_bind _ ?m] => destruct m; cbn [result_bind]
            | |- context [mbind _ ?m] => destruct m; simpl_result
            end);
    try discriminate; intros [= <-]; by dict_lookup.
Qed.

Lemma convert_ink (stamps : string * string) (annot : PyAnnot) (h : Q) :
  pa_type annot = "Ink"%string →
  convert_pymupdf_to_pdf_annot stamps annot h
  = (ink ← (if py_truth (pa_vertices annot) then
              match pa_vertices annot with
              | Some v =>
                  strokes ← py_iter v;
                  ink_list ← flip_strokes h strokes;
                  Ok (Some (PArray ink_list))
              | None => Ok None
              end
            else Ok None);
     Ok (<["/BS" := border_style (default 1%Q (pa_border_width annot))]>
           (set_opt "/InkList" ink (pymupdf_common_dict stamps annot h)))).
Proof. intros Hty. unfold convert_pymupdf_to_pdf_annot. by rewrite Hty. Qed.

Lemma convert_line (stamps : string * string) (annot : PyAnnot) (h : Q) :
  pa_type annot = "Line"%string →
  convert_pymupdf_to_pdf_annot stamps annot h
  = (l ← line_endpoints h (pa_vertices annot);
     Ok (set_opt "/L" l (pymupdf_common_dict stamps annot h))).
Proof. intros Hty. unfold convert_pymupdf_to_pdf_annot. by rewrite Hty. Qed.

Lemma convert_markup (stamps : string * string) (annot : PyAnnot) (h : Q) :
  pa_type annot ∈ ["Highlight"; "Underline"; "StrikeOut"; "Squiggly"]%string →
  convert_pymupdf_to_pdf_annot stamps annot h
  = (q ← flipped_flat h (pa_vertices annot);
     Ok (set_opt "/QuadPoints" q (pymupdf_common_dict stamps annot h))).
Proof.
  intros Hty. unfold convert_pymupdf_to_pdf_annot.
  repeat (apply elem_of_cons in Hty as [Hty | Hty]); [by rewrite Hty .. |].
  by apply elem_of_nil in Hty.
Qed.

Lemma convert_polygon (stamps : string * string) (annot : PyAnnot) (h : Q) :
  pa_type annot ∈ ["Polygon"; "PolyLine"]%string →
  convert_pymupdf_to_pdf_annot stamps annot h
  = (v ← flipped_flat h (pa_vertices annot);
     Ok (set_opt "/Vertices" v (pymupdf_common_dict stamps annot h))).
Proof.
  intros Hty. unfold convert_pymupdf_to_pdf_annot.
  repeat (apply elem_of_cons in Hty as [Hty | Hty]); [by rewrite Hty .. |].
  by apply elem_of_nil in Hty.
Qed.

Lemma flip_points_typed (h : Q) (ps : list (Q * Q)) :
  flip_points h (map py_point ps) = Ok (flipped h ps).
Proof.
  induction ps as [| p ps IH]; [done |].
  cbn [map py_point flip_points py_float py_rsub]. simpl_result.
  by rewrite IH.
Qed.

Lemma flip_strokes_typed (h : Q) (strokes : list (list (Q * Q))) :
  flip_strokes h (map py_points strokes)
  = Ok (map (λ stroke, real_array (flipped h stroke)) strokes).
Proof.
  induction strokes as [| stroke strokes IH]; [done |].
  cbn [map py_points flip_strokes py_iter]. simpl_result.
  rewrite flip_points_typed. simpl_result. by rewrite IH.
Qed.

Lemma flipped_flat_typed (h : Q) (ps : list (Q * Q)) :
  ps ≠ [] →
  flipped_flat h (Some (py_points ps)) = Ok (Some (real_array (flipped h ps))).
Proof.
  intros Hne. destruct ps as [| p ps]; [done |].
  unfold flipped_flat, py_points. cbn [py_truth map py_iter]. simpl_result.
  change (py_point p :: map py_point ps) with (map py_point (p :: ps)).
  by rewrite flip_points_typed.
Qed.

Lemma flipped_flat_empty (h : Q) (v : option PyVal) :
  v = None ∨ v = Some (PySeq []) → flipped_flat h v = Ok None.
Proof. by intros [-> | ->]. Qed.

(** C2 (amended).  A Polygon or PolyLine record whose vertex list is absent
    or empty is translated without error, by either translator, into a
    persisted object of that subtype that has no [/Vertices] entry; the
    import loop appends it and counts it as one imported annotation.  Only
    the merge path declines such an annotation: [copy_annotation] creates
    nothing and returns [False]. *)
Theorem empty_vertex_list_translated :
  (∀ stamps (annot : PyAnnot) h,
     pa_type annot ∈ ["Polygon"; "PolyLine"]%string →
     pa_vertices annot = None ∨ pa_vertices annot = Some (PySeq []) →
     ∃ d, convert_pymupdf_to_pdf_annot stamps annot h = Ok d ∧
          d !! "/Subtype"%string = Some (PName (String "/" (pa_type annot))) ∧
          d !! "/Vertices"%string = None ∧
          ∀ (clock : Z → string * string) items n,
            clock n = stamps →
            add_annots (λ page_height n annot,
                          convert_pymupdf_to_pdf_annot (clock n) annot page_height)
              h items n [annot]
            = Ok (items ++ [IndirectAnnot d], n + 1)) ∧
  (∀ stamps (annot : XfdfAnnot),
     lower (xa_type annot) ∈ ["polygon"; "polyline"]%string →
     xa_vertices annot = None ∨ xa_vertices annot = Some [] →
     let d := create_annotation_dict stamps annot in
     d !! "/Subtype"%string ∈ [Some (PName "/Polygon"); Some (PName "/PolyLine")] ∧
     d !! "/Vertices"%string = None) ∧
  (∀ recreate target (annot : FitzAnnot),
     type_code annot = PDF_ANNOT_POLYGON ∨ type_code annot = PDF_ANNOT_POLYLINE →
     vertices annot = None ∨ vertices annot = Some [] →
     copy_annotation recreate target annot = (target, false)).
Proof.
  split; [| split].
  - intros stamps annot h Hty Hv.
    rewrite (convert_polygon stamps annot h Hty), (flipped_flat_empty h _ Hv).
    simpl_result. cbn [set_opt]. eexists. split; [reflexivity |]. split; [| split].
    + rewrite pymupdf_common_dict_subtype.
      repeat (apply elem_of_cons in Hty as [-> | Hty]); [done .. |].
      by apply elem_of_nil in Hty.
    + apply pymupdf_common_dict_no_geometry. set_solver.
    + intros clock items n Hclock. cbn [add_annots]. rewrite Hclock.
      rewrite (convert_polygon stamps annot h Hty), (flipped_flat_empty h _ Hv).
      by simpl_result.
  - intros stamps annot Hty Hv d. subst d. unfold create_annotation_dict. cbv zeta.
    assert (list_truth (xa_vertices annot) = false) as Hlt by (by destruct Hv as [-> | ->]).
    repeat (apply elem_of_cons in Hty as [Hty | Hty]);
      [rewrite Hty, Hlt; cbn [String.eqb Ascii.eqb Bool.eqb is_in existsb orb set_if];
       rewrite xfdf_common_dict_subtype, xfdf_common_dict_no_vertices, Hty;
       split; [set_solver | done] .. |].
    by apply elem_of_nil in Hty.
  - intros recreate target annot Hty Hv. unfold copy_annotation, select_call.
    by destruct Hty as [-> | ->], Hv as [-> | ->].
Qed.

(** C2 as stated fails: the polygon with an empty vertex list is translated
    (no error is raised), the result is a persisted [/Polygon] without
    [/Vertices], and an import of this single record returns the count 1. *)
Lemma empty_polygon_not_rejected :
  convert_pymupdf_to_pdf_annot (still_clock 0) empty_polygon 792 = Ok empty_polygon_dict ∧
  empty_polygon_dict !! "/Subtype"%string = Some (PName "/Polygon") ∧
  empty_polygon_dict !! "/Vertices"%string = None ∧
  import_annotations_direct parse_one_page serialize_page_marks still_clock same_directory
    one_file_fs "doc.pdf" [empty_polygon] "out.pdf"
  = Ok (1, imported_fs empty_polygon_dict).
Proof.
  split; [vm_compute; reflexivity |].
  split; [vm_compute; reflexivity |].
  split; vm_compute; reflexivity.
Qed.

Lemma empty_vertex_list_translated_witness :
  ∃ d, convert_pymupdf_to_pdf_annot (still_clock 0) empty_polygon 792 = Ok d ∧
       d !! "/Subtype"%string = Some (PName "/Polygon") ∧
       d !! "/Vertices"%string = None ∧
       ∀ (clock : Z → string * string) items n,
         clock n = still_clock 0 →
         add_annots (λ page_height n annot,
                       convert_pymupdf_to_pdf_annot (clock n) annot page_height)
           792%Q items n [empty_polygon]
         = Ok (items ++ [IndirectAnnot d], n + 1).
Proof.
  apply (proj1 empty_vertex_list_translated (still_clock 0) empty_polygon 792%Q).
  - constructor.
  - right. reflexivity.
Defined.

(** ** Grouping by page *)

Section GroupFacts.

Context {A : Type}.
Variable page_of : A → nat.

Lemma group_lookup_setdefault (by_page : list (nat * list A)) (p i : nat) (a : A) :
  group_lookup i (setdefault_append by_page p a)
  = if decide (p = i) then group_lookup i by_page ++ [a] else group_lookup i by_page.
Proof.
  induction by_page as [| [p' l] rest IH]; simpl.
  - by destruct (decide (p = i)).
  - destruct (decide (p' = p)) as [-> | Hne]; simpl.
    + by destruct (decide (p = i)).
    + destruct (decide (p' = i)) as [-> | Hne']; [by rewrite decide_False by done |].
      apply IH.
Qed.

Lemma keys_setdefault (by_page : list (nat * list A)) (p : nat) (a : A) :
  (setdefault_append by_page p a).*1
  = if decide (p ∈ by_page.*1) then by_page.*1 else by_page.*1 ++ [p].
Proof.
  induction by_page as [| [p' l] rest IH]; cbn [setdefault_append].
  - by rewrite decide_False by set_solver.
  - rewrite (fmap_cons fst (p', l) rest). cbn [fst].
    destruct (decide (p' = p)) as [-> | Hne].
    + rewrite fmap_cons. by rewrite decide_True by set_solver.
    + rewrite fmap_cons, IH. cbn [fst]. destruct (decide (p ∈ rest.*1)).
      * by rewrite decide_True by set_solver.
      * by rewrite decide_False by set_solver.
Qed.

Lemma NoDup_keys_setdefault (by_page : list (nat * list A)) (p : nat) (a : A) :
  NoDup by_page.*1 → NoDup (setdefault_append by_page p a).*1.
Proof.
  intros Hnd. rewrite keys_setdefault. destruct (decide (p ∈ by_page.*1)); [done |].
  apply NoDup_app. repeat split; [done | set_solver | apply NoDup_singleton].
Qed.

Lemma in_range_total_setdefault (n : nat) (by_page : list (nat * list A)) (p : nat) (a : A) :
  in_range_total n (setdefault_append by_page p a)
  = (in_range_total n by_page + if decide (p < n)%nat then 1 else 0)%nat.
Proof.
  induction by_page as [| [p' l] rest IH]; simpl.
  - destruct (decide (p < n)%nat); simpl; lia.
  - destruct (decide (p' = p)) as [-> | Hne]; simpl.
    + rewrite length_app. destruct (decide (p < n)%nat); simpl; lia.
    + rewrite IH. lia.
Qed.

Lemma in_range_groups_setdefault (n : nat) (by_page : list (nat * list A)) (p : nat) (a : A) :
  in_range_groups n (setdefault_append by_page p a)
  = if decide (p < n)%nat then setdefault_append (in_range_groups n by_page) p a
    else in_range_groups n by_page.
Proof.
  unfold in_range_groups.
  induction by_page as [| [p' l] rest IH]; simpl.
  - rewrite filter_cons, filter_nil. simpl. by destruct (decide (p < n)%nat).
  - destruct (decide (p' = p)) as [-> | Hne].
    + rewrite !filter_cons. simpl.
      destruct (decide (p < n)%nat); simpl; [by rewrite decide_True by done | done].
    + rewrite !filter_cons. simpl. rewrite IH.
      destruct (decide (p' < n)%nat), (decide (p < n)%nat); simpl;
        try done; by rewrite decide_False by done.
Qed.

(** The generalisation of the grouping loop to a dictionary that is not
    empty at the start. *)
Lemma foldl_setdefault_facts (annotations : list A) (by_page : list (nat * list A)) (n : nat) :
  let grouped :=
    foldl (λ by_page annot, setdefault_append by_page (page_of annot) annot)
      by_page annotations in
  (∀ i, group_lookup i grouped
        = group_lookup i by_page ++ filter (λ a, page_of a = i) annotations) ∧
  (NoDup by_page.*1 → NoDup grouped.*1) ∧
  in_range_total n grouped
  = (in_range_total n by_page
     + length (filter (λ a, (page_of a < n)%nat) annotations))%nat ∧
  in_range_groups n grouped
  = foldl (λ by_page annot, setdefault_append by_page (page_of annot) annot)
      (in_range_groups n by_page) (filter (λ a, (page_of a < n)%nat) annotations).
Proof.
  revert by_page. induction annotations as [| a annotations IH]; intros by_page; simpl.
  - repeat split; [intros i; by rewrite app_nil_r | done | lia].
  - destruct (IH (setdefault_append by_page (page_of a) a)) as (Hl & Hnd & Ht & Hg).
    simpl in *. repeat split.
    + intros i. rewrite Hl, group_lookup_setdefault, filter_cons.
      destruct (decide (page_of a = i)); [by rewrite <- app_assoc | done].
    + intros Hk. by apply Hnd, NoDup_keys_setdefault.
    + rewrite Ht, in_range_total_setdefault, filter_cons.
      destruct (decide (page_of a < n)%nat); simpl; lia.
    + rewrite Hg, in_range_groups_setdefault, filter_cons.
      by destruct (decide (page_of a < n)%nat).
Qed.

Lemma nonempty_setdefault (by_page : list (nat * list A)) (p : nat) (a : A) :
  Forall (λ g, g.2 ≠ []) by_page → Forall (λ g, g.2 ≠ []) (setdefault_append by_page p a).
Proof.
  induction by_page as [| [p' l] rest IH]; intros Hall; cbn [setdefault_append].
  - by repeat constructor.
  - apply Forall_cons in Hall as [Hl Hrest]. destruct (decide (p' = p)).
    + constructor; [| done]. cbn [snd]. by destruct l.
    + constructor; [done | by apply IH].
Qed.

Lemma group_by_page_nonempty (annotations : list A) :
  Forall (λ g, g.2 ≠ []) (group_by_page page_of annotations).
Proof.
  unfold group_by_page.
  assert (Forall (λ g : nat * list A, g.2 ≠ []) []) as Hnil by constructor.
  revert Hnil. generalize (@nil (nat * list A)).
  induction annotations as [| a annotations IH]; intros by_page Hall; [done |].
  apply IH. by apply nonempty_setdefault.
Qed.

Lemma group_by_page_lookup (annotations : list A) (i : nat) :
  group_lookup i (group_by_page page_of annotations)
  = filter (λ a, page_of a = i) annotations.
Proof.
  destruct (foldl_setdefault_facts annotations [] 0) as (Hl & _). apply Hl.
Qed.

Lemma group_by_page_NoDup (annotations : list A) :
  NoDup (group_by_page page_of annotations).*1.
Proof.
  destruct (foldl_setdefault_facts annotations [] 0) as (_ & Hnd & _).
  apply Hnd, NoDup_nil_2.
Qed.

Lemma group_by_page_in_range_total (annotations : list A) (n : nat) :
  in_range_total n (group_by_page page_of annotations)
  = length (filter (λ a, (page_of a < n)%nat) annotations).
Proof.
  destruct (foldl_setdefault_facts annotations [] n) as (_ & _ & Ht & _). apply Ht.
Qed.

Lemma group_by_page_in_range (annotations : list A) (n : nat) :
  in_range_groups n (group_by_page page_of annotations)
  = group_by_page page_of (filter (λ a, (page_of a < n)%nat) annotations).
Proof.
  destruct (foldl_setdefault_facts annotations [] n) as (_ & _ & _ & Hg). apply Hg.
Qed.

End GroupFacts.

(** ** Grouping by an integer page number *)

Section GroupIntFacts.

Context {A : Type}.
Variable page_of : A → Z.

Lemma flat_setdefault_int (by_page : list (Z * list A)) (p : Z) (a : A) :
  flat_map snd (setdefault_append_int by_page p a) ≡ₚ flat_map snd by_page ++ [a].
Proof.
  induction by_page as [| [p' l] rest IH]; [done |].
  cbn [setdefault_append_int]. destruct (decide (p' = p)) as [-> | Hne]; cbn [flat_map snd].
  - rewrite <- !app_assoc. apply Permutation_app_head, Permutation_app_comm.
  - rewrite IH. by rewrite app_assoc.
Qed.

Lemma filter_setdefault_int (P : Z → Prop) `{∀ k, Decision (P k)}
    (by_page : list (Z * list A)) (p : Z) (a : A) :
  filter (λ g, P g.1) (setdefault_append_int by_page p a)
  = if decide (P p) then setdefault_append_int (filter (λ g, P g.1) by_page) p a
    else filter (λ g, P g.1) by_page.
Proof.
  induction by_page as [| [p' l] rest IH]; cbn [setdefault_append_int].
  - rewrite filter_cons, filter_nil. cbn [fst]. by destruct (decide (P p)).
  - destruct (decide (p' = p)) as [-> | Hne].
    + rewrite !filter_cons. cbn [fst]. destruct (decide (P p)); [| done].
      cbn [setdefault_append_int]. by rewrite decide_True by done.
    + rewrite !filter_cons. cbn [fst]. rewrite IH.
      destruct (decide (P p')), (decide (P p)); try done.
      cbn [setdefault_append_int]. by rewrite decide_False by done.
Qed.

Lemma Forall_setdefault_int (P : Z → Prop) (by_page : list (Z * list A)) (p : Z) (a : A) :
  Forall (λ g, P g.1) (setdefault_append_int by_page p a)
  ↔ Forall (λ g, P g.1) by_page ∧ P p.
Proof.
  induction by_page as [| [p' l] rest IH]; cbn [setdefault_append_int].
  - rewrite Forall_singleton. cbn [fst]. split; [by split | by intros [_ ?]].
  - destruct (decide (p' = p)) as [-> | Hne].
    + rewrite !Forall_cons. cbn [fst]. tauto.
    + rewrite !Forall_cons, IH. cbn [fst]. tauto.
Qed.

(** The grouping loop from a dictionary that need not be empty. *)
Lemma foldl_setdefault_int_facts (P : Z → Prop) `{∀ k, Decision (P k)}
    (annotations : list A) (by_page : list (Z * list A)) :
  let step := λ by_page annot, setdefault_append_int by_page (page_of annot) annot in
  flat_map snd (foldl step by_page annotations) ≡ₚ flat_map snd by_page ++ annotations ∧
  filter (λ g, P g.1) (foldl step by_page annotations)
  = foldl step (filter (λ g, P g.1) by_page) (filter (λ a, P (page_of a)) annotations) ∧
  (Forall (λ g, P g.1) (foldl step by_page annotations)
   ↔ Forall (λ g, P g.1) by_page ∧ Forall (λ a, P (page_of a)) annotations).
Proof.
  intros step. revert by_page.
  induction annotations as [| a annotations IH]; intros by_page; cbn [foldl].
  - rewrite app_nil_r, filter_nil. cbn [foldl]. split; [done |]. split; [done |].
    rewrite Forall_nil. tauto.
  - destruct (IH (step by_page a)) as (Hflat & Hfilter & Hall). split; [| split].
    + rewrite Hflat. unfold step at 1. rewrite flat_setdefault_int.
      by rewrite <- app_assoc.
    + rewrite Hfilter. unfold step at 2. rewrite filter_setdefault_int, filter_cons.
      by destruct (decide (P (page_of a))).
    + rewrite Hall. unfold step at 1. rewrite Forall_setdefault_int, Forall_cons. tauto.
Qed.

Lemma group_by_page_int_flat (annotations : list A) :
  flat_map snd (group_by_page_int page_of annotations) ≡ₚ annotations.
Proof.
  destruct (foldl_setdefault_int_facts (λ _, True) annotations []) as [Hflat _].
  exact Hflat.
Qed.

Lemma group_by_page_int_filter (P : Z → Prop) `{∀ k, Decision (P k)} (annotations : list A) :
  filter (λ g, P g.1) (group_by_page_int page_of annotations)
  = group_by_page_int page_of (filter (λ a, P (page_of a)) annotations).
Proof.
  destruct (foldl_setdefault_int_facts P annotations []) as (_ & Hfilter & _).
  exact Hfilter.
Qed.

Lemma group_by_page_int_Forall (P : Z → Prop) `{∀ k, Decision (P k)} (annotations : list A) :
  Forall (λ g, P g.1) (group_by_page_int page_of annotations)
  ↔ Forall (λ a, P (page_of a)) annotations.
Proof.
  destruct (foldl_setdefault_int_facts P annotations []) as (_ & _ & Hall).
  unfold group_by_page_int. rewrite Hall. rewrite Forall_nil. tauto.
Qed.

(** The annotations added to a position are, up to their order, the
    annotations that reach it. *)
Lemma added_to_group_by_page_int (count i : nat) (annotations : list A) :
  added_to count i (group_by_page_int page_of annotations)
  ≡ₚ filter (λ a, reached count (page_of a) = Some i) annotations.
Proof.
  unfold added_to.
  pose proof (group_by_page_int_filter (λ k, reached count k = Some i) annotations)
    as Hfilter.
  cbn beta in Hfilter. rewrite Hfilter. apply group_by_page_int_flat.
Qed.

End GroupIntFacts.

(** ** The import loop *)

Section ImportLoopFacts.

Context {A T : Type}.
Variable prepare : PdfPage → result T.
Variable translate : T → Z → A → result Dictionary.
Variable page_of : A → nat.

Lemma group_lookup_notin (i : nat) (by_page : list (nat * list A)) :
  i ∉ by_page.*1 → group_lookup i by_page = [].
Proof.
  induction by_page as [| [p l] rest IH]; [done |].
  rewrite fmap_cons, not_elem_of_cons. cbn [fst group_lookup]. intros [Hne Hrest].
  rewrite decide_False by done. by apply IH.
Qed.

Lemma group_lookup_elem (p : nat) (g : list A) (by_page : list (nat * list A)) :
  NoDup by_page.*1 → (p, g) ∈ by_page → group_lookup p by_page = g.
Proof.
  induction by_page as [| [p' l] rest IH]; [by intros _ ?%elem_of_nil |].
  rewrite fmap_cons, NoDup_cons. cbn [fst group_lookup]. intros [Hnotin Hnd] Hin.
  apply elem_of_cons in Hin as [[= -> ->] | Hin]; [by rewrite decide_True |].
  rewrite decide_False; [by apply IH |].
  intros ->. apply Hnotin. apply list_elem_of_fmap. by exists (p, g).
Qed.

Lemma add_annots_ok (h : T) (page_annots : list A) (items : list PdfObject) (n : Z)
    (items' : list PdfObject) (n' : Z) :
  add_annots translate h items n page_annots = Ok (items', n') →
  ∃ news,
    items' = items ++ news ∧
    n' = n + Z.of_nat (length page_annots) ∧
    Forall2 (λ a item, ∃ m d, translate h m a = Ok d ∧ item = IndirectAnnot d)
      page_annots news.
Proof.
  revert items n. induction page_annots as [| a rest IH]; intros items n Hrun.
  - cbn [add_annots] in Hrun. injection Hrun as <- <-. exists []. rewrite app_nil_r. repeat split; [simpl; lia | constructor].
  - cbn [add_annots] in Hrun.
    destruct (translate h n a) as [d |] eqn:Hd; simpl_result; [| discriminate].
    simpl_result. apply IH in Hrun as (news & -> & -> & Hnews).
    exists (IndirectAnnot d :: news). rewrite <- app_assoc. repeat split.
    + cbn [length]. lia.
    + constructor; [by exists n, d | done].
Qed.

Lemma add_annots_total (h : T) (page_annots : list A) (items : list PdfObject) (n : Z) :
  (∀ a m, a ∈ page_annots → ∃ d, translate h m a = Ok d) →
  ∃ r, add_annots translate h items n page_annots = Ok r.
Proof.
  revert items n. induction page_annots as [| a rest IH]; intros items n Hok.
  - by eexists.
  - cbn [add_annots]. destruct (Hok a n) as [d Hd]; [by left |].
    rewrite Hd. simpl_result. apply IH. intros a' m Ha'. apply Hok. by right.
Qed.

(** A completed loop over the groups: the count grows by the number of
    grouped annotations in range, the pages keep their number and their
    media boxes, and every page has its group appended after the entries it
    had. *)
Lemma import_groups_ok (by_page : list (nat * list A)) (pdf_pages : list PdfPage) (n : Z)
    (pdf_pages' : list PdfPage) (n' : Z) :
  NoDup by_page.*1 →
  import_groups prepare translate pdf_pages n by_page = Ok (pdf_pages', n') →
  n' = n + Z.of_nat (in_range_total (length pdf_pages) by_page) ∧
  length pdf_pages' = length pdf_pages ∧
  ∀ i page, pdf_pages !! i = Some page →
    ∃ page' news,
      pdf_pages' !! i = Some page' ∧
      MediaBox page' = MediaBox page ∧
      existing_items page' = existing_items page ++ news ∧
      Forall2 (translation_of prepare translate page) (group_lookup i by_page) news.
Proof.
  revert pdf_pages n.
  induction by_page as [| [p g] rest IH]; intros pdf_pages n Hnd Hrun.
  - cbn [import_groups] in Hrun. injection Hrun as <- <-. repeat split; [simpl; lia |].
    intros i page Hi. exists page, []. rewrite app_nil_r. repeat split; [done | constructor].
  - rewrite fmap_cons in Hnd. apply NoDup_cons in Hnd as [Hnotin Hnd].
    cbn [fst] in Hnotin. cbn [import_groups in_range_total] in *.
    destruct (pdf_pages !! p) as [pg |] eqn:Hpg.
    + destruct (prepare pg) as [h |] eqn:Hh; simpl_result; [| discriminate].
      destruct (add_annots translate h (existing_items pg) n g) as [[arr n1] |] eqn:Hadd;
        simpl_result; [| discriminate].
      cbn [fst snd] in Hrun.
      apply add_annots_ok in Hadd as (news_g & -> & -> & Hnews_g).
      apply IH in Hrun as (-> & Hlen & Hpages); [| done].
      rewrite length_insert in Hlen. rewrite length_insert.
      rewrite decide_True by (by eapply lookup_lt_Some).
      split; [lia |]. split; [done |].
      intros i page Hi. destruct (decide (p = i)) as [<- | Hne].
      * assert (page = pg) as -> by congruence.
        destruct (Hpages p (set_annots pg (existing_items pg ++ news_g)))
          as (page' & news' & Hp' & Hmb & Hex & Hrel).
        { apply list_lookup_insert_eq. by eapply lookup_lt_Some. }
        rewrite group_lookup_notin in Hrel by done.
        apply Forall2_nil_inv_l in Hrel as ->.
        exists page', news_g. rewrite app_nil_r in Hex. repeat split; [done .. |].
        cbn [group_lookup]. rewrite decide_True by done.
        eapply Forall2_impl; [exact Hnews_g |].
        intros a item (m & d & Hd & ->). by exists h, m, d.
      * destruct (Hpages i page) as (page' & news' & Hp' & Hmb & Hex & Hrel).
        { by rewrite list_lookup_insert_ne. }
        exists page', news'. cbn [group_lookup]. by rewrite decide_False by done.
    + apply IH in Hrun as (-> & Hlen & Hpages); [| done].
      rewrite decide_False by (apply lookup_ge_None in Hpg; lia).
      split; [lia |]. split; [done |].
      intros i page Hi. cbn [group_lookup]. rewrite decide_False; [by apply Hpages |].
      intros ->. congruence.
Qed.

(** The groups out of range are passed over: they can be left out. *)
Lemma import_groups_skip (by_page : list (nat * list A)) (pdf_pages : list PdfPage) (n : Z) :
  import_groups prepare translate pdf_pages n by_page
  = import_groups prepare translate pdf_pages n (in_range_groups (length pdf_pages) by_page).
Proof.
  unfold in_range_groups. revert pdf_pages n.
  induction by_page as [| [p g] rest IH]; intros pdf_pages n; [done |].
  rewrite filter_cons. cbn [fst]. destruct (decide (p < length pdf_pages)%nat) as [Hlt | Hge].
  - cbn [import_groups].
    destruct (lookup_lt_is_Some_2 pdf_pages p Hlt) as [pg Hpg]. rewrite Hpg.
    destruct (prepare pg) as [h |]; simpl_result; [| done].
    destruct (add_annots translate h (existing_items pg) n g) as [[arr n1] |];
      simpl_result; [| done].
    rewrite IH. by rewrite length_insert.
  - cbn [import_groups]. rewrite (proj2 (lookup_ge_None pdf_pages p)) by lia. apply IH.
Qed.

Lemma import_groups_total (by_page : list (nat * list A)) (pdf_pages : list PdfPage) (n : Z) :
  NoDup by_page.*1 →
  (∀ p g page, (p, g) ∈ by_page → pdf_pages !! p = Some page →
     ∃ h, prepare page = Ok h ∧ ∀ a m, a ∈ g → ∃ d, translate h m a = Ok d) →
  ∃ r, import_groups prepare translate pdf_pages n by_page = Ok r.
Proof.
  revert pdf_pages n.
  induction by_page as [| [p g] rest IH]; intros pdf_pages n Hnd Hok; [by eexists |].
  rewrite fmap_cons in Hnd. apply NoDup_cons in Hnd as [Hnotin Hnd]. cbn [fst] in Hnotin.
  cbn [import_groups]. destruct (pdf_pages !! p) as [pg |] eqn:Hpg.
  - destruct (Hok p g pg) as (h & Hh & Htr); [by left | done |].
    rewrite Hh. simpl_result.
    destruct (add_annots_total h g (existing_items pg) n Htr) as [[arr n1] Hadd].
    rewrite Hadd. simpl_result. apply IH; [done |].
    intros p' g' page Hin Hp'. apply (Hok p' g' page); [by right |].
    rewrite list_lookup_insert_ne in Hp'; [done |].
    intros ->. apply Hnotin. apply list_elem_of_fmap. by exists (p', g').
  - apply IH; [done |]. intros p' g' page Hin Hp'. apply (Hok p' g' page); [by right | done].
Qed.

Lemma import_pages_ok (pdf : Pdf) (annotations : list A) (pdf' : Pdf) (n : Z) :
  import_pages prepare translate page_of pdf annotations = Ok (pdf', n) →
  n = Z.of_nat (length (filter (λ a, (page_of a < length (pages pdf))%nat) annotations)) ∧
  appended prepare translate page_of annotations (pages pdf) (pages pdf').
Proof.
  unfold import_pages. intros Hrun.
  destruct (import_groups _ _ _ _ _) as [[pdf_pages' n'] |] eqn:Hgroups;
    simpl_result; [| discriminate].
  injection Hrun as <- <-. cbn [pages fst snd].
  apply import_groups_ok in Hgroups as (-> & Hlen & Hpages);
    [| apply group_by_page_NoDup].
  rewrite group_by_page_in_range_total. split; [lia |]. split; [done |].
  intros i page Hi. destruct (Hpages i page Hi) as (page' & news & H1 & H2 & H3 & H4).
  exists page', news. rewrite group_by_page_lookup in H4. done.
Qed.

Lemma import_pages_skip (pdf : Pdf) (annotations : list A) :
  import_pages prepare translate page_of pdf annotations
  = import_pages prepare translate page_of pdf
      (filter (λ a, (page_of a < length (pages pdf))%nat) annotations).
Proof.
  unfold import_pages.
  by rewrite import_groups_skip, group_by_page_in_range.
Qed.

Lemma import_pages_total (pdf : Pdf) (annotations : list A) :
  (∀ a page, a ∈ annotations → pages pdf !! page_of a = Some page →
     ∃ h, prepare page = Ok h ∧ ∀ m, ∃ d, translate h m a = Ok d) →
  ∃ r, import_pages prepare translate page_of pdf annotations = Ok r.
Proof.
  intros Hok. unfold import_pages.
  destruct (import_groups_total (group_by_page page_of annotations) (pages pdf) 0)
    as [r Hr]; [apply group_by_page_NoDup | | rewrite Hr; by eexists].
  intros p g page Hin Hp.
  pose proof (group_lookup_elem p g _ (group_by_page_NoDup page_of annotations) Hin) as Hg.
  rewrite group_by_page_lookup in Hg.
  pose proof (group_by_page_nonempty page_of annotations) as Hne.
  rewrite Forall_forall in Hne. specialize (Hne (p, g) Hin). cbn [snd] in Hne.
  destruct g as [| a0 g0]; [done |].
  assert (∀ a, a ∈ a0 :: g0 → a ∈ annotations ∧ page_of a = p) as Hmem.
  { intros a Ha. rewrite <- Hg in Ha. by apply list_elem_of_filter in Ha as [? ?]. }
  destruct (Hmem a0) as [Ha0 Hp0]; [by left |].
  destruct (Hok a0 page Ha0) as (h & Hh & _); [by rewrite Hp0 |].
  exists h. split; [done |]. intros a m Ha.
  destruct (Hmem a Ha) as [Ha' Hpa].
  destruct (Hok a page Ha') as (h' & Hh' & Htr); [by rewrite Hpa |].
  assert (h' = h) as -> by congruence. apply Htr.
Qed.

End ImportLoopFacts.

(** ** The loop of the XFDF import *)

Lemma reached_beyond (count : nat) (page_num : Z) :
  Z.of_nat count ≤ page_num → reached count page_num = None.
Proof.
  intros Hge. unfold reached.
  rewrite (proj2 (Z.ltb_ge page_num (Z.of_nat count))) by done. rewrite andb_false_r.
  rewrite (proj2 (Z.ltb_ge page_num 0)) by lia. done.
Qed.

Lemma reached_Some (count : nat) (page_num : Z) (i : nat) :
  reached count page_num = Some i →
  - Z.of_nat count ≤ page_num < Z.of_nat count ∧ (i < count)%nat.
Proof.
  unfold reached.
  destruct ((0 <=? page_num) && (page_num <? Z.of_nat count)) eqn:H1; [intros [= <-]; lia |].
  destruct ((page_num <? 0) && (- Z.of_nat count <=? page_num)) eqn:H2;
    [intros [= <-]; lia | done].
Qed.

Lemma pages_getitem_reached (pdf_pages : list PdfPage) (page_num : Z) :
  page_num < Z.of_nat (length pdf_pages) →
  match reached (length pdf_pages) page_num with
  | Some i => ∃ page, pdf_pages !! i = Some page ∧
                      pages_getitem pdf_pages page_num = Ok (i, page)
  | None => pages_getitem pdf_pages page_num = Raise IndexError ∧
            page_num < - Z.of_nat (length pdf_pages)
  end.
Proof.
  intros Hlt. unfold reached, pages_getitem.
  destruct (Z.leb_spec 0 page_num) as [Hpos | Hneg].
  - rewrite (proj2 (Z.ltb_lt page_num (Z.of_nat (length pdf_pages)))) by done.
    cbn [andb]. rewrite (proj2 (Z.ltb_ge page_num 0)) by done.
    rewrite (proj2 (Z.ltb_ge page_num 0)) by done.
    destruct (lookup_lt_is_Some_2 pdf_pages (Z.to_nat page_num)) as [page Hpage]; [lia |].
    exists page. by rewrite Hpage.
  - cbn [andb]. rewrite (proj2 (Z.ltb_lt page_num 0)) by done. cbn [andb].
    destruct (Z.leb_spec (- Z.of_nat (length pdf_pages)) page_num) as [Hin | Hout].
    + rewrite (proj2 (Z.ltb_ge (page_num + Z.of_nat (length pdf_pages)) 0)) by lia.
      destruct (lookup_lt_is_Some_2 pdf_pages
                  (Z.to_nat (page_num + Z.of_nat (length pdf_pages)))) as [page Hpage];
        [lia |].
      exists page. by rewrite Hpage.
    + by rewrite (proj2 (Z.ltb_lt (page_num + Z.of_nat (length pdf_pages)) 0)) by lia.
Qed.

Section XfdfLoopFacts.

Variable clock : Z → string * string.

Let translate : unit → Z → XfdfAnnot → result Dictionary :=
  λ _ n annot, Ok (create_annotation_dict (clock n) annot).

Lemma xfdf_add_annots (items : list PdfObject) (n : Z) (page_annots : list XfdfAnnot) :
  ∃ news,
    add_annots translate tt items n page_annots
    = Ok (items ++ news, n + Z.of_nat (length page_annots)) ∧
    Forall2 (λ annot item,
               ∃ m, item = IndirectAnnot (create_annotation_dict (clock m) annot))
      page_annots news.
Proof.
  destruct (add_annots_total translate tt page_annots items n) as [[items' n'] Hrun].
  { intros a m _. by eexists. }
  destruct (add_annots_ok translate tt page_annots items n items' n' Hrun)
    as (news & -> & -> & Hnews).
  exists news. split; [done |].
  eapply Forall2_impl; [exact Hnews |].
  intros a item (m & d & [= <-] & ->). by exists m.
Qed.

Lemma xfdf_import_groups_ok (by_page : list (Z * list XfdfAnnot))
    (pdf_pages : list PdfPage) (n : Z) (pdf_pages' : list PdfPage) (n' : Z) :
  xfdf_import_groups clock pdf_pages n by_page = Ok (pdf_pages', n') →
  n' = n + Z.of_nat (length (flat_map snd
                               (filter (λ g, g.1 < Z.of_nat (length pdf_pages)) by_page))) ∧
  length pdf_pages' = length pdf_pages ∧
  Forall (λ g, - Z.of_nat (length pdf_pages) ≤ g.1) by_page ∧
  ∀ i page, pdf_pages !! i = Some page →
    ∃ page' news,
      pdf_pages' !! i = Some page' ∧
      MediaBox page' = MediaBox page ∧
      existing_items page' = existing_items page ++ news ∧
      Forall2 (λ annot item,
                 ∃ m, item = IndirectAnnot (create_annotation_dict (clock m) annot))
        (added_to (length pdf_pages) i by_page) news.
Proof.
  revert pdf_pages n.
  induction by_page as [| [p g] rest IH]; intros pdf_pages n Hrun;
    cbn [xfdf_import_groups] in Hrun.
  - injection Hrun as <- <-. split; [cbn; lia |]. split; [done |]. split; [constructor |].
    intros i page Hi. exists page, []. rewrite app_nil_r. repeat split; [done |].
    constructor.
  - unfold added_to. rewrite filter_cons. cbn [fst].
    destruct (Z.leb_spec (Z.of_nat (length pdf_pages)) p) as [Hge | Hlt].
    + destruct (IH _ _ Hrun) as (Hn & Hlen & Hall & Hpages).
      rewrite decide_False by lia. split; [done |]. split; [done |].
      split; [constructor; [cbn [fst]; lia | done] |].
      intros i page Hi. setoid_rewrite filter_cons. cbn [fst].
      rewrite reached_beyond by done. rewrite decide_False by done.
      by apply Hpages.
    + pose proof (pages_getitem_reached pdf_pages p Hlt) as Hget.
      destruct (reached (length pdf_pages) p) as [j |] eqn:Hj.
      2:{ destruct Hget as [Hget _]. rewrite Hget in Hrun. by simpl_result. }
      destruct Hget as (pg & Hpg & Hget). rewrite Hget in Hrun. simpl_result.
      cbn [fst snd] in Hrun.
      destruct (xfdf_add_annots (existing_items pg) n g) as (news_g & Hadd & Hnews_g).
      fold translate in Hrun. rewrite Hadd in Hrun. simpl_result. cbn [fst snd] in Hrun.
      destruct (IH _ _ Hrun) as (Hn & Hlen & Hall & Hpages).
      rewrite length_insert in Hn, Hlen, Hall, Hpages.
      rewrite decide_True by done. cbn [flat_map snd]. rewrite length_app.
      split; [lia |]. split; [done |].
      split.
      { constructor; [| done]. cbn [fst]. apply reached_Some in Hj. lia. }
      intros i page Hi. setoid_rewrite filter_cons. cbn [fst]. rewrite Hj.
      destruct (decide (j = i)) as [<- | Hne].
      * assert (page = pg) as -> by congruence.
        destruct (Hpages j (set_annots pg (existing_items pg ++ news_g)))
          as (page' & news_r & Hp' & Hmb & Hex & Hrel).
        { apply list_lookup_insert_eq. by eapply lookup_lt_Some. }
        rewrite decide_True by done. cbn [flat_map snd].
        exists page', (news_g ++ news_r). split; [done |]. split; [done |].
        split; [rewrite Hex; unfold existing_items at 1; cbn [set_annots Annots];
                by rewrite <- app_assoc |].
        by apply Forall2_app.
      * rewrite decide_False by congruence.
        apply Hpages. by rewrite list_lookup_insert_ne.
Qed.

(** The groups whose page number is the page count or more can be left
    out. *)
Lemma xfdf_import_groups_skip (by_page : list (Z * list XfdfAnnot))
    (pdf_pages : list PdfPage) (n : Z) :
  xfdf_import_groups clock pdf_pages n by_page
  = xfdf_import_groups clock pdf_pages n
      (filter (λ g, g.1 < Z.of_nat (length pdf_pages)) by_page).
Proof.
  revert pdf_pages n.
  induction by_page as [| [p g] rest IH]; intros pdf_pages n; [done |].
  rewrite filter_cons. cbn [fst].
  destruct (decide (p < Z.of_nat (length pdf_pages))) as [Hlt | Hge].
  - cbn [xfdf_import_groups].
    rewrite (proj2 (Z.leb_gt (Z.of_nat (length pdf_pages)) p)) by done.
    destruct (pages_getitem pdf_pages p) as [[j pg] |]; simpl_result; [| done].
    cbn [fst snd].
    destruct (add_annots _ tt (existing_items pg) n g) as [[arr n1] |]; simpl_result;
      [| done].
    cbn [fst snd]. rewrite IH. by rewrite length_insert.
  - cbn [xfdf_import_groups].
    rewrite (proj2 (Z.leb_le (Z.of_nat (length pdf_pages)) p)) by lia. apply IH.
Qed.

(** The loop completes exactly when no page number is below minus the page
    count; otherwise it raises [IndexError]. *)
Lemma xfdf_import_groups_total (by_page : list (Z * list XfdfAnnot))
    (pdf_pages : list PdfPage) (n : Z) :
  Forall (λ g, - Z.of_nat (length pdf_pages) ≤ g.1) by_page →
  ∃ r, xfdf_import_groups clock pdf_pages n by_page = Ok r.
Proof.
  revert pdf_pages n.
  induction by_page as [| [p g] rest IH]; intros pdf_pages n Hall; [by eexists |].
  apply Forall_cons in Hall as [Hp Hall]. cbn [fst] in Hp. cbn [xfdf_import_groups].
  destruct (Z.leb_spec (Z.of_nat (length pdf_pages)) p) as [Hge | Hlt]; [by apply IH |].
  pose proof (pages_getitem_reached pdf_pages p Hlt) as Hget.
  destruct (reached (length pdf_pages) p) as [j |]; [| lia].
  destruct Hget as (pg & _ & ->). simpl_result. cbn [fst snd].
  destruct (xfdf_add_annots (existing_items pg) n g) as (news_g & Hadd & _).
  fold translate. rewrite Hadd. simpl_result. cbn [fst snd].
  apply IH. by rewrite length_insert.
Qed.

Lemma xfdf_import_groups_raise (by_page : list (Z * list XfdfAnnot))
    (pdf_pages : list PdfPage) (n : Z) :
  Exists (λ g, g.1 < - Z.of_nat (length pdf_pages)) by_page →
  xfdf_import_groups clock pdf_pages n by_page = Raise IndexError.
Proof.
  revert pdf_pages n.
  induction by_page as [| [p g] rest IH]; intros pdf_pages n Hex;
    [by apply Exists_nil in Hex |].
  cbn [xfdf_import_groups].
  destruct (Z.leb_spec (Z.of_nat (length pdf_pages)) p) as [Hge | Hlt].
  { apply Exists_cons in Hex as [Hp | Hex]; [cbn [fst] in Hp; lia | by apply IH]. }
  pose proof (pages_getitem_reached pdf_pages p Hlt) as Hget.
  destruct (reached (length pdf_pages) p) as [j |] eqn:Hj.
  - destruct Hget as (pg & _ & ->). simpl_result. cbn [fst snd].
    destruct (xfdf_add_annots (existing_items pg) n g) as (news_g & Hadd & _).
    fold translate. rewrite Hadd. simpl_result. cbn [fst snd].
    apply IH. rewrite length_insert.
    apply Exists_cons in Hex as [Hp | Hex]; [| done].
    cbn [fst] in Hp. apply reached_Some in Hj. lia.
  - destruct Hget as [-> _]. done.
Qed.

Lemma xfdf_import_pages_ok (pdf : Pdf) (annotations : list XfdfAnnot) (pdf' : Pdf) (n : Z) :
  xfdf_import_pages clock pdf annotations = Ok (pdf', n) →
  n = Z.of_nat (length (filter (λ a, xa_page a < Z.of_nat (length (pages pdf)))
                          annotations)) ∧
  Forall (λ a, - Z.of_nat (length (pages pdf)) ≤ xa_page a) annotations ∧
  appended_xfdf clock annotations (pages pdf) (pages pdf').
Proof.
  unfold xfdf_import_pages. intros Hrun.
  destruct (xfdf_import_groups _ _ _ _) as [[pdf_pages' n'] |] eqn:Hgroups;
    simpl_result; [| discriminate].
  injection Hrun as <- <-. cbn [pages fst snd].
  apply xfdf_import_groups_ok in Hgroups as (-> & Hlen & Hall & Hpages).
  split; [| split; [| split]].
  - pose proof (group_by_page_int_filter xa_page
                  (λ k, k < Z.of_nat (length (pages pdf))) annotations) as Hfilter.
    cbn beta in Hfilter. rewrite Hfilter.
    by rewrite (Permutation_length (group_by_page_int_flat xa_page _)).
  - by apply (group_by_page_int_Forall xa_page
                (λ k, - Z.of_nat (length (pages pdf)) ≤ k)) in Hall.
  - done.
  - done.
Qed.

Lemma xfdf_import_pages_skip (pdf : Pdf) (annotations : list XfdfAnnot) :
  xfdf_import_pages clock pdf annotations
  = xfdf_import_pages clock pdf
      (filter (λ a, xa_page a < Z.of_nat (length (pages pdf))) annotations).
Proof.
  unfold xfdf_import_pages. rewrite xfdf_import_groups_skip.
  pose proof (group_by_page_int_filter xa_page
                (λ k, k < Z.of_nat (length (pages pdf))) annotations) as Hfilter.
  cbn beta in Hfilter. by rewrite Hfilter.
Qed.

Lemma xfdf_import_pages_total (pdf : Pdf) (annotations : list XfdfAnnot) :
  Forall (λ a, - Z.of_nat (length (pages pdf)) ≤ xa_page a) annotations →
  ∃ r, xfdf_import_pages clock pdf annotations = Ok r.
Proof.
  intros Hall. unfold xfdf_import_pages.
  destruct (xfdf_import_groups_total (group_by_page_int xa_page annotations) (pages pdf) 0)
    as [r Hr].
  { by apply (group_by_page_int_Forall xa_page
                (λ k, - Z.of_nat (length (pages pdf)) ≤ k)). }
  rewrite Hr. by eexists.
Qed.

Lemma xfdf_import_pages_raise (pdf : Pdf) (annotations : list XfdfAnnot) :
  Exists (λ a, xa_page a < - Z.of_nat (length (pages pdf))) annotations →
  xfdf_import_pages clock pdf annotations = Raise IndexError.
Proof.
  intros Hex. unfold xfdf_import_pages.
  rewrite xfdf_import_groups_raise; [done |].
  destruct (decide (Exists (λ g : Z * list XfdfAnnot,
                              g.1 < - Z.of_nat (length (pages pdf)))
                      (group_by_page_int xa_page annotations))) as [Hgroups | Hnone];
    [done |].
  exfalso. apply not_Exists_Forall in Hnone; [| intros g; apply _].
  apply (group_by_page_int_Forall xa_page
           (λ k, ¬ k < - Z.of_nat (length (pages pdf)))) in Hnone.
  apply Exists_exists in Hex as (a & Ha & Hlt).
  rewrite Forall_forall in Hnone. by apply (Hnone a Ha).
Qed.

End XfdfLoopFacts.

(** ** The import runs *)

Lemma copy_file_result (fs fs' : FS) (src dst : string) :
  copy_file fs src dst = Ok fs' →
  ∃ data, fs !! src = Some data ∧
          fs' = <[dst := if decide (dst = src) then [] else data]> fs.
Proof.
  unfold copy_file, read_file. intros Hcopy.
  destruct (fs !! src) as [data |] eqn:Hsrc; simpl_result; [| discriminate].
  exists data. split; [done |]. destruct (decide (dst = src)) as [-> | Hne].
  - rewrite lookup_insert_eq in Hcopy. simpl_result. injection Hcopy as <-.
    by rewrite insert_insert_eq.
  - rewrite lookup_insert_ne in Hcopy by done. rewrite Hsrc in Hcopy. simpl_result.
    injection Hcopy as <-. by rewrite insert_insert_eq.
Qed.

(** C8.  A completed import run that has annotations to add saves the
    opened document with, on every page, all the entries the page's
    annotation array had, in their order, followed by the newly created
    annotations of that page; in the XFDF import these are, up to their
    order, the annotations whose page number reaches the page.  A completed
    run without annotations to add leaves in the output file the bytes of the
    input, and with them every entry, when the output is another file than
    the input.  The failing input is the run without annotations whose output
    path reaches the input file: it completes and leaves the file empty, so
    that every entry the document had is lost. *)
Theorem import_appends_after_existing
    (pdf_parse : list byte → option Pdf) (pdf_serialize : bool → Pdf → list byte)
    (parse_xfdf : FS → string → result (string * list XfdfAnnot))
    (clock : Z → string * string) (resolve : string → string)
    (fs : FS) (pdf_path xfdf_path output_path : string) (linearize : bool) :
  (∀ annotations n fs',
     import_annotations_direct pdf_parse pdf_serialize clock resolve fs pdf_path annotations
       output_path = Ok (n, fs') →
     match annotations with
     | [] =>
         ∃ data,
           fs !! resolve pdf_path = Some data ∧
           fs' = <[resolve output_path :=
                     if decide (resolve output_path = resolve pdf_path) then [] else data]> fs
     | _ :: _ =>
         ∃ pdf pdf',
           pdf_open pdf_parse fs (resolve pdf_path) = Ok pdf ∧
           fs' = pdf_save pdf_serialize fs pdf' (resolve output_path) false ∧
           appended page_height_of
             (λ page_height n annot,
                convert_pymupdf_to_pdf_annot (clock n) annot page_height)
             pa_page annotations (pages pdf) (pages pdf')
     end) ∧
  (∀ source annotations n fs',
     parse_xfdf fs xfdf_path = Ok (source, annotations) →
     import_xfdf_to_pdf pdf_parse pdf_serialize parse_xfdf clock resolve fs pdf_path
       xfdf_path output_path linearize = Ok (n, fs') →
     match annotations with
     | [] =>
         ∃ data,
           fs !! resolve pdf_path = Some data ∧
           fs' = <[resolve output_path :=
                     if decide (resolve output_path = resolve pdf_path) then [] else data]> fs
     | _ :: _ =>
         ∃ pdf pdf',
           pdf_open pdf_parse fs (resolve pdf_path) = Ok pdf ∧
           fs' = pdf_save pdf_serialize fs pdf' (resolve output_path) linearize ∧
           appended_xfdf clock annotations (pages pdf) (pages pdf')
     end) ∧
  (∀ (count i : nat) (annotations : list XfdfAnnot),
     added_to count i (group_by_page_int xa_page annotations)
     ≡ₚ filter (λ a, reached count (xa_page a) = Some i) annotations) ∧
  (∀ data source,
     fs !! resolve pdf_path = Some data →
     resolve output_path = resolve pdf_path →
     import_annotations_direct pdf_parse pdf_serialize clock resolve fs pdf_path []
       output_path = Ok (0, <[resolve output_path := []]> fs) ∧
     (parse_xfdf fs xfdf_path = Ok (source, []) →
      import_xfdf_to_pdf pdf_parse pdf_serialize parse_xfdf clock resolve fs pdf_path
        xfdf_path output_path linearize = Ok (0, <[resolve output_path := []]> fs))).
Proof.
  split; [| split; [| split;
    [intros count i annotations; apply added_to_group_by_page_int |]]].
  3:{ intros data source Hdata Heq.
      assert (copy_file fs (resolve pdf_path) (resolve output_path)
              = Ok (<[resolve output_path := []]> fs)) as Hcopy
        by (rewrite Heq; by apply (copy_file_same fs _ data)).
      split.
      - unfold import_annotations_direct. by rewrite Hcopy.
      - intros Hparse. unfold import_xfdf_to_pdf. rewrite Hparse. simpl_result.
        cbn [snd]. by rewrite Hcopy. }
  - intros annotations n fs' Hrun. unfold import_annotations_direct in Hrun.
    destruct annotations as [| a annotations].
    + destruct (copy_file fs _ _) as [fs0 |] eqn:Hcopy; simpl_result; [| discriminate].
      injection Hrun as _ <-. by apply copy_file_result.
    + destruct (pdf_open pdf_parse fs _) as [pdf |]; simpl_result; [| discriminate].
      destruct (import_pages _ _ _ _ _) as [[pdf' n'] |] eqn:Hpages; simpl_result;
        [| discriminate].
      injection Hrun as <- <-. exists pdf, pdf'. split; [done |]. split; [done |].
      by apply import_pages_ok in Hpages as [_ ?].
  - intros source annotations n fs' Hparse Hrun. unfold import_xfdf_to_pdf in Hrun.
    rewrite Hparse in Hrun. simpl_result. cbn [snd] in Hrun.
    destruct annotations as [| a annotations].
    + destruct (copy_file fs _ _) as [fs0 |] eqn:Hcopy; simpl_result; [| discriminate].
      injection Hrun as _ <-. by apply copy_file_result.
    + destruct (pdf_open pdf_parse fs _) as [pdf |]; simpl_result; [| discriminate].
      destruct (xfdf_import_pages _ _ _) as [[pdf' n'] |] eqn:Hpages; simpl_result;
        [| discriminate].
      injection Hrun as <- <-. exists pdf, pdf'. split; [done |]. split; [done |].
      by apply xfdf_import_pages_ok in Hpages as (_ & _ & ?).
Qed.

(** The failing run of C8: the input holds a page with an annotation, the
    output path is another spelling of the input path, and the file is left
    empty. *)
Lemma import_appends_after_existing_witness :
  pdf_open parse_one_page one_file_fs (same_directory "doc.pdf") = Ok one_page_pdf ∧
  existing_items letter_page = [ExistingObject 7] ∧
  import_annotations_direct parse_one_page serialize_page_marks still_clock same_directory
    one_file_fs "doc.pdf" [] "./doc.pdf"
  = Ok (0, {[ "doc.pdf"%string := [] ]}) ∧
  ∃ data,
    one_file_fs !! same_directory "doc.pdf" = Some data ∧
    ({[ "doc.pdf"%string := [] ]} : FS)
    = <[same_directory "./doc.pdf" :=
          if decide (same_directory "./doc.pdf" = same_directory "doc.pdf")
          then [] else data]> one_file_fs.
Proof.
  assert (import_annotations_direct parse_one_page serialize_page_marks still_clock
            same_directory one_file_fs "doc.pdf" [] "./doc.pdf"
          = Ok (0, {[ "doc.pdf"%string := [] ]})) as Hrun by (vm_compute; reflexivity).
  split; [vm_compute; reflexivity |]. split; [reflexivity |]. split; [exact Hrun |].
  exact (proj1 (import_appends_after_existing parse_one_page serialize_page_marks
                  no_annotations still_clock same_directory one_file_fs "doc.pdf"
                  "comments.xfdf" "./doc.pdf" false)
           [] 0 {[ "doc.pdf"%string := [] ]} Hrun).
Defined.

(** C10.  Against the opened target document: the count a completed import
    run returns is the number of annotations whose page number is below the
    page count, and the annotations whose page number is the page count or
    more take no part in the loop (the run is the run without them) and
    cannot make a run fail.  The page numbers of the direct import are
    positions; those of the XFDF import are the integers of the file, and a
    negative one is not passed over: from [-1] down to minus the page count
    it reaches a page counted from the end and is counted as imported, and
    below that the run raises [IndexError].  The XFDF import completes
    exactly when no page number is below minus the page count; the direct
    import completes whenever the annotations in range can be translated on
    their pages. *)
Theorem out_of_range_pages_skipped
    (pdf_parse : list byte → option Pdf) (pdf_serialize : bool → Pdf → list byte)
    (parse_xfdf : FS → string → result (string * list XfdfAnnot))
    (clock : Z → string * string) (resolve : string → string)
    (fs : FS) (pdf_path xfdf_path output_path : string) (linearize : bool) (pdf : Pdf) :
  pdf_open pdf_parse fs (resolve pdf_path) = Ok pdf →
  (∀ annotations n fs',
     import_annotations_direct pdf_parse pdf_serialize clock resolve fs pdf_path annotations
       output_path = Ok (n, fs') →
     n = Z.of_nat (length (filter (λ a, (pa_page a < length (pages pdf))%nat) annotations))) ∧
  (∀ source annotations n fs',
     parse_xfdf fs xfdf_path = Ok (source, annotations) →
     import_xfdf_to_pdf pdf_parse pdf_serialize parse_xfdf clock resolve fs pdf_path
       xfdf_path output_path linearize = Ok (n, fs') →
     n = Z.of_nat (length (filter (λ a, xa_page a < Z.of_nat (length (pages pdf)))
                             annotations)) ∧
     Forall (λ a, - Z.of_nat (length (pages pdf)) ≤ xa_page a) annotations) ∧
  (∀ annotations,
     import_pages page_height_of
       (λ page_height n annot, convert_pymupdf_to_pdf_annot (clock n) annot page_height)
       pa_page pdf annotations
     = import_pages page_height_of
         (λ page_height n annot, convert_pymupdf_to_pdf_annot (clock n) annot page_height)
         pa_page pdf (filter (λ a, (pa_page a < length (pages pdf))%nat) annotations)) ∧
  (∀ annotations,
     xfdf_import_pages clock pdf annotations
     = xfdf_import_pages clock pdf
         (filter (λ a, xa_page a < Z.of_nat (length (pages pdf))) annotations)) ∧
  (∀ source annotations,
     parse_xfdf fs xfdf_path = Ok (source, annotations) →
     Forall (λ a, - Z.of_nat (length (pages pdf)) ≤ xa_page a) annotations →
     ∃ n fs',
       import_xfdf_to_pdf pdf_parse pdf_serialize parse_xfdf clock resolve fs pdf_path
         xfdf_path output_path linearize = Ok (n, fs')) ∧
  (∀ source annotations,
     parse_xfdf fs xfdf_path = Ok (source, annotations) →
     Exists (λ a, xa_page a < - Z.of_nat (length (pages pdf))) annotations →
     import_xfdf_to_pdf pdf_parse pdf_serialize parse_xfdf clock resolve fs pdf_path
       xfdf_path output_path linearize = Raise IndexError) ∧
  (∀ annotations,
     (∀ a page, a ∈ annotations → pages pdf !! pa_page a = Some page →
        ∃ h, page_height_of page = Ok h ∧
             ∀ stamps, ∃ d, convert_pymupdf_to_pdf_annot stamps a h = Ok d) →
     ∃ n fs',
       import_annotations_direct pdf_parse pdf_serialize clock resolve fs pdf_path
         annotations output_path = Ok (n, fs')).
Proof.
  intros Hopen.
  assert (∃ fs', copy_file fs (resolve pdf_path) (resolve output_path) = Ok fs')
    as [fs0 Hcopy].
  { unfold pdf_open in Hopen. unfold copy_file.
    destruct (read_file fs (resolve pdf_path)) as [data |] eqn:Hread; simpl_result;
      [| discriminate].
    unfold read_file in *.
    destruct (fs !! resolve pdf_path) as [data' |] eqn:Hfs; [| discriminate].
    destruct (decide (resolve output_path = resolve pdf_path)) as [Heq | Hne].
    - rewrite Heq, lookup_insert_eq. by eexists.
    - rewrite lookup_insert_ne by done. rewrite Hfs. by eexists. }
  repeat apply conj.
  - intros annotations n fs' Hrun. unfold import_annotations_direct in Hrun.
    destruct annotations as [| a annotations].
    + rewrite Hcopy in Hrun. simpl_result. by injection Hrun as <- _.
    + rewrite Hopen in Hrun. simpl_result.
      destruct (import_pages _ _ _ _ _) as [[pdf' n'] |] eqn:Hpages; simpl_result;
        [| discriminate].
      injection Hrun as <- _. by apply import_pages_ok in Hpages as [-> _].
  - intros source annotations n fs' Hparse Hrun. unfold import_xfdf_to_pdf in Hrun.
    rewrite Hparse in Hrun. simpl_result. cbn [snd] in Hrun.
    destruct annotations as [| a annotations].
    + rewrite Hcopy in Hrun. simpl_result. injection Hrun as <- _. by split.
    + rewrite Hopen in Hrun. simpl_result.
      destruct (xfdf_import_pages _ _ _) as [[pdf' n'] |] eqn:Hpages; simpl_result;
        [| discriminate].
      injection Hrun as <- _. by apply xfdf_import_pages_ok in Hpages as (-> & ? & _).
  - intros annotations. apply import_pages_skip.
  - intros annotations. apply xfdf_import_pages_skip.
  - intros source annotations Hparse Hall. unfold import_xfdf_to_pdf.
    rewrite Hparse. simpl_result. cbn [snd].
    destruct annotations as [| a annotations].
    + rewrite Hcopy. simpl_result. by eexists _, _.
    + rewrite Hopen. simpl_result.
      destruct (xfdf_import_pages_total clock pdf (a :: annotations) Hall) as [r Hr].
      rewrite Hr. simpl_result. by eexists _, _.
  - intros source annotations Hparse Hex. unfold import_xfdf_to_pdf.
    rewrite Hparse. simpl_result. cbn [snd].
    destruct annotations as [| a annotations]; [by apply Exists_nil in Hex |].
    rewrite Hopen. simpl_result.
    by rewrite (xfdf_import_pages_raise clock pdf (a :: annotations) Hex).
  - intros annotations Hok. unfold import_annotations_direct.
    destruct annotations as [| a annotations].
    + rewrite Hcopy. simpl_result. by eexists _, _.
    + rewrite Hopen. simpl_result.
      destruct (import_pages_total page_height_of
                  (λ page_height n annot,
                     convert_pymupdf_to_pdf_annot (clock n) annot page_height)
                  pa_page pdf (a :: annotations)) as [r Hr].
      { intros a' page Ha' Hpage. destruct (Hok a' page Ha' Hpage) as (h & Hh & Htr).
        exists h. split; [done |]. intros m. apply Htr. }
      rewrite Hr. simpl_result. by eexists _, _.
Qed.

(** The failing runs of C10 on the one-page document: the page number [-2]
    raises [IndexError], and [-1] is counted as imported. *)
Lemma out_of_range_pages_skipped_witness :
  pdf_open parse_one_page one_file_fs (same_directory "doc.pdf") = Ok one_page_pdf ∧
  import_xfdf_to_pdf parse_one_page serialize_page_marks (reads_as [xfdf_note (-2)])
    still_clock same_directory one_file_fs "doc.pdf" "comments.xfdf" "out.pdf" false
  = Raise IndexError ∧
  ∃ fs',
    import_xfdf_to_pdf parse_one_page serialize_page_marks (reads_as [xfdf_note (-1)])
      still_clock same_directory one_file_fs "doc.pdf" "comments.xfdf" "out.pdf" false
    = Ok (1, fs').
Proof.
  assert (pdf_open parse_one_page one_file_fs (same_directory "doc.pdf") = Ok one_page_pdf)
    as Hopen by (vm_compute; reflexivity).
  split; [exact Hopen |]. split.
  - destruct (out_of_range_pages_skipped parse_one_page serialize_page_marks
                (reads_as [xfdf_note (-2)]) still_clock same_directory one_file_fs
                "doc.pdf" "comments.xfdf" "out.pdf" false one_page_pdf Hopen)
      as (_ & _ & _ & _ & _ & Hraise & _).
    apply (Hraise ""%string [xfdf_note (-2)] eq_refl).
    apply Exists_cons_hd. cbn. lia.
  - destruct (out_of_range_pages_skipped parse_one_page serialize_page_marks
                (reads_as [xfdf_note (-1)]) still_clock same_directory one_file_fs
                "doc.pdf" "comments.xfdf" "out.pdf" false one_page_pdf Hopen)
      as (_ & Hcount & _ & _ & Hcompletes & _ & _).
    destruct (Hcompletes ""%string [xfdf_note (-1)] eq_refl) as (n & fs' & Hrun).
    { apply Forall_cons. split; [cbn; lia | apply Forall_nil_2]. }
    destruct (Hcount ""%string [xfdf_note (-1)] n fs' eq_refl Hrun) as [Hn _].
    exists fs'. rewrite Hrun. by rewrite Hn.
Defined.

(** ** The coordinate flip of the direct import *)

(** C5.  The direct import translates every annotation with the height of
    its own target page; the page height is the height of the target page's
    media box, and 792 when the page has none.  The translator writes the rect with both
    [y] coordinates flipped against that height (and exchanged, so a
    well-formed rect stays well-formed), and flips the [y] of every point of
    the ink strokes, of the two line endpoints, of the quad points and of
    the polygon or polyline vertices, each list on its own. *)
Theorem screen_space_flip (stamps : string * string) (annot : PyAnnot) (page : PdfPage)
    (clock : Z → string * string) :
  (∀ pdf annotations pdf' n,
     import_pages page_height_of
       (λ page_height m a, convert_pymupdf_to_pdf_annot (clock m) a page_height)
       pa_page pdf annotations = Ok (pdf', n) →
     appended page_height_of
       (λ page_height m a, convert_pymupdf_to_pdf_annot (clock m) a page_height)
       pa_page annotations (pages pdf) (pages pdf')) ∧
  (MediaBox page = None → page_height_of page = Ok 792%Q) ∧
  (∀ left bottom right top,
     MediaBox page = Some [left; bottom; right; top] →
     page_height_of page = Ok (top - bottom)%Q) ∧
  ∀ h : Q,
    let r := pa_rect annot in
    let translated := convert_pymupdf_to_pdf_annot stamps annot h in
    (∀ d, translated = Ok d →
       d !! "/Rect"%string
       = Some (real_array [x0 r; (h - y1 r)%Q; x1 r; (h - y0 r)%Q]) ∧
       ((y0 r <= y1 r)%Q → (h - y1 r <= h - y0 r)%Q)) ∧
    (∀ strokes,
       pa_type annot = "Ink"%string → strokes ≠ [] →
       pa_vertices annot = Some (PySeq (map py_points strokes)) →
       ∃ d, translated = Ok d ∧
            d !! "/InkList"%string
            = Some (PArray (map (λ stroke, real_array (flipped h stroke)) strokes))) ∧
    (∀ p q rest,
       pa_type annot = "Line"%string →
       pa_vertices annot = Some (py_points (p :: q :: rest)) →
       ∃ d, translated = Ok d ∧
            d !! "/L"%string
            = Some (PArray [PReal p.1; PReal (h - p.2)%Q; PReal q.1; PReal (h - q.2)%Q])) ∧
    (∀ ps,
       pa_type annot ∈ ["Highlight"; "Underline"; "StrikeOut"; "Squiggly"]%string →
       ps ≠ [] → pa_vertices annot = Some (py_points ps) →
       ∃ d, translated = Ok d ∧
            d !! "/QuadPoints"%string = Some (real_array (flipped h ps))) ∧
    (∀ ps,
       pa_type annot ∈ ["Polygon"; "PolyLine"]%string →
       ps ≠ [] → pa_vertices annot = Some (py_points ps) →
       ∃ d, translated = Ok d ∧
            d !! "/Vertices"%string = Some (real_array (flipped h ps))).
Proof.
  split; [| split; [| split]].
  - intros pdf annotations pdf' n Hrun. by apply import_pages_ok in Hrun as [_ ?].
  - intros Hmb. unfold page_height_of. by rewrite Hmb.
  - intros left bottom right top Hmb. unfold page_height_of. by rewrite Hmb.
  - intros h r translated. subst r translated. repeat apply conj.
    + intros d Hd. split; [| intros Hwf; lra].
      rewrite (convert_frame stamps annot h d "/Rect" ltac:(set_solver) Hd).
      apply pymupdf_common_dict_rect.
    + intros strokes Hty Hne Hv. rewrite (convert_ink stamps annot h Hty), Hv.
      destruct strokes as [| stroke strokes]; [done |].
      cbn [map py_truth py_points py_iter]. simpl_result.
      change (py_points stroke :: map py_points strokes)
        with (map py_points (stroke :: strokes)).
      rewrite flip_strokes_typed. simpl_result.
      eexists. split; [reflexivity |].
      rewrite lookup_insert_ne by done. apply lookup_set_opt_eq.
      apply pymupdf_common_dict_no_geometry. set_solver.
    + intros p q rest Hty Hv. rewrite (convert_line stamps annot h Hty), Hv.
      cbn. eexists. split; [reflexivity |].
      rewrite lookup_insert_eq. reflexivity.
    + intros ps Hty Hne Hv. rewrite (convert_markup stamps annot h Hty), Hv.
      rewrite (flipped_flat_typed h ps Hne). simpl_result.
      eexists. split; [reflexivity |]. apply lookup_set_opt_eq.
      apply pymupdf_common_dict_no_geometry. set_solver.
    + intros ps Hty Hne Hv. rewrite (convert_polygon stamps annot h Hty), Hv.
      rewrite (flipped_flat_typed h ps Hne). simpl_result.
      eexists. split; [reflexivity |]. apply lookup_set_opt_eq.
      apply pymupdf_common_dict_no_geometry. set_solver.
Qed.

Lemma screen_space_flip_witness :
  page_height_of letter_page = Ok (792 - 0)%Q ∧
  ∃ d, convert_pymupdf_to_pdf_annot (still_clock 0) sample_ink 792 = Ok d ∧
       d !! "/InkList"%string
       = Some (PArray (map (λ stroke, real_array (flipped 792 stroke)) [three_point_stroke])).
Proof.
  split.
  - apply (proj1 (proj2 (proj2
             (screen_space_flip (still_clock 0) sample_ink letter_page still_clock)))
             0%Q 0%Q 612%Q 792%Q).
    reflexivity.
  - apply (proj2 (proj2 (proj2
             (screen_space_flip (still_clock 0) sample_ink letter_page still_clock)))
             792%Q).
    + reflexivity.
    + discriminate.
    + reflexivity.
Defined.

(** * Further properties of the code *)

(** ** Rounding *)

Lemma round_half_even_proper (q1 q2 : Q) :
  (q1 == q2)%Q → round_half_even q1 = round_half_even q2.
Proof.
  intros Heq. unfold round_half_even.
  rewrite (Qfloor_comp q1 q2 Heq).
  assert (Qcompare (q1 - inject_Z (Qfloor q2)) (1 # 2)
          = Qcompare (q2 - inject_Z (Qfloor q2)) (1 # 2)) as ->; [| done].
  apply Qcompare_comp; [by rewrite Heq | reflexivity].
Qed.

Lemma round_half_even_mono (q1 q2 : Q) :
  (q1 <= q2)%Q → round_half_even q1 ≤ round_half_even q2.
Proof.
  intros Hle.
  destruct (round_half_even_close q1) as [H1lo H1hi].
  destruct (round_half_even_close q2) as [H2lo H2hi].
  destruct (Z_lt_le_dec (round_half_even q2) (round_half_even q1)) as [Hlt | Hge]; [| done].
  assert (inject_Z (round_half_even q2 + 1) <= inject_Z (round_half_even q1))%Q as Hstep
    by (rewrite <- Zle_Qle; lia).
  rewrite inject_Z_plus in Hstep. change (inject_Z 1) with 1%Q in Hstep.
  assert (q1 == q2)%Q as Heq by lra.
  apply round_half_even_proper in Heq. lia.
Qed.

(** X1.  The multiple of 0.1 that the rounding of the fingerprint selects
    for a coordinate (the float [round] returns is the double nearest to that
    multiple) lies within 0.05 of the coordinate, and the selection never
    exchanges the order of two coordinates. *)
Theorem py_round_error_and_order (x y : Q) :
  (Qabs (x - inject_Z (py_round x default_precision) / 10) <= 1 # 20)%Q ∧
  ((x <= y)%Q → py_round x default_precision ≤ py_round y default_precision).
Proof.
  rewrite !py_round_tenths. split.
  - destruct (round_half_even_close (x * 10)) as [Hlo Hhi].
    assert (inject_Z (round_half_even (x * 10)) / 10
            == inject_Z (round_half_even (x * 10)) * (1 # 10))%Q as Hd
      by (unfold Qdiv; reflexivity).
    rewrite Hd. apply Qabs_Qle_condition. split; lra.
  - intros Hle. apply round_half_even_mono. lra.
Qed.

Lemma py_round_error_and_order_witness :
  py_round (3 # 64) default_precision ≤ py_round (1 # 16) default_precision.
Proof.
  apply (py_round_error_and_order (3 # 64) (1 # 16)). vm_compute. discriminate.
Defined.

(** ** The extracted dictionary *)

Lemma size_list_to_set_NoDup (l : list AnnotationKey) :
  size (list_to_set l : gset AnnotationKey) = length l → NoDup l.
Proof.
  induction l as [| k l IH]; [intros; constructor |].
  cbn [list_to_set length]. intros Hsize.
  assert (size (list_to_set l : gset AnnotationKey) ≤ length l)%nat as Hle.
  { clear. induction l as [| k l IH]; cbn [list_to_set length].
    - by rewrite size_empty.
    - pose proof (size_union_alt {[k]} (list_to_set l : gset AnnotationKey)) as Hu.
      rewrite size_singleton in Hu.
      pose proof (subseteq_size (list_to_set l ∖ {[k]}) (list_to_set l : gset AnnotationKey)
                    ltac:(set_solver)).
      lia. }
  destruct (decide (k ∈ l)) as [Hin | Hout].
  - exfalso.
    replace ({[k]} ∪ list_to_set l) with (list_to_set l : gset AnnotationKey)
      in Hsize by set_solver.
    lia.
  - constructor; [done |]. apply IH.
    rewrite size_union in Hsize by set_solver. rewrite size_singleton in Hsize. lia.
Qed.

(** X2.  The extracted dictionary never has more entries than the document
    has annotations, and has as many exactly when no two annotations of the
    document share a fingerprint. *)
Theorem extract_size_vs_records (doc : Doc) :
  (size (extract_annotation_keys doc) ≤ record_count doc)%nat ∧
  (size (extract_annotation_keys doc) = record_count doc ↔ NoDup (doc_keys doc)).
Proof.
  rewrite size_extract_annotation_keys. split; [apply size_fingerprints_le |]. split.
  - apply size_list_to_set_NoDup.
  - apply size_fingerprints_NoDup.
Qed.

Lemma foldl_insert_lookup (l : list (AnnotationKey * FitzAnnot))
    (m : gmap AnnotationKey FitzAnnot) (k : AnnotationKey) :
  foldl (λ acc e, <[e.1 := e.2]> acc) m l !! k
  = match last (filter (λ e, e.1 = k) l) with
    | Some e => Some e.2
    | None => m !! k
    end.
Proof.
  revert m. induction l as [| e l IH]; intros m; [done |].
  cbn [foldl]. rewrite IH, filter_cons.
  destruct (decide (e.1 = k)) as [<- | Hne].
  - destruct (filter (λ e0, e0.1 = e.1) l) as [| e' l'] eqn:Hf.
    + cbn. by rewrite lookup_insert_eq.
    + change (last (e :: e' :: l')) with (last (e' :: l')).
      destruct (last (e' :: l')) eqn:Hl; [done |]. by apply last_None in Hl.
  - destruct (last (filter (λ e0, e0.1 = k) l)); [done |].
    by rewrite lookup_insert_ne.
Qed.

Lemma extract_page_entries (page_num : nat) (annots : Page) (m : gmap AnnotationKey FitzAnnot) :
  extract_page page_num m annots
  = foldl (λ acc e, <[e.1 := e.2]> acc) m
      (map (λ annot, (make_key page_num annot, annot)) annots).
Proof.
  unfold extract_page. revert m. induction annots as [| a annots IH]; intros m; [done |].
  cbn [foldl map]. apply IH.
Qed.

Lemma extract_pages_entries (page_num : nat) (pages : list Page)
    (m : gmap AnnotationKey FitzAnnot) :
  extract_pages page_num pages m
  = foldl (λ acc e, <[e.1 := e.2]> acc) m (doc_entries_from page_num pages).
Proof.
  revert page_num m. induction pages as [| p ps IH]; intros page_num m; [done |].
  cbn [extract_pages doc_entries_from]. by rewrite IH, extract_page_entries, foldl_app.
Qed.

(** X3.  Under a fingerprint the extracted dictionary holds the data of the
    last annotation of the document (in page order, then document order) with
    that fingerprint, and nothing when there is none. *)
Theorem extract_keeps_last (doc : Doc) (k : AnnotationKey) :
  extract_annotation_keys doc !! k
  = snd <$> last (filter (λ e, e.1 = k) (doc_entries doc)).
Proof.
  unfold extract_annotation_keys, doc_entries.
  rewrite extract_pages_entries, foldl_insert_lookup, lookup_empty.
  by destruct (last _).
Qed.

(** ** The merge step: the seen set, the counters, the base document *)

Lemma size_list_to_set_le (l : list AnnotationKey) :
  (size (list_to_set l : gset AnnotationKey) ≤ length l)%nat.
Proof.
  induction l as [| k l IH]; cbn [list_to_set length].
  - by rewrite size_empty.
  - pose proof (size_union_alt {[k]} (list_to_set l : gset AnnotationKey)) as Hu.
    rewrite size_singleton in Hu.
    pose proof (subseteq_size (list_to_set l ∖ {[k]}) (list_to_set l : gset AnnotationKey)
                  ltac:(set_solver)).
    lia.
Qed.

Lemma length_filter_split (U S : gset AnnotationKey) (l : list AnnotationKey) :
  (∀ k, k ∈ l → k ∈ U ↔ k ∉ S) →
  (length (filter (λ k, k ∈ U) l) + length (filter (λ k, k ∈ S) l) = length l)%nat.
Proof.
  induction l as [| k l IH]; intros Hsplit; [done |].
  rewrite !filter_cons. cbn [length].
  specialize (IH (λ k' Hk', Hsplit k' (list_elem_of_further _ _ _ Hk'))).
  pose proof (Hsplit k (list_elem_of_here _ _)) as Hk.
  destruct (decide (k ∈ U)), (decide (k ∈ S)); cbn [length]; try lia; tauto.
Qed.

Lemma size_seen_part (fp S : gset AnnotationKey) :
  (size fp = size (fp ∖ S) + size (fp ∩ S))%nat.
Proof.
  rewrite <- size_union by set_solver. f_equal.
  apply set_eq. intros k. rewrite elem_of_union, elem_of_difference, elem_of_intersection.
  destruct (decide (k ∈ S)); tauto.
Qed.

Section MergeStepFacts.

Variable recreate : Page → AddCall → FitzAnnot → Page * bool.

Lemma copy_annotation_prefix (target : Page) (annot : FitzAnnot) :
  (∀ t c a, t `prefix_of` (recreate t c a).1) →
  target `prefix_of` (copy_annotation recreate target annot).1.
Proof.
  intros Hlib. unfold copy_annotation.
  destruct (select_call annot) as [[call |] |]; [apply Hlib | done | done].
Qed.

Lemma merge_annot_inv (unique_keys : gset AnnotationKey) (page_num : nat)
    (st : PageState) (a : FitzAnnot) :
  let st' := merge_annot recreate unique_keys page_num st a in
  merged_count st ≤ merged_count st' ∧
  failed_count st ≤ failed_count st' ∧
  seen st ⊆ seen st' ∧
  seen st' ⊆ seen st ∪ ({[make_key page_num a]} ∩ unique_keys) ∧
  ((∀ t c a, t `prefix_of` (recreate t c a).1) →
   target_page st `prefix_of` target_page st').
Proof.
  cbn zeta. unfold merge_annot.
  pose proof (copy_annotation_prefix (target_page st) a) as Hcopy.
  destruct (decide (make_key page_num a ∈ unique_keys)) as [Hin | Hout].
  - destruct (copy_annotation recreate (target_page st) a) as [t' []];
      cbn [fst snd merged_count failed_count seen target_page] in *;
      (repeat split; [lia | lia | set_solver | set_solver | done]).
  - repeat split; [lia | lia | set_solver | set_solver | done].
Qed.

(** What the loop over the annotations of a page keeps. *)
Lemma foldl_merge_annot_inv (unique_keys : gset AnnotationKey) (page_num : nat)
    (annots : Page) (st : PageState) :
  let st' := foldl (merge_annot recreate unique_keys page_num) st annots in
  merged_count st ≤ merged_count st' ∧
  failed_count st ≤ failed_count st' ∧
  seen st ⊆ seen st' ∧
  seen st' ⊆ seen st ∪ (list_to_set (map (make_key page_num) annots) ∩ unique_keys) ∧
  ((∀ t c a, t `prefix_of` (recreate t c a).1) →
   target_page st `prefix_of` target_page st').
Proof.
  revert st. induction annots as [| a annots IH]; intros st; cbn [foldl map list_to_set].
  - repeat split; [lia | lia | set_solver | set_solver | done].
  - destruct (IH (merge_annot recreate unique_keys page_num st a))
      as (Hm & Hf & Hs1 & Hs2 & Hp).
    destruct (merge_annot_inv unique_keys page_num st a) as (Hm0 & Hf0 & Hs10 & Hs20 & Hp0).
    cbn zeta in *. split; [lia |]. split; [lia |].
    split; [by etransitivity |]. split.
    + intros k Hk. apply Hs2 in Hk. apply elem_of_union in Hk as [Hk | Hk].
      * apply Hs20 in Hk. clear -Hk. set_solver.
      * clear -Hk. set_solver.
    + intros Hlib. etransitivity; [by apply Hp0 | by apply Hp].
Qed.

Lemma Forall2_prefix_insert (doc : Doc) (i : nat) (page page' : Page) :
  doc !! i = Some page → page `prefix_of` page' →
  Forall2 prefix doc (<[i := page']> doc).
Proof.
  intros Hi Hp. rewrite <- (list_insert_id doc i page Hi) at 1.
  apply Forall2_insert; [| done]. by apply Forall_Forall2_diag, Forall_true.
Qed.

(** What a completed loop over the pages of a candidate keeps. *)
Lemma merge_pages_inv (unique_keys : gset AnnotationKey) (source_pages : list Page)
    (page_num : nat) (st st' : MergeState) :
  merge_pages recreate unique_keys page_num source_pages st = Ok st' →
  merged st ≤ merged st' ∧
  failed st ≤ failed st' ∧
  all_seen_keys st ⊆ all_seen_keys st' ∧
  all_seen_keys st'
  ⊆ all_seen_keys st ∪ (list_to_set (doc_keys_from page_num source_pages) ∩ unique_keys) ∧
  ((∀ t c a, t `prefix_of` (recreate t c a).1) →
   Forall2 prefix (base_doc st) (base_doc st')).
Proof.
  revert page_num st.
  induction source_pages as [| sp rest IH]; intros page_num st Hrun; cbn [merge_pages] in Hrun.
  - injection Hrun as <-. repeat split; [lia | lia | set_solver | set_solver |].
    intros _. by apply Forall_Forall2_diag, Forall_true.
  - destruct (base_doc st !! page_num) as [target |] eqn:Htarget; [| discriminate].
    apply IH in Hrun as (Hm & Hf & Hs1 & Hs2 & Hp).
    cbn [base_doc all_seen_keys merged failed] in *.
    destruct (foldl_merge_annot_inv unique_keys page_num sp
                {| target_page := target; seen := all_seen_keys st;
                   merged_count := merged st; failed_count := failed st |})
      as (Hm0 & Hf0 & Hs10 & Hs20 & Hp0).
    cbn zeta in *. cbn [merged_count failed_count seen target_page] in *.
    cbn [doc_keys_from]. rewrite list_to_set_app_L.
    split; [lia |]. split; [lia |]. split; [by etransitivity |]. split.
    { intros k Hk. apply Hs2 in Hk. apply elem_of_union in Hk as [Hk | Hk].
      - apply Hs20 in Hk. clear -Hk. set_solver.
      - clear -Hk. set_solver. }
    intros Hlib. eapply Forall2_trans; [| | by apply Hp].
    + intros x y z Hxy Hyz. by etransitivity.
    + by apply (Forall2_prefix_insert _ _ target), Hp0.
Qed.

(** X4.  A candidate all of whose fingerprints are already in the seen set
    changes nothing: the base document and the seen set stay as they are,
    nothing is merged or failed, and the duplicate counter grows by the
    number of distinct fingerprints of the candidate. *)
Theorem seen_candidate_changes_nothing (rs : RunState) (cand : Doc) :
  fingerprints cand ⊆ run_seen rs →
  (length cand ≤ length (run_doc rs))%nat →
  ∃ rs',
    merge_candidate recreate rs (Some cand) = Ok rs' ∧
    run_doc rs' = run_doc rs ∧
    run_seen rs' = run_seen rs ∧
    merged_annotations (run_stats rs') = merged_annotations (run_stats rs) ∧
    failed_annotations (run_stats rs') = failed_annotations (run_stats rs) ∧
    duplicate_annotations (run_stats rs')
    = duplicate_annotations (run_stats rs) + Z.of_nat (size (fingerprints cand)).
Proof.
  intros Hsub Hfit. unfold merge_candidate.
  rewrite dom_extract_annotation_keys, size_extract_annotation_keys.
  replace (fingerprints cand ∖ run_seen rs) with (∅ : gset AnnotationKey) by set_solver.
  rewrite merge_pages_no_unique by (simpl; lia).
  simpl_result. eexists. split; [reflexivity |]. cbn.
  rewrite size_empty. repeat split; lia.
Qed.

(** X5.  The counters never count a record twice: over a completed
    candidate the merged, failed and duplicate counters grow by
    non-negative amounts whose sum is at most the number of records of the
    candidate, and equals it when the fingerprints of the candidate are
    pairwise distinct. *)
Theorem candidate_counters_bounded (rs rs' : RunState) (cand : Doc) :
  merge_candidate recreate rs (Some cand) = Ok rs' →
  let m := merged_annotations (run_stats rs') - merged_annotations (run_stats rs) in
  let f := failed_annotations (run_stats rs') - failed_annotations (run_stats rs) in
  let d := duplicate_annotations (run_stats rs') - duplicate_annotations (run_stats rs) in
  0 ≤ m ∧ 0 ≤ f ∧ 0 ≤ d ∧
  m + f + d ≤ Z.of_nat (record_count cand) ∧
  (NoDup (doc_keys cand) → m + f + d = Z.of_nat (record_count cand)).
Proof.
  intros Hrun m f d. subst m f d. unfold merge_candidate in Hrun.
  destruct (merge_pages _ _ _ _ _) as [st |] eqn:Hpages; simpl_result; [| discriminate].
  injection Hrun as <-. cbn [run_stats merged_annotations failed_annotations
                              duplicate_annotations].
  pose proof (merge_pages_inv _ _ _ _ _ Hpages) as (Hm & Hf & _).
  apply merge_pages_ok in Hpages as [_ Hcnt].
  cbn [merged failed] in *.
  rewrite dom_extract_annotation_keys in *. rewrite size_extract_annotation_keys.
  fold (doc_keys cand) in Hcnt.
  pose proof (size_seen_part (fingerprints cand) (run_seen rs)) as Hpart.
  assert (length (filter (λ k, k ∈ fingerprints cand ∖ run_seen rs) (doc_keys cand))
          + length (filter (λ k, k ∈ run_seen rs) (doc_keys cand))
          = length (doc_keys cand))%nat as Hsplit.
  { apply length_filter_split. intros k Hk. unfold fingerprints.
    rewrite elem_of_difference, elem_of_list_to_set. tauto. }
  assert (fingerprints cand ∩ run_seen rs
          = list_to_set (filter (λ k, k ∈ run_seen rs) (doc_keys cand))) as Hseen.
  { apply set_eq. intros k. unfold fingerprints.
    rewrite elem_of_intersection, !elem_of_list_to_set, list_elem_of_filter. tauto. }
  pose proof (size_list_to_set_le (filter (λ k, k ∈ run_seen rs) (doc_keys cand))) as Hle.
  rewrite <- Hseen in Hle. unfold record_count.
  repeat split; try lia.
  intros Hnd.
  assert (size (fingerprints cand ∩ run_seen rs)
          = length (filter (λ k, k ∈ run_seen rs) (doc_keys cand))) as Heq.
  { rewrite Hseen. apply size_list_to_set. by apply NoDup_filter. }
  lia.
Qed.

(** X6.  Over a completed candidate the seen set only grows, and only by
    fingerprints of the candidate that were not in it; the base document
    keeps its number of pages. *)
Theorem candidate_seen_bounds (rs rs' : RunState) (cand : Doc) :
  merge_candidate recreate rs (Some cand) = Ok rs' →
  run_seen rs ⊆ run_seen rs' ∧
  run_seen rs' ⊆ run_seen rs ∪ fingerprints cand ∧
  length (run_doc rs') = length (run_doc rs).
Proof.
  intros Hrun. unfold merge_candidate in Hrun.
  destruct (merge_pages _ _ _ _ _) as [st |] eqn:Hpages; simpl_result; [| discriminate].
  injection Hrun as <-. cbn [run_seen run_doc].
  pose proof (merge_pages_inv _ _ _ _ _ Hpages) as (_ & _ & Hs1 & Hs2 & _).
  apply merge_pages_ok in Hpages as [Hlen _].
  cbn [all_seen_keys base_doc] in *. fold (doc_keys cand) in Hs2.
  fold (fingerprints cand) in Hs2. repeat split; [done | set_solver | done].
Qed.

(** X7.  When the constructors of the library only append to the target
    page, a completed run only appends to the base document: every page of
    the base is a prefix of the page saved in its place, and no page is added
    or removed. *)
Theorem merge_only_appends (inputs : list (option Doc)) (base : Doc) (st : Stats) (doc : Doc) :
  (∀ t c a, t `prefix_of` (recreate t c a).1) →
  head inputs = Some (Some base) →
  merge_pdf_annotations recreate inputs = Ok (st, doc) →
  Forall2 prefix base doc.
Proof.
  intros Hlib Hhead Hrun. unfold merge_pdf_annotations in Hrun.
  destruct (length inputs <? 2)%nat; [discriminate |].
  destruct inputs as [| first rest]; [discriminate |].
  injection Hhead as ->.
  destruct (merge_candidates _ _ _) as [rs |] eqn:Hcands; simpl_result; [| discriminate].
  injection Hrun as _ <-.
  assert (∀ cands rs0 rs1,
            merge_candidates recreate rs0 cands = Ok rs1 →
            Forall2 prefix (run_doc rs0) (run_doc rs1)) as Hall.
  { clear -Hlib. induction cands as [| c cands IH]; intros rs0 rs1 Hc; cbn in Hc.
    - injection Hc as <-. by apply Forall_Forall2_diag, Forall_true.
    - destruct (merge_candidate recreate rs0 c) as [rs2 |] eqn:Hstep; simpl_result;
        [| discriminate].
      eapply Forall2_trans; [| | by apply IH].
      + intros x y z Hxy Hyz. by etransitivity.
      + unfold merge_candidate in Hstep. destruct c as [cand |]; [| discriminate].
        destruct (merge_pages _ _ _ _ _) as [st2 |] eqn:Hpages; simpl_result;
          [| discriminate].
        injection Hstep as <-. cbn [run_doc].
        by apply (merge_pages_inv _ _ _ _ _ Hpages). }
  by apply Hall in Hcands.
Qed.

End MergeStepFacts.

(** ** The merge step when the library accepts, or rejects, every call *)

Lemma filter_unseen (S : gset AnnotationKey) (l l' : list AnnotationKey) :
  l' ⊆ l →
  filter (λ k, k ∈ (list_to_set l : gset AnnotationKey) ∖ S) l' = filter (λ k, k ∉ S) l'.
Proof.
  induction l' as [| k l' IH]; intros Hsub; [done |].
  rewrite !filter_cons, IH by set_solver.
  assert (k ∈ l) as Hk by set_solver.
  destruct (decide (k ∈ list_to_set l ∖ S)) as [Hin | Hout], (decide (k ∉ S)) as [Hn | Hy];
    try done; exfalso; set_solver.
Qed.

Section MergeOracleFacts.

Variable recreate : Page → AddCall → FitzAnnot → Page * bool.

Lemma foldl_merge_annot_accepting (unique_keys : gset AnnotationKey) (page_num : nat)
    (annots : Page) (st : PageState) :
  (∀ t c a, (recreate t c a).2 = true) →
  Forall has_call annots →
  let st' := foldl (merge_annot recreate unique_keys page_num) st annots in
  failed_count st' = failed_count st ∧
  seen st' = seen st ∪ (list_to_set (map (make_key page_num) annots) ∩ unique_keys).
Proof.
  intros Hacc. revert st.
  induction annots as [| a annots IH]; intros st Hsup; cbn [foldl map list_to_set].
  - split; [done | set_solver].
  - apply Forall_cons in Hsup as [[call Hcall] Hsup].
    destruct (IH (merge_annot recreate unique_keys page_num st a) Hsup) as [Hf Hs].
    cbn zeta in *. rewrite Hf, Hs. unfold merge_annot, copy_annotation. rewrite Hcall.
    destruct (decide (make_key page_num a ∈ unique_keys)) as [Hin | Hout].
    + rewrite Hacc. cbn [failed_count seen]. split; [done | set_solver].
    + split; [done | set_solver].
Qed.

Lemma foldl_merge_annot_rejecting (unique_keys : gset AnnotationKey) (page_num : nat)
    (annots : Page) (st : PageState) :
  (∀ t c a, (recreate t c a).2 = false) →
  let st' := foldl (merge_annot recreate unique_keys page_num) st annots in
  merged_count st' = merged_count st ∧ seen st' = seen st.
Proof.
  intros Hrej. revert st.
  induction annots as [| a annots IH]; intros st; cbn [foldl]; [done |].
  destruct (IH (merge_annot recreate unique_keys page_num st a)) as [Hm Hs].
  cbn zeta in *. rewrite Hm, Hs. unfold merge_annot.
  assert ((copy_annotation recreate (target_page st) a).2 = false) as Hcopy.
  { unfold copy_annotation. destruct (select_call a) as [[call |] |]; [apply Hrej | done ..]. }
  destruct (decide (make_key page_num a ∈ unique_keys)); [| done].
  by rewrite Hcopy.
Qed.

Lemma merge_pages_accepting (unique_keys : gset AnnotationKey) (source_pages : list Page)
    (page_num : nat) (st st' : MergeState) :
  (∀ t c a, (recreate t c a).2 = true) →
  Forall (Forall has_call) source_pages →
  merge_pages recreate unique_keys page_num source_pages st = Ok st' →
  failed st' = failed st ∧
  all_seen_keys st'
  = all_seen_keys st ∪ (list_to_set (doc_keys_from page_num source_pages) ∩ unique_keys).
Proof.
  intros Hacc. revert page_num st.
  induction source_pages as [| sp rest IH]; intros page_num st Hsup Hrun;
    cbn [merge_pages] in Hrun.
  - injection Hrun as <-. split; [done | set_solver].
  - apply Forall_cons in Hsup as [Hsp Hsup].
    destruct (base_doc st !! page_num) as [target |]; [| discriminate].
    apply IH in Hrun as [Hf Hs]; [| done]. cbn [failed all_seen_keys] in *.
    destruct (foldl_merge_annot_accepting unique_keys page_num sp
                {| target_page := target; seen := all_seen_keys st;
                   merged_count := merged st; failed_count := failed st |} Hacc Hsp)
      as [Hf0 Hs0].
    cbn zeta in *. cbn [failed_count seen] in *.
    rewrite Hf, Hs, Hf0, Hs0. cbn [doc_keys_from]. rewrite list_to_set_app_L.
    split; [done | set_solver].
Qed.

Lemma merge_pages_rejecting (unique_keys : gset AnnotationKey) (source_pages : list Page)
    (page_num : nat) (st st' : MergeState) :
  (∀ t c a, (recreate t c a).2 = false) →
  merge_pages recreate unique_keys page_num source_pages st = Ok st' →
  merged st' = merged st ∧ all_seen_keys st' = all_seen_keys st.
Proof.
  intros Hrej. revert page_num st.
  induction source_pages as [| sp rest IH]; intros page_num st Hrun;
    cbn [merge_pages] in Hrun.
  - by injection Hrun as <-.
  - destruct (base_doc st !! page_num) as [target |]; [| discriminate].
    apply IH in Hrun as [Hm Hs]. cbn [merged all_seen_keys] in *.
    destruct (foldl_merge_annot_rejecting unique_keys page_num sp
                {| target_page := target; seen := all_seen_keys st;
                   merged_count := merged st; failed_count := failed st |} Hrej)
      as [Hm0 Hs0].
    cbn zeta in *. cbn [merged_count seen] in *. by rewrite Hm, Hs, Hm0, Hs0.
Qed.

(** The facts of a completed candidate step, read off [merge_candidate]. *)
Lemma merge_candidate_inv (rs rs' : RunState) (cand : Doc) :
  merge_candidate recreate rs (Some cand) = Ok rs' →
  ∃ st,
    merge_pages recreate (fingerprints cand ∖ run_seen rs) 0 cand
      {| base_doc := run_doc rs; all_seen_keys := run_seen rs; merged := 0; failed := 0 |}
    = Ok st ∧
    run_doc rs' = base_doc st ∧
    run_seen rs' = all_seen_keys st ∧
    merged_annotations (run_stats rs') = merged_annotations (run_stats rs) + merged st ∧
    failed_annotations (run_stats rs') = failed_annotations (run_stats rs) + failed st.
Proof.
  intros Hrun. unfold merge_candidate in Hrun.
  rewrite dom_extract_annotation_keys in Hrun.
  destruct (merge_pages _ _ _ _ _) as [st |] eqn:Hpages; simpl_result; [| discriminate].
  injection Hrun as <-. by exists st.
Qed.

(** X8.  When the library accepts every call and every annotation of the
    candidate has a constructor call, a completed candidate fails nothing,
    puts every fingerprint of the candidate into the seen set, and counts as
    merged every record whose fingerprint was not seen before: a new
    fingerprint that occurs twice in the candidate is re-created twice. *)
Theorem accepting_library_merges_all (rs rs' : RunState) (cand : Doc) :
  (∀ t c a, (recreate t c a).2 = true) →
  Forall (Forall has_call) cand →
  merge_candidate recreate rs (Some cand) = Ok rs' →
  failed_annotations (run_stats rs') = failed_annotations (run_stats rs) ∧
  run_seen rs' = run_seen rs ∪ fingerprints cand ∧
  merged_annotations (run_stats rs')
  = merged_annotations (run_stats rs)
    + Z.of_nat (length (filter (λ k, k ∉ run_seen rs) (doc_keys cand))).
Proof.
  intros Hacc Hsup Hrun.
  apply merge_candidate_inv in Hrun as (st & Hpages & _ & Hrs & Hrm & Hrf).
  rewrite Hrs, Hrm, Hrf.
  destruct (merge_pages_accepting _ _ _ _ _ Hacc Hsup Hpages) as [Hf Hs].
  apply merge_pages_ok in Hpages as [_ Hcnt]. cbn [merged failed all_seen_keys] in *.
  fold (doc_keys cand) in Hs, Hcnt. fold (fingerprints cand) in Hs.
  rewrite Hs. split; [lia |]. split.
  { apply set_eq. intros k.
    rewrite !elem_of_union, elem_of_intersection, elem_of_difference.
    destruct (decide (k ∈ run_seen rs)); tauto. }
  assert (filter (λ k, k ∈ fingerprints cand ∖ run_seen rs) (doc_keys cand)
          = filter (λ k, k ∉ run_seen rs) (doc_keys cand)) as Hfilter.
  { by apply filter_unseen. }
  rewrite Hfilter in Hcnt. lia.
Qed.

(** X9.  When the library rejects every call, a completed candidate merges
    nothing and leaves the seen set as it was, so the same annotations are
    tried again with the next candidate that has them; every record with an
    unseen fingerprint is counted as failed. *)
Theorem rejecting_library_merges_nothing (rs rs' : RunState) (cand : Doc) :
  (∀ t c a, (recreate t c a).2 = false) →
  merge_candidate recreate rs (Some cand) = Ok rs' →
  merged_annotations (run_stats rs') = merged_annotations (run_stats rs) ∧
  run_seen rs' = run_seen rs ∧
  failed_annotations (run_stats rs')
  = failed_annotations (run_stats rs)
    + Z.of_nat (length (filter (λ k, k ∉ run_seen rs) (doc_keys cand))).
Proof.
  intros Hrej Hrun.
  apply merge_candidate_inv in Hrun as (st & Hpages & _ & Hrs & Hrm & Hrf).
  rewrite Hrs, Hrm, Hrf.
  destruct (merge_pages_rejecting _ _ _ _ _ Hrej Hpages) as [Hm Hs].
  apply merge_pages_ok in Hpages as [_ Hcnt]. cbn [merged failed all_seen_keys] in *.
  fold (doc_keys cand) in Hcnt.
  assert (filter (λ k, k ∈ fingerprints cand ∖ run_seen rs) (doc_keys cand)
          = filter (λ k, k ∉ run_seen rs) (doc_keys cand)) as Hfilter.
  { by apply filter_unseen. }
  rewrite Hfilter in Hcnt. repeat split; [lia | done | lia].
Qed.

(** X10.  A fingerprint is merged from the first candidate that has it and
    from no later one: when the library accepts every call and every
    annotation of the candidate has a constructor call, taking up the same
    candidate a second time completes, leaves the base document and the seen
    set as the first pass left them, merges and fails nothing, and only adds
    the candidate's distinct fingerprints to the duplicate counter. *)
Theorem second_pass_merges_nothing (rs rs1 : RunState) (cand : Doc) :
  (∀ t c a, (recreate t c a).2 = true) →
  Forall (Forall has_call) cand →
  merge_candidate recreate rs (Some cand) = Ok rs1 →
  ∃ rs2,
    merge_candidate recreate rs1 (Some cand) = Ok rs2 ∧
    run_doc rs2 = run_doc rs1 ∧
    run_seen rs2 = run_seen rs1 ∧
    merged_annotations (run_stats rs2) = merged_annotations (run_stats rs1) ∧
    failed_annotations (run_stats rs2) = failed_annotations (run_stats rs1) ∧
    duplicate_annotations (run_stats rs2)
    = duplicate_annotations (run_stats rs1) + Z.of_nat (size (fingerprints cand)).
Proof.
  intros Hacc Hsup Hrun.
  assert (is_ok (merge_candidate recreate rs (Some cand)) = true) as Hok by (by rewrite Hrun).
  rewrite merge_candidate_is_ok in Hok. cbn [candidate_fits] in Hok.
  apply bool_decide_eq_true in Hok.
  apply merge_candidate_inv in Hrun as (st & Hpages & Hdoc & Hseen & _).
  destruct (merge_pages_accepting _ _ _ _ _ Hacc Hsup Hpages) as [_ Hs].
  apply merge_pages_ok in Hpages as [Hlen _]. cbn [all_seen_keys base_doc] in *.
  fold (doc_keys cand) in Hs. fold (fingerprints cand) in Hs.
  unfold merge_candidate.
  rewrite dom_extract_annotation_keys, size_extract_annotation_keys.
  replace (fingerprints cand ∖ run_seen rs1) with (∅ : gset AnnotationKey).
  2:{ rewrite Hseen, Hs. apply set_eq. intros k.
      rewrite elem_of_difference, !elem_of_union, elem_of_intersection, elem_of_difference.
      split; [by intros ?%elem_of_empty |].
      destruct (decide (k ∈ run_seen rs)); tauto. }
  rewrite merge_pages_no_unique by (cbn [base_doc]; rewrite Hdoc, Hlen; lia).
  simpl_result. eexists. split; [reflexivity |]. cbn.
  rewrite size_empty. repeat split; lia.
Qed.

End MergeOracleFacts.

(** ** Examples of the merge step *)

Lemma sample_accepted_step :
  merge_candidate accept_all sample_start (Some doc_with_repeated_highlight)
  = Ok sample_accepted.
Proof. vm_compute. reflexivity. Qed.

Lemma sample_rejected_step :
  merge_candidate reject_all sample_start (Some doc_with_repeated_highlight)
  = Ok sample_rejected.
Proof. vm_compute. reflexivity. Qed.

Lemma sample_has_call : Forall (Forall has_call) doc_with_repeated_highlight.
Proof. repeat constructor; by eexists. Qed.

Lemma seen_candidate_changes_nothing_witness :
  ∃ rs',
    merge_candidate accept_all sample_accepted (Some doc_with_repeated_highlight) = Ok rs' ∧
    run_doc rs' = run_doc sample_accepted ∧
    run_seen rs' = run_seen sample_accepted ∧
    merged_annotations (run_stats rs') = merged_annotations (run_stats sample_accepted) ∧
    failed_annotations (run_stats rs') = failed_annotations (run_stats sample_accepted) ∧
    duplicate_annotations (run_stats rs')
    = duplicate_annotations (run_stats sample_accepted)
      + Z.of_nat (size (fingerprints doc_with_repeated_highlight)).
Proof.
  apply (seen_candidate_changes_nothing accept_all sample_accepted
           doc_with_repeated_highlight).
  - unfold fingerprints, doc_keys, sample_accepted. cbn. set_solver.
  - cbn. lia.
Defined.

Lemma candidate_counters_bounded_witness :
  let m := merged_annotations (run_stats sample_accepted)
           - merged_annotations (run_stats sample_start) in
  let f := failed_annotations (run_stats sample_accepted)
           - failed_annotations (run_stats sample_start) in
  let d := duplicate_annotations (run_stats sample_accepted)
           - duplicate_annotations (run_stats sample_start) in
  0 ≤ m ∧ 0 ≤ f ∧ 0 ≤ d ∧
  m + f + d ≤ Z.of_nat (record_count doc_with_repeated_highlight) ∧
  (NoDup (doc_keys doc_with_repeated_highlight) →
   m + f + d = Z.of_nat (record_count doc_with_repeated_highlight)).
Proof.
  exact (candidate_counters_bounded accept_all sample_start sample_accepted
           doc_with_repeated_highlight sample_accepted_step).
Defined.

Lemma candidate_seen_bounds_witness :
  run_seen sample_start ⊆ run_seen sample_accepted ∧
  run_seen sample_accepted ⊆ run_seen sample_start ∪ fingerprints doc_with_repeated_highlight ∧
  length (run_doc sample_accepted) = length (run_doc sample_start).
Proof.
  exact (candidate_seen_bounds accept_all sample_start sample_accepted
           doc_with_repeated_highlight sample_accepted_step).
Defined.

Lemma accepting_library_merges_all_witness :
  failed_annotations (run_stats sample_accepted)
  = failed_annotations (run_stats sample_start) ∧
  run_seen sample_accepted = run_seen sample_start ∪ fingerprints doc_with_repeated_highlight ∧
  merged_annotations (run_stats sample_accepted)
  = merged_annotations (run_stats sample_start)
    + Z.of_nat (length (filter (λ k, k ∉ run_seen sample_start)
                          (doc_keys doc_with_repeated_highlight))).
Proof.
  exact (accepting_library_merges_all accept_all sample_start sample_accepted
           doc_with_repeated_highlight (λ _ _ _, eq_refl) sample_has_call
           sample_accepted_step).
Defined.

Lemma rejecting_library_merges_nothing_witness :
  merged_annotations (run_stats sample_rejected)
  = merged_annotations (run_stats sample_start) ∧
  run_seen sample_rejected = run_seen sample_start ∧
  failed_annotations (run_stats sample_rejected)
  = failed_annotations (run_stats sample_start)
    + Z.of_nat (length (filter (λ k, k ∉ run_seen sample_start)
                          (doc_keys doc_with_repeated_highlight))).
Proof.
  exact (rejecting_library_merges_nothing reject_all sample_start sample_rejected
           doc_with_repeated_highlight (λ _ _ _, eq_refl) sample_rejected_step).
Defined.

Lemma second_pass_merges_nothing_witness :
  ∃ rs2,
    merge_candidate accept_all sample_accepted (Some doc_with_repeated_highlight) = Ok rs2 ∧
    run_doc rs2 = run_doc sample_accepted ∧
    run_seen rs2 = run_seen sample_accepted ∧
    merged_annotations (run_stats rs2) = merged_annotations (run_stats sample_accepted) ∧
    failed_annotations (run_stats rs2) = failed_annotations (run_stats sample_accepted) ∧
    duplicate_annotations (run_stats rs2)
    = duplicate_annotations (run_stats sample_accepted)
      + Z.of_nat (size (fingerprints doc_with_repeated_highlight)).
Proof.
  exact (second_pass_merges_nothing accept_all sample_start sample_accepted
           doc_with_repeated_highlight (λ _ _ _, eq_refl) sample_has_call
           sample_accepted_step).
Defined.

Lemma sample_run :
  merge_pdf_annotations accept_all [Some empty_one_page_doc; Some doc_with_repeated_highlight]
  = Ok (mkStats 0 2 0 0 2, [[highlight_a; highlight_a]]).
Proof. vm_compute. reflexivity. Qed.

Lemma merge_only_appends_witness :
  Forall2 prefix empty_one_page_doc [[highlight_a; highlight_a]].
Proof.
  apply (merge_only_appends accept_all
           [Some empty_one_page_doc; Some doc_with_repeated_highlight]
           empty_one_page_doc (mkStats 0 2 0 0 2) [[highlight_a; highlight_a]]).
  - intros t c a. by apply prefix_app_r.
  - reflexivity.
  - exact sample_run.
Defined.

(** ** The command line of the merger *)

Lemma forallb_Forall {A} (f : A → bool) (l : list A) :
  forallb f l = true ↔ Forall (λ x, f x = true) l.
Proof.
  induction l as [| x l IH]; cbn [forallb]; [by split; [constructor |] |].
  rewrite andb_true_iff, Forall_cons, IH. done.
Qed.

Lemma existsb_Forall {A} (f : A → bool) (l : list A) :
  existsb f l = false ↔ Forall (λ x, f x = false) l.
Proof.
  induction l as [| x l IH]; cbn [existsb]; [by split; [constructor |] |].
  rewrite orb_false_iff, Forall_cons, IH. done.
Qed.

(** X11.  [main] exits with 0 or 1.  It exits with 0, and hands a document
    to [save], exactly when the command line names an output and at least two
    inputs, every input exists, no input has the absolute path of the output,
    every input opens and no candidate has more pages than the base; what the
    re-creation of an annotation does has no part in it.  The document it
    saves is the result of the merge of all the inputs, under the output path
    of the command line. *)
Theorem main_exit_code
    (recreate : Page → AddCall → FitzAnnot → Page * bool)
    (path_exists : string → bool) (abspath : string → string)
    (open_input : string → option Doc) (argv : list string) :
  let r := main recreate path_exists abspath open_input argv in
  (r.1 = 0 ∨ r.1 = 1) ∧
  (r.1 = 0 ↔ is_Some r.2) ∧
  (r.1 = 0 ↔
   ∃ prog output_path input_paths,
     argv = prog :: output_path :: input_paths ∧
     Forall (λ path, path_exists path = true) input_paths ∧
     Forall (λ path, abspath path ≠ abspath output_path) input_paths ∧
     run_completes (map open_input input_paths) = true) ∧
  (∀ output_path doc,
     r.2 = Some (output_path, doc) →
     argv !! 1%nat = Some output_path ∧
     ∃ stats,
       merge_pdf_annotations recreate (map open_input (drop 2 argv)) = Ok (stats, doc)).
Proof.
  cbn zeta. unfold main.
  assert (∀ P : Prop, ¬ P →
            ((1, @None (string * Doc)).1 = 0 ∨ (1, @None (string * Doc)).1 = 1) ∧
            ((1, @None (string * Doc)).1 = 0 ↔ is_Some (1, @None (string * Doc)).2) ∧
            ((1, @None (string * Doc)).1 = 0 ↔ P) ∧
            (∀ output_path doc,
               (1, @None (string * Doc)).2 = Some (output_path, doc) →
               argv !! 1%nat = Some output_path ∧
               ∃ stats,
                 merge_pdf_annotations recreate (map open_input (drop 2 argv))
                 = Ok (stats, doc))) as Hfail.
  { intros P HP. cbn [fst snd]. split; [by right |]. split; [| split].
    - split; [done | by intros [? ?]].
    - split; [done | by intros ?%HP].
    - by intros ? ? ?. }
  destruct (length argv <? 4)%nat eqn:Hlen.
  { apply Hfail. intros (prog & out & inputs & -> & _ & _ & Hrun).
    unfold run_completes in Hrun. apply andb_true_iff in Hrun as [Hrun _].
    apply bool_decide_eq_true in Hrun. rewrite length_map in Hrun.
    apply Nat.ltb_lt in Hlen. cbn [length] in Hlen. lia. }
  destruct argv as [| prog [| out inputs]]; [done | done |].
  destruct (forallb path_exists inputs) eqn:Hex; cbn [negb].
  2:{ apply Hfail. intros (prog' & out' & inputs' & [= -> -> ->] & Hall & _).
      apply forallb_Forall in Hall. congruence. }
  destruct (existsb _ inputs) eqn:Hcol.
  { apply Hfail. intros (prog' & out' & inputs' & [= -> -> ->] & _ & Hall & _).
    assert (existsb (λ path, String.eqb (abspath path) (abspath out')) inputs' = false)
      as Hno; [| congruence].
    apply existsb_Forall. eapply Forall_impl; [exact Hall |].
    intros path Hne. by apply String.eqb_neq. }
  pose proof (merge_pdf_annotations_is_ok recreate (map open_input inputs)) as Hok.
  change (drop 2 (prog :: out :: inputs)) with (drop 0 inputs) in *.
  rewrite drop_0 in *.
  destruct (merge_pdf_annotations recreate (map open_input inputs)) as [[stats doc] |];
    cbn [is_ok] in Hok.
  - cbn [fst snd]. split; [by left |]. split; [| split].
    + split; [by eexists | done].
    + split; [| done]. intros _. exists prog, out, inputs. split; [done |].
      split; [by apply forallb_Forall |]. split; [| done].
      apply existsb_Forall in Hcol. eapply Forall_impl; [exact Hcol |].
      intros path Heq. by apply String.eqb_neq.
    + intros output_path doc' [= <- <-]. split; [done | by exists stats].
  - apply Hfail. intros (prog' & out' & inputs' & [= -> -> ->] & _ & _ & Hrun). congruence.
Qed.

Lemma main_exit_code_witness :
  (main accept_all every_path_exists id opens_as_sample sample_argv).1 = 0.
Proof.
  apply (main_exit_code accept_all every_path_exists id opens_as_sample sample_argv).
  exists "merge_pdf_annotations.py"%string, "merged.pdf"%string, ["a.pdf"; "b.pdf"]%string.
  split; [reflexivity |]. split; [by repeat constructor |].
  split; [by repeat constructor | reflexivity].
Defined.

(** ** More on the colour parser *)

Lemma hex_digit_lower (c : ascii) (v : Z) :
  hex_digit c = Some v → hex_digit (ascii_lower c) = Some v.
Proof.
  destruct c as [[] [] [] [] [] [] [] []]; vm_compute; first [discriminate | done].
Qed.

(** X12.  On a [#] followed by six hex digits the parser returns, for each
    pair of digits, sixteen times the first plus the second, over 255: three
    components between 0 and 1.  Upper-case and lower-case digits are read
    alike. *)
Theorem parse_color_hex_pairs (c1 c2 c3 c4 c5 c6 : ascii) (v1 v2 v3 v4 v5 v6 : Z) :
  hex_digit c1 = Some v1 → hex_digit c2 = Some v2 → hex_digit c3 = Some v3 →
  hex_digit c4 = Some v4 → hex_digit c5 = Some v5 → hex_digit c6 = Some v6 →
  let hex_color :=
    String c1 (String c2 (String c3 (String c4 (String c5 (String c6 EmptyString))))) in
  let rgb := [(inject_Z (16 * v1 + v2) / 255)%Q;
              (inject_Z (16 * v3 + v4) / 255)%Q;
              (inject_Z (16 * v5 + v6) / 255)%Q] in
  parse_color (Some (String "#" hex_color)) = Ok rgb ∧
  parse_color (Some (String "#" (lower hex_color))) = Ok rgb ∧
  Forall (λ x, (0 <= x ∧ x <= 1)%Q) rgb.
Proof.
  intros H1 H2 H3 H4 H5 H6 hex_color rgb.
  destruct (parse_color_six_hex_digits c1 c2 c3 c4 c5 c6 v1 v2 v3 v4 v5 v6
              H1 H2 H3 H4 H5 H6) as [Hparse Hrange].
  split; [exact Hparse |]. split; [| exact Hrange].
  subst hex_color. cbn [lower].
  apply (parse_color_six_hex_digits _ _ _ _ _ _ v1 v2 v3 v4 v5 v6);
    by apply hex_digit_lower.
Qed.

Lemma parse_color_hex_pairs_witness :
  parse_color (Some "#FF8000"%string)
  = Ok [(inject_Z (16 * 15 + 15) / 255)%Q; (inject_Z (16 * 8 + 0) / 255)%Q;
        (inject_Z (16 * 0 + 0) / 255)%Q] ∧
  parse_color (Some "#ff8000"%string)
  = Ok [(inject_Z (16 * 15 + 15) / 255)%Q; (inject_Z (16 * 8 + 0) / 255)%Q;
        (inject_Z (16 * 0 + 0) / 255)%Q].
Proof.
  destruct (parse_color_hex_pairs "F" "F" "8" "0" "0" "0" 15 15 8 0 0 0
              eq_refl eq_refl eq_refl eq_refl eq_refl eq_refl) as (Hupper & Hlower & _).
  split; [exact Hupper | exact Hlower].
Defined.

(** X13.  The parser answers with the default yellow, and does not raise,
    on every input that is not a [#] followed by exactly six characters:
    absent, empty, not starting with [#], or of another length. *)
Theorem parse_color_default_yellow (color_str : option string) :
  (∀ hex_color, color_str = Some (String "#" hex_color) → String.length hex_color ≠ 6%nat) →
  parse_color color_str = Ok default_yellow.
Proof.
  intros Hshape. destruct color_str as [s |]; [| done].
  destruct s as [| c hex_color]; [done |]. unfold parse_color.
  destruct (Ascii.eqb_spec c "#") as [-> | Hne].
  - specialize (Hshape hex_color eq_refl).
    by destruct (Nat.eqb_spec (String.length hex_color) 6).
  - destruct c as [[] [] [] [] [] [] [] []]; done.
Qed.

Lemma parse_color_default_yellow_witness :
  parse_color (Some "yellow"%string) = Ok default_yellow.
Proof.
  apply (parse_color_default_yellow (Some "yellow"%string)). intros hex_color Heq.
  discriminate Heq.
Defined.

Lemma elem_of_all_ascii (c : ascii) : In c all_ascii.
Proof.
  unfold all_ascii. apply in_map_iff. exists (nat_of_ascii c). split.
  - apply ascii_nat_embedding.
  - apply in_seq. pose proof (nat_ascii_bounded c). lia.
Qed.

Lemma two_char_int_range (c1 c2 : ascii) (v : Z) :
  py_int16 (String c1 (String c2 EmptyString)) = Some v → -15 ≤ v ≤ 255.
Proof.
  assert (forallb (λ a, forallb (two_char_int_in_range a) all_ascii) all_ascii = true)
    as Hall by (vm_compute; reflexivity).
  rewrite forallb_forall in Hall. specialize (Hall c1 (elem_of_all_ascii c1)).
  rewrite forallb_forall in Hall. specialize (Hall c2 (elem_of_all_ascii c2)).
  unfold two_char_int_in_range in Hall. intros Hv. rewrite Hv in Hall.
  apply andb_true_iff in Hall as [H1 H2]. lia.
Qed.

Lemma string_length_6 (s : string) :
  String.length s = 6%nat →
  ∃ c1 c2 c3 c4 c5 c6,
    s = String c1 (String c2 (String c3 (String c4 (String c5 (String c6 EmptyString))))).
Proof.
  intros Hlen.
  destruct s as [| c1 [| c2 [| c3 [| c4 [| c5 [| c6 [| c7 s]]]]]]]; try discriminate.
  by exists c1, c2, c3, c4, c5, c6.
Qed.

(** X14.  Whatever the parser returns is a list of three components, each
    between -15/255 and 1; the only exception it raises is [ValueError]. *)
Theorem parse_color_result_range (color_str : option string) :
  match parse_color color_str with
  | Ok rgb => length rgb = 3%nat ∧ Forall (λ x, (-15 # 255 <= x ∧ x <= 1)%Q) rgb
  | Raise e => e = ValueError
  end.
Proof.
  assert (∀ v : Z, -15 ≤ v ≤ 255 →
            (-15 # 255 <= inject_Z v / 255 ∧ inject_Z v / 255 <= 1)%Q) as Hc.
  { intros v Hv. unfold Qdiv, Qle. simpl. lia. }
  assert (length default_yellow = 3%nat ∧
          Forall (λ x, (-15 # 255 <= x ∧ x <= 1)%Q) default_yellow) as Hy.
  { split; [done |]. repeat constructor; by vm_compute. }
  destruct color_str as [s |]; [| exact Hy].
  destruct s as [| c hex_color]; [exact Hy |].
  destruct (Ascii.eqb_spec c "#") as [-> | Hne].
  2:{ rewrite (proj1 (proj2 (proj2 (parse_color_defaults (String c hex_color)))));
        [exact Hy |].
      by intros r [= -> _]. }
  destruct (Nat.eqb_spec (String.length hex_color) 6) as [Hlen | Hlen].
  2:{ by rewrite (proj2 (proj2 (proj2 (parse_color_defaults hex_color))) Hlen). }
  destruct (string_length_6 hex_color Hlen) as (c1 & c2 & c3 & c4 & c5 & c6 & ->).
  unfold parse_color, int16. cbn [String.length Nat.eqb substring].
  destruct (py_int16 (String c1 (String c2 EmptyString))) as [r |] eqn:Hr;
    simpl_result; [| done].
  destruct (py_int16 (String c3 (String c4 EmptyString))) as [g |] eqn:Hg;
    simpl_result; [| done].
  destruct (py_int16 (String c5 (String c6 EmptyString))) as [b |] eqn:Hb;
    simpl_result; [| done].
  apply two_char_int_range in Hr, Hg, Hb.
  split; [done |]. repeat constructor; by apply Hc.
Qed.

(** ** More on the import runs *)

Lemma Forall2_elem_l {A B} (R : A → B → Prop) (l : list A) (k : list B) (x : A) :
  Forall2 R l k → x ∈ l → ∃ y, R x y.
Proof.
  induction 1 as [| x' y' l k Hxy _ IH]; [by intros ?%elem_of_nil |].
  intros [-> | Hin]%elem_of_cons; [by exists y' | by apply IH].
Qed.

(** Every annotation in range of a completed loop was translated. *)
Lemma import_pages_translated {A T} (prepare : PdfPage → result T)
    (translate : T → Z → A → result Dictionary) (page_of : A → nat)
    (pdf pdf' : Pdf) (annotations : list A) (n : Z) (a : A) (page : PdfPage) :
  import_pages prepare translate page_of pdf annotations = Ok (pdf', n) →
  a ∈ annotations → pages pdf !! page_of a = Some page →
  ∃ h m d, prepare page = Ok h ∧ translate h m a = Ok d.
Proof.
  intros Hrun Ha Hpage. apply import_pages_ok in Hrun as [_ [_ Happ]].
  destruct (Happ _ _ Hpage) as (page' & news & _ & _ & _ & Hrel).
  destruct (Forall2_elem_l _ _ _ a Hrel) as [item (h & m & d & Hh & Hd & _)].
  { by apply list_elem_of_filter. }
  by exists h, m, d.
Qed.

(** A page that is given no annotation is left exactly as it was. *)
Lemma import_groups_untouched {A T} (prepare : PdfPage → result T)
    (translate : T → Z → A → result Dictionary)
    (by_page : list (nat * list A)) (pdf_pages pdf_pages' : list PdfPage) (n n' : Z) (i : nat) :
  import_groups prepare translate pdf_pages n by_page = Ok (pdf_pages', n') →
  i ∉ by_page.*1 → pdf_pages' !! i = pdf_pages !! i.
Proof.
  revert pdf_pages n.
  induction by_page as [| [p g] rest IH]; intros pdf_pages n Hrun Hi;
    cbn [import_groups] in Hrun.
  - by injection Hrun as <- _.
  - rewrite fmap_cons, not_elem_of_cons in Hi. cbn [fst] in Hi. destruct Hi as [Hne Hi].
    destruct (pdf_pages !! p) as [pg |]; [| by apply (IH _ _ Hrun)].
    destruct (prepare pg) as [h |]; simpl_result; [| discriminate].
    destruct (add_annots translate h (existing_items pg) n g) as [[arr n1] |];
      simpl_result; [| discriminate].
    rewrite (IH _ _ Hrun Hi). by apply list_lookup_insert_ne.
Qed.

Lemma group_by_page_keys {A} (page_of : A → nat) (annotations : list A) (i : nat) :
  i ∈ (group_by_page page_of annotations).*1 → ∃ a, a ∈ annotations ∧ page_of a = i.
Proof.
  intros Hi. apply list_elem_of_fmap in Hi as [[p g] [-> Hin]]. cbn [fst].
  pose proof (group_lookup_elem p g _ (group_by_page_NoDup page_of annotations) Hin) as Hg.
  rewrite group_by_page_lookup in Hg.
  pose proof (group_by_page_nonempty page_of annotations) as Hne.
  rewrite Forall_forall in Hne. specialize (Hne (p, g) Hin). cbn [snd] in Hne.
  destruct g as [| a g]; [done |].
  assert (a ∈ filter (λ a, page_of a = p) annotations) as Ha by (rewrite Hg; by left).
  apply list_elem_of_filter in Ha as [? ?]. by exists a.
Qed.

Section ImportRunFacts.

Variable pdf_parse : list byte → option Pdf.
Variable pdf_serialize : bool → Pdf → list byte.
Variable parse_xfdf : FS → string → result (string * list XfdfAnnot).
Variable clock : Z → string * string.
Variable resolve : string → string.


(** X16.  When the input path reaches no file both import functions raise
    [FileNotFoundError], whatever the annotations are. *)
Theorem import_missing_input (fs : FS) (pdf_path xfdf_path output_path : string)
    (linearize : bool) (annotations : list PyAnnot) :
  fs !! resolve pdf_path = None →
  import_annotations_direct pdf_parse pdf_serialize clock resolve fs pdf_path annotations
    output_path
  = Raise FileNotFoundError ∧
  (is_ok (parse_xfdf fs xfdf_path) = true →
   import_xfdf_to_pdf pdf_parse pdf_serialize parse_xfdf clock resolve fs pdf_path xfdf_path
     output_path linearize
   = Raise FileNotFoundError).
Proof.
  intros Hmissing.
  assert (copy_file fs (resolve pdf_path) (resolve output_path) = Raise FileNotFoundError) as Hcopy.
  { unfold copy_file, read_file. by rewrite Hmissing. }
  assert (pdf_open pdf_parse fs (resolve pdf_path) = Raise FileNotFoundError) as Hopen.
  { unfold pdf_open, read_file. by rewrite Hmissing. }
  split.
  - unfold import_annotations_direct.
    destruct annotations; [by rewrite Hcopy | by rewrite Hopen].
  - unfold import_xfdf_to_pdf.
    destruct (parse_xfdf fs xfdf_path) as [[source parsed] |]; [| done]. intros _.
    simpl_result. cbn [snd]. destruct parsed; [by rewrite Hcopy | by rewrite Hopen].
Qed.

(** X17.  A file that pikepdf cannot parse stops an import that has
    annotations to add, with the library's error; with no annotation to add
    the import still returns 0, because the file is copied without being
    opened as a document. *)
Theorem import_unparseable_input (fs : FS) (pdf_path output_path : string)
    (data : list byte) (annotations : list PyAnnot) :
  fs !! resolve pdf_path = Some data →
  pdf_parse data = None →
  (annotations ≠ [] →
   import_annotations_direct pdf_parse pdf_serialize clock resolve fs pdf_path annotations
    output_path
   = Raise ExternalError) ∧
  ∃ fs',
    import_annotations_direct pdf_parse pdf_serialize clock resolve fs pdf_path [] output_path
    = Ok (0, fs').
Proof.
  intros Hdata Hparse. split.
  - intros Hne. unfold import_annotations_direct, pdf_open, read_file.
    destruct annotations; [done |]. rewrite Hdata. simpl_result. by rewrite Hparse.
  - unfold import_annotations_direct, copy_file, read_file. rewrite Hdata. simpl_result.
    destruct (decide (resolve output_path = resolve pdf_path)) as [Heq | Hne].
    + rewrite Heq, lookup_insert_eq. simpl_result. by eexists.
    + rewrite lookup_insert_ne by done. rewrite Hdata. simpl_result. by eexists.
Qed.

(** X18.  When the list is not empty and every annotation names a page the
    document does not have, the import returns 0 and saves the document as
    it was opened: the output is the serialization of the unchanged document,
    not a copy of the input bytes. *)
Theorem import_all_out_of_range (fs : FS) (pdf_path output_path : string) (pdf : Pdf)
    (annotations : list PyAnnot) :
  pdf_open pdf_parse fs (resolve pdf_path) = Ok pdf →
  annotations ≠ [] →
  Forall (λ a, (length (pages pdf) ≤ pa_page a)%nat) annotations →
  import_annotations_direct pdf_parse pdf_serialize clock resolve fs pdf_path annotations
    output_path
  = Ok (0, <[resolve output_path := pdf_serialize false pdf]> fs).
Proof.
  intros Hopen Hne Hout. unfold import_annotations_direct.
  destruct annotations as [| a annotations]; [done |]. rewrite Hopen. simpl_result.
  rewrite import_pages_skip.
  assert (filter (λ a0, (pa_page a0 < length (pages pdf))%nat) (a :: annotations) = [])
    as ->.
  { clear -Hout. induction Hout as [| a' l Ha' _ IH]; [done |].
    rewrite filter_cons. by rewrite decide_False by lia. }
  cbn. unfold pdf_save. by destruct pdf.
Qed.

(** X19.  The direct import is all or nothing: a run completes only if every
    annotation in range can be translated on its page.  In particular a line
    annotation in range whose endpoints are given as one flat pair of numbers
    makes the translator raise [IndexError], and no run that contains it
    completes. *)
Theorem direct_import_all_or_nothing (fs : FS) (pdf_path output_path : string) (pdf : Pdf)
    (annotations : list PyAnnot) (a : PyAnnot) (page : PdfPage) :
  pdf_open pdf_parse fs (resolve pdf_path) = Ok pdf →
  a ∈ annotations →
  pages pdf !! pa_page a = Some page →
  (∀ n fs',
     import_annotations_direct pdf_parse pdf_serialize clock resolve fs pdf_path annotations
       output_path = Ok (n, fs') →
     ∃ h stamps d,
       page_height_of page = Ok h ∧ convert_pymupdf_to_pdf_annot stamps a h = Ok d) ∧
  (∀ x y,
     pa_type a = "Line"%string → pa_vertices a = Some (PySeq [PyFloat x; PyFloat y]) →
     (∀ stamps h, convert_pymupdf_to_pdf_annot stamps a h = Raise IndexError) ∧
     is_ok (import_annotations_direct pdf_parse pdf_serialize clock resolve fs pdf_path annotations
              output_path) = false).
Proof.
  intros Hopen Ha Hpage.
  assert (∀ n fs',
            import_annotations_direct pdf_parse pdf_serialize clock resolve fs pdf_path annotations
              output_path = Ok (n, fs') →
            ∃ h stamps d,
              page_height_of page = Ok h ∧ convert_pymupdf_to_pdf_annot stamps a h = Ok d)
    as Hall.
  { intros n fs' Hrun. unfold import_annotations_direct in Hrun.
    destruct annotations as [| a0 annotations]; [by apply elem_of_nil in Ha |].
    rewrite Hopen in Hrun. simpl_result.
    destruct (import_pages _ _ _ _ _) as [[pdf' n'] |] eqn:Hpages; simpl_result;
      [| discriminate].
    destruct (import_pages_translated _ _ _ _ _ _ _ a page Hpages Ha Hpage)
      as (h & m & d & Hh & Hd).
    by exists h, (clock m), d. }
  split; [exact Hall |].
  intros x y Hty Hv.
  assert (∀ stamps h, convert_pymupdf_to_pdf_annot stamps a h = Raise IndexError) as Hraise.
  { intros stamps h. by rewrite (convert_line stamps a h Hty), Hv. }
  split; [exact Hraise |].
  destruct (import_annotations_direct _ _ _ _ _ _ _ _) as [[n fs'] |] eqn:Hrun; [| done].
  destruct (Hall n fs' eq_refl) as (h & stamps & d & _ & Hd).
  by rewrite Hraise in Hd.
Qed.

(** X20.  A page that is given no annotation is left exactly as it was, and
    a page that is given one has an annotation array afterwards, whatever it
    had under [/Annots] before. *)
Theorem import_pages_untouched_or_array (pdf pdf' : Pdf) (annotations : list PyAnnot)
    (n : Z) (i : nat) (page : PdfPage) :
  import_pages page_height_of
    (λ page_height m a, convert_pymupdf_to_pdf_annot (clock m) a page_height)
    pa_page pdf annotations = Ok (pdf', n) →
  pages pdf !! i = Some page →
  ((∀ a, a ∈ annotations → pa_page a ≠ i) → pages pdf' !! i = Some page) ∧
  ((∃ a, a ∈ annotations ∧ pa_page a = i) →
   ∃ page' items, pages pdf' !! i = Some page' ∧ Annots page' = Some (AnnotsArray items) ∧
                  items ≠ []).
Proof.
  intros Hrun Hpage. split.
  - intros Hnone. unfold import_pages in Hrun.
    destruct (import_groups _ _ _ _ _) as [[pdf_pages' n'] |] eqn:Hgroups; simpl_result;
      [| discriminate].
    injection Hrun as <- _. cbn [pages fst].
    rewrite (import_groups_untouched _ _ _ _ _ _ _ i Hgroups); [done |].
    intros Hi. apply group_by_page_keys in Hi as (a & Ha & Hpa). by apply (Hnone a).
  - intros (a & Ha & Hpa). apply import_pages_ok in Hrun as [_ [_ Happ]].
    destruct (Happ _ _ Hpage) as (page' & news & Hp' & _ & Hex & Hrel).
    assert (a ∈ filter (λ a0, pa_page a0 = i) annotations) as Hin
      by (by apply list_elem_of_filter).
    destruct (Forall2_elem_l _ _ _ a Hrel Hin) as [item (h & m & d & _ & _ & ->)].
    assert (news ≠ []) as Hnews.
    { intros ->. apply Forall2_nil_inv_r in Hrel. rewrite Hrel in Hin.
      by apply elem_of_nil in Hin. }
    destruct (Annots page') as [[items |] |] eqn:Hannots.
    + exists page', items. repeat split; [done .. |]. intros ->.
      unfold existing_items in Hex. rewrite Hannots in Hex.
      symmetry in Hex. apply app_eq_nil in Hex as [_ ?]. done.
    + unfold existing_items in Hex. rewrite Hannots in Hex.
      symmetry in Hex. apply app_eq_nil in Hex as [_ ?]. done.
    + unfold existing_items in Hex. rewrite Hannots in Hex.
      symmetry in Hex. apply app_eq_nil in Hex as [_ ?]. done.
Qed.

End ImportRunFacts.

Lemma sample_import_pages :
  import_pages page_height_of
    (λ page_height m a, convert_pymupdf_to_pdf_annot (still_clock m) a page_height)
    pa_page one_page_pdf [sample_ink] = Ok (imported_pdf sample_ink_dict, 1).
Proof. vm_compute. reflexivity. Qed.


Lemma import_missing_input_witness :
  one_file_fs !! "missing.pdf"%string = None ∧
  import_annotations_direct parse_one_page serialize_page_marks still_clock same_directory
    one_file_fs "missing.pdf" [sample_ink] "out.pdf"
  = Raise FileNotFoundError.
Proof.
  assert (one_file_fs !! "missing.pdf"%string = None) as Hmissing
    by (vm_compute; reflexivity).
  split; [exact Hmissing |].
  exact (proj1 (import_missing_input parse_one_page serialize_page_marks no_annotations
                  still_clock same_directory one_file_fs "missing.pdf" "comments.xfdf"
                  "out.pdf" false [sample_ink] Hmissing)).
Defined.

Lemma import_unparseable_input_witness :
  one_file_fs !! "doc.pdf"%string = Some pdf_bytes ∧
  parse_nothing pdf_bytes = None ∧
  import_annotations_direct parse_nothing serialize_page_marks still_clock same_directory
    one_file_fs "doc.pdf" [sample_ink] "out.pdf"
  = Raise ExternalError.
Proof.
  assert (one_file_fs !! "doc.pdf"%string = Some pdf_bytes) as Hdata
    by (vm_compute; reflexivity).
  split; [exact Hdata |]. split; [reflexivity |].
  exact (proj1 (import_unparseable_input parse_nothing serialize_page_marks still_clock
                  same_directory one_file_fs "doc.pdf" "out.pdf" pdf_bytes [sample_ink]
                  Hdata eq_refl)
           ltac:(done)).
Defined.

Lemma import_all_out_of_range_witness :
  pdf_open parse_one_page one_file_fs "doc.pdf" = Ok one_page_pdf ∧
  import_annotations_direct parse_one_page serialize_page_marks still_clock same_directory
    one_file_fs "doc.pdf" [far_ink] "out.pdf"
  = Ok (0, <["out.pdf"%string := serialize_page_marks false one_page_pdf]> one_file_fs).
Proof.
  assert (pdf_open parse_one_page one_file_fs "doc.pdf" = Ok one_page_pdf) as Hopen
    by (vm_compute; reflexivity).
  split; [exact Hopen |].
  apply (import_all_out_of_range parse_one_page serialize_page_marks still_clock same_directory
           one_file_fs "doc.pdf" "out.pdf" one_page_pdf [far_ink] Hopen); [done |].
  apply Forall_cons. split; [cbn; lia | apply Forall_nil_2].
Defined.

Lemma direct_import_all_or_nothing_witness :
  pdf_open parse_one_page one_file_fs "doc.pdf" = Ok one_page_pdf ∧
  is_ok (import_annotations_direct parse_one_page serialize_page_marks still_clock same_directory
           one_file_fs "doc.pdf" [sample_ink; flat_pair_line] "out.pdf") = false.
Proof.
  assert (pdf_open parse_one_page one_file_fs "doc.pdf" = Ok one_page_pdf) as Hopen
    by (vm_compute; reflexivity).
  split; [exact Hopen |].
  assert (flat_pair_line ∈ [sample_ink; flat_pair_line]) as Hin
    by (right; left).
  exact (proj2 (proj2 (direct_import_all_or_nothing parse_one_page serialize_page_marks
                         still_clock same_directory one_file_fs "doc.pdf" "out.pdf" one_page_pdf
                         [sample_ink; flat_pair_line] flat_pair_line letter_page
                         Hopen Hin eq_refl)
                  1%Q 2%Q eq_refl eq_refl)).
Defined.

Lemma import_pages_untouched_or_array_witness :
  ∃ page' items,
    pages (imported_pdf sample_ink_dict) !! 0%nat = Some page' ∧
    Annots page' = Some (AnnotsArray items) ∧ items ≠ [].
Proof.
  apply (proj2 (import_pages_untouched_or_array still_clock one_page_pdf
                  (imported_pdf sample_ink_dict) [sample_ink] 1 0%nat letter_page
                  sample_import_pages eq_refl)).
  exists sample_ink. split; [left | reflexivity].
Defined.

(** ** The entries of a translated dictionary *)

Lemma is_in_elem_of (k : string) (l : list string) : is_in k l = true → k ∈ l.
Proof.
  unfold is_in. induction l as [| x l IH]; cbn [existsb]; [done |].
  intros [Heq | Hin]%orb_true_iff; [apply String.eqb_eq in Heq as -> |];
    [by left | right; by apply IH].
Qed.

Lemma is_Some_insert_inv (k k' : string) (v : PdfVal) (d : Dictionary) :
  is_Some (<[k := v]> d !! k') → k' = k ∨ is_Some (d !! k').
Proof.
  destruct (decide (k = k')) as [-> | Hne]; [by left |].
  rewrite lookup_insert_ne by done. by right.
Qed.

Lemma is_Some_set_if_inv (c : bool) (k k' : string) (v : PdfVal) (d : Dictionary) :
  is_Some (set_if c k v d !! k') → k' = k ∨ is_Some (d !! k').
Proof. destruct c; [apply is_Some_insert_inv | by right]. Qed.

Lemma is_Some_set_opt_inv (k k' : string) (o : option PdfVal) (d : Dictionary) :
  is_Some (set_opt k o d !! k') → k' = k ∨ is_Some (d !! k').
Proof. destruct o; [apply is_Some_insert_inv | by right]. Qed.

Ltac key_cases H :=
  repeat first
    [ apply is_Some_insert_inv in H as [-> | H]
    | apply is_Some_set_if_inv in H as [-> | H]
    | apply is_Some_set_opt_inv in H as [-> | H] ].

Ltac in_list := apply (bool_decide_unpack _); vm_compute; exact I.

Lemma pymupdf_common_dict_keys (stamps : string * string) (annot : PyAnnot) (h : Q)
    (k : string) :
  is_Some (pymupdf_common_dict stamps annot h !! k) → k ∈ common_keys.
Proof.
  unfold pymupdf_common_dict. cbv zeta. intros H.
  destruct (list_truth (pa_stroke_color annot)); key_cases H; try in_list;
    rewrite lookup_empty in H; by destruct H.
Qed.

Lemma xfdf_common_dict_keys (stamps : string * string) (annot : XfdfAnnot) (k : string) :
  is_Some (xfdf_common_dict stamps annot !! k) → k ∈ common_keys.
Proof.
  unfold xfdf_common_dict. cbv zeta. intros H.
  key_cases H; try in_list. rewrite lookup_empty in H; by destruct H.
Qed.

Lemma pymupdf_common_dict_required (stamps : string * string) (annot : PyAnnot) (h : Q)
    (k : string) :
  k ∈ required_keys → is_Some (pymupdf_common_dict stamps annot h !! k).
Proof.
  intros Hk. unfold pymupdf_common_dict. cbv zeta.
  repeat (apply elem_of_cons in Hk as [-> | Hk]);
    [destruct (list_truth (pa_stroke_color annot)); by dict_lookup .. |].
  by apply elem_of_nil in Hk.
Qed.

Lemma xfdf_common_dict_required (stamps : string * string) (annot : XfdfAnnot) (k : string) :
  k ∈ required_keys → is_Some (xfdf_common_dict stamps annot !! k).
Proof.
  intros Hk. unfold xfdf_common_dict. cbv zeta.
  repeat (apply elem_of_cons in Hk as [-> | Hk]); [by dict_lookup .. |].
  by apply elem_of_nil in Hk.
Qed.

Lemma common_not_specific (k : string) : k ∈ common_keys → k ∉ type_specific_keys.
Proof.
  intros Hk. repeat (apply elem_of_cons in Hk as [-> | Hk]); [in_list .. |].
  by apply elem_of_nil in Hk.
Qed.

Lemma create_frame (stamps : string * string) (annot : XfdfAnnot) (k : string) :
  k ∉ type_specific_keys →
  create_annotation_dict stamps annot !! k = xfdf_common_dict stamps annot !! k.
Proof.
  intros Hk. split_keys Hk. unfold create_annotation_dict. cbv zeta.
  repeat case_match; by dict_lookup.
Qed.

(** X21.  Every dictionary either translator produces has [/Type],
    [/Subtype], [/Rect], [/F], [/CreationDate] and [/M]; its other entries
    come from a fixed list, so it never holds a page reference, an appearance
    stream or a pop-up; and the direct translator never writes [/NM]. *)
Theorem translated_dict_entries (stamps : string * string) :
  (∀ (annot : PyAnnot) h d,
     convert_pymupdf_to_pdf_annot stamps annot h = Ok d →
     (∀ k, k ∈ required_keys → is_Some (d !! k)) ∧
     (∀ k, is_Some (d !! k) → k ∈ common_keys ++ type_specific_keys) ∧
     d !! "/NM"%string = None) ∧
  (∀ (annot : XfdfAnnot),
     let d := create_annotation_dict stamps annot in
     (∀ k, k ∈ required_keys → is_Some (d !! k)) ∧
     (∀ k, is_Some (d !! k) → k ∈ common_keys ++ type_specific_keys)) ∧
  Forall (λ k, k ∉ common_keys ++ type_specific_keys) ["/P"; "/AP"; "/Popup"]%string.
Proof.
  split; [| split].
  - intros annot h d Hrun.
    assert (∀ k, k ∉ type_specific_keys →
                 d !! k = pymupdf_common_dict stamps annot h !! k) as Hframe
      by (intros k Hk; by apply convert_frame).
    split; [| split].
    + intros k Hk. rewrite Hframe; [by apply pymupdf_common_dict_required |].
      apply common_not_specific. unfold common_keys. apply elem_of_app. by left.
    + intros k Hk. apply elem_of_app.
      destruct (decide (k ∈ type_specific_keys)) as [Hin | Hnotin]; [by right | left].
      rewrite (Hframe k Hnotin) in Hk. by eapply pymupdf_common_dict_keys.
    + rewrite Hframe by in_list. unfold pymupdf_common_dict. cbv zeta.
      destruct (list_truth (pa_stroke_color annot)); by dict_lookup.
  - intros annot d. subst d. split.
    + intros k Hk. rewrite create_frame; [by apply xfdf_common_dict_required |].
      apply common_not_specific. unfold common_keys. apply elem_of_app. by left.
    + intros k Hk. apply elem_of_app.
      destruct (decide (k ∈ type_specific_keys)) as [Hin | Hnotin]; [by right | left].
      rewrite (create_frame _ _ k Hnotin) in Hk. by eapply xfdf_common_dict_keys.
  - repeat (apply Forall_cons; split; [in_list |]). apply Forall_nil_2.
Qed.

Lemma pymupdf_common_dict_no_specific (stamps : string * string) (annot : PyAnnot) (h : Q)
    (k : string) :
  k ∈ type_specific_keys → pymupdf_common_dict stamps annot h !! k = None.
Proof.
  intros Hk. destruct (pymupdf_common_dict stamps annot h !! k) eqn:Hlook; [| done].
  assert (k ∈ common_keys) as Hc by (eapply pymupdf_common_dict_keys; by rewrite Hlook).
  by destruct (common_not_specific k Hc).
Qed.

Lemma xfdf_common_dict_no_specific (stamps : string * string) (annot : XfdfAnnot)
    (k : string) :
  k ∈ type_specific_keys → xfdf_common_dict stamps annot !! k = None.
Proof.
  intros Hk. destruct (xfdf_common_dict stamps annot !! k) eqn:Hlook; [| done].
  assert (k ∈ common_keys) as Hc by (eapply xfdf_common_dict_keys; by rewrite Hlook).
  by destruct (common_not_specific k Hc).
Qed.




Lemma type_map_get_notin (type_map : list (string * string)) (k dflt : string) :
  k ∉ type_map.*1 → type_map_get type_map k dflt = dflt.
Proof.
  induction type_map as [| [k' v] rest IH]; [done |].
  rewrite fmap_cons, not_elem_of_cons. cbn [fst type_map_get]. intros [Hne Hrest].
  apply String.eqb_neq in Hne. rewrite Hne. by apply IH.
Qed.

Lemma eqb_notin (k k' : string) (l : list string) :
  k ∉ l → k' ∈ l → String.eqb k k' = false.
Proof. intros Hk Hk'. apply String.eqb_neq. by intros ->. Qed.

Lemma is_in_notin (k : string) (l l' : list string) :
  k ∉ l → l' ⊆ l → is_in k l' = false.
Proof.
  intros Hk Hsub. destruct (is_in k l') eqn:Hin; [| done].
  apply is_in_elem_of in Hin. destruct Hk. by apply Hsub.
Qed.

(** X23.  An annotation whose type is not in the translator's table is
    written with subtype [/Text], and the dictionary is the common part
    alone: unlike a real text note it has no [/Open] and no [/Name], and no
    geometry.  A text note does get [/Open] false and the [/Comment] icon. *)
Theorem unknown_type_becomes_bare_text (stamps : string * string) :
  (∀ (annot : PyAnnot) h,
     pa_type annot ∉ type_map_pymupdf.*1 →
     let common := pymupdf_common_dict stamps annot h in
     convert_pymupdf_to_pdf_annot stamps annot h = Ok common ∧
     common !! "/Subtype"%string = Some (PName "/Text") ∧
     ∀ k, k ∈ type_specific_keys → common !! k = None) ∧
  (∀ (annot : XfdfAnnot),
     lower (xa_type annot) ∉ type_map_xfdf.*1 →
     let common := xfdf_common_dict stamps annot in
     create_annotation_dict stamps annot = common ∧
     common !! "/Subtype"%string = Some (PName "/Text") ∧
     ∀ k, k ∈ type_specific_keys → common !! k = None) ∧
  (∀ (annot : PyAnnot) h,
     pa_type annot = "Text"%string →
     ∃ d, convert_pymupdf_to_pdf_annot stamps annot h = Ok d ∧
          d !! "/Subtype"%string = Some (PName "/Text") ∧
          d !! "/Open"%string = Some (PBool false) ∧
          d !! "/Name"%string = Some (PName "/Comment")).
Proof.
  split; [| split].
  - intros annot h Hty common. subst common. split; [| split].
    + unfold convert_pymupdf_to_pdf_annot. cbv zeta.
      rewrite !(eqb_notin _ _ _ Hty) by in_list.
      rewrite !(is_in_notin _ _ _ Hty) by (intros k Hk;
        repeat (apply elem_of_cons in Hk as [-> | Hk]); [in_list .. |];
        by apply elem_of_nil in Hk).
      done.
    + rewrite pymupdf_common_dict_subtype. by rewrite type_map_get_notin.
    + intros k Hk. by apply pymupdf_common_dict_no_specific.
  - intros annot Hty common. subst common. split; [| split].
    + unfold create_annotation_dict. cbv zeta.
      rewrite !(eqb_notin _ _ _ Hty) by in_list.
      rewrite !(is_in_notin _ _ _ Hty) by (intros k Hk;
        repeat (apply elem_of_cons in Hk as [-> | Hk]); [in_list .. |];
        by apply elem_of_nil in Hk).
      done.
    + rewrite xfdf_common_dict_subtype. by rewrite type_map_get_notin.
    + intros k Hk. by apply xfdf_common_dict_no_specific.
  - intros annot h Hty. unfold convert_pymupdf_to_pdf_annot. cbv zeta. rewrite Hty.
    cbn [String.eqb Ascii.eqb Bool.eqb is_in existsb orb]. eexists. split; [reflexivity |].
    dict_lookup. rewrite pymupdf_common_dict_subtype, Hty. done.
Qed.

Lemma unknown_type_becomes_bare_text_witness :
  convert_pymupdf_to_pdf_annot (still_clock 0) unknown_kind 792
  = Ok (pymupdf_common_dict (still_clock 0) unknown_kind 792) ∧
  pymupdf_common_dict (still_clock 0) unknown_kind 792 !! "/Subtype"%string
  = Some (PName "/Text") ∧
  ∃ d, convert_pymupdf_to_pdf_annot (still_clock 0) text_note 792 = Ok d ∧
       d !! "/Open"%string = Some (PBool false).
Proof.
  destruct (unknown_type_becomes_bare_text (still_clock 0)) as (Hdirect & _ & Htext).
  destruct (Hdirect unknown_kind 792%Q ltac:(in_list)) as (Hrun & Hsub & _).
  destruct (Htext text_note 792%Q eq_refl) as (d & Hd & _ & Hopen & _).
  split; [exact Hrun |]. split; [exact Hsub |]. by exists d.
Defined.

Lemma opacity_below_one_spec (o : option Q) :
  opacity_below_one o = true ↔ ∃ q, o = Some q ∧ (q < 1)%Q.
Proof.
  unfold opacity_below_one. destruct o as [q |]; cbn [default from_option id].
  - destruct (Qcompare q 1) eqn:Hcmp.
    + split; [done |]. intros (q' & [= <-] & Hlt). rewrite Qlt_alt in Hlt. congruence.
    + split; [| done]. intros _. exists q. split; [done |]. by apply Qlt_alt.
    + split; [done |]. intros (q' & [= <-] & Hlt). rewrite Qlt_alt in Hlt. congruence.
  - split; [done |]. by intros (q & [=] & _).
Qed.

(** X24.  The optional entries of the direct translator.  [/C] holds the
    stroke colour when there is one, otherwise the fill colour, and is left
    out when both are absent or empty; so a fill colour is dropped whenever a
    stroke colour is given.  [/CA] is written exactly when an opacity below 1
    is given.  [/F] is the given flags value, also when it is 0, and 4
    when none is given.  [/T], [/Subj] and [/Contents] are written exactly
    for the author, subject and content that are given and not blank.  No
    type-specific handling changes any of these. *)
Theorem direct_optional_entries (stamps : string * string) (annot : PyAnnot) (h : Q)
    (d : Dictionary) :
  convert_pymupdf_to_pdf_annot stamps annot h = Ok d →
  (∀ c, pa_stroke_color annot = Some c → c ≠ [] →
        d !! "/C"%string = Some (real_array c)) ∧
  (pa_stroke_color annot = None ∨ pa_stroke_color annot = Some [] →
   (∀ c, pa_fill_color annot = Some c → c ≠ [] →
         d !! "/C"%string = Some (real_array c)) ∧
   (pa_fill_color annot = None ∨ pa_fill_color annot = Some [] →
    d !! "/C"%string = None)) ∧
  (∀ o, pa_opacity annot = Some o → (o < 1)%Q → d !! "/CA"%string = Some (PReal o)) ∧
  (is_Some (d !! "/CA"%string) → ∃ o, pa_opacity annot = Some o ∧ (o < 1)%Q) ∧
  d !! "/F"%string = Some (PInt (default 4 (pa_flags annot))) ∧
  (∀ s, s ≠ ""%string →
        (pa_author annot = Some s → d !! "/T"%string = Some (PString s)) ∧
        (pa_subject annot = Some s → d !! "/Subj"%string = Some (PString s)) ∧
        (pa_content annot = Some s → d !! "/Contents"%string = Some (PString s))) ∧
  (pa_author annot = None ∨ pa_author annot = Some ""%string → d !! "/T"%string = None) ∧
  (pa_subject annot = None ∨ pa_subject annot = Some ""%string →
   d !! "/Subj"%string = None) ∧
  (pa_content annot = None ∨ pa_content annot = Some ""%string →
   d !! "/Contents"%string = None).
Proof.
  intros Hrun.
  assert (∀ k, k ∉ type_specific_keys →
               d !! k = pymupdf_common_dict stamps annot h !! k) as Hframe
    by (intros k Hk; by apply convert_frame).
  rewrite !Hframe by in_list. clear Hframe Hrun d.
  unfold pymupdf_common_dict. cbv zeta.
  repeat split.
  - intros c Hc Hne. rewrite Hc. destruct c as [| x c]; [done |]. cbn [list_truth default].
    by dict_lookup.
  - intros c Hc Hne.
    assert (list_truth (pa_stroke_color annot) = false) as ->
      by (match goal with Hs : _ ∨ _ |- _ => by destruct Hs as [-> | ->] end).
    rewrite Hc. destruct c as [| x c]; [done |]. cbn [list_truth default set_if].
    by dict_lookup.
  - intros Hfill.
    assert (list_truth (pa_stroke_color annot) = false) as ->
      by (match goal with Hs : _ ∨ _ |- _ => by destruct Hs as [-> | ->] end).
    assert (list_truth (pa_fill_color annot) = false) as -> by (by destruct Hfill as [-> | ->]).
    cbn [set_if]. by dict_lookup.
  - intros o Ho Hlt.
    assert (opacity_below_one (pa_opacity annot) = true) as Hop
      by (apply opacity_below_one_spec; by exists o).
    rewrite Hop, Ho. cbn [set_if default].
    destruct (list_truth (pa_stroke_color annot)); by dict_lookup.
  - intros Hca. apply opacity_below_one_spec.
    destruct (opacity_below_one (pa_opacity annot)); [done |]. exfalso. revert Hca.
    cbn [set_if]. destruct (list_truth (pa_stroke_color annot)); dict_lookup;
      by intros [? ?].
  - destruct (list_truth (pa_stroke_color annot)); by dict_lookup.
  - intros Ha. rewrite Ha. cbn [str_truth default].
    rewrite bool_decide_eq_false_2 by done. cbn [negb set_if].
    destruct (list_truth (pa_stroke_color annot)); by dict_lookup.
  - intros Ha. rewrite Ha. cbn [str_truth default].
    rewrite bool_decide_eq_false_2 by done. cbn [negb set_if].
    destruct (list_truth (pa_stroke_color annot)); by dict_lookup.
  - intros Ha. rewrite Ha. cbn [str_truth default].
    rewrite bool_decide_eq_false_2 by done. cbn [negb set_if].
    destruct (list_truth (pa_stroke_color annot)); by dict_lookup.
  - intros Ha.
    assert (str_truth (pa_author annot) = false) as -> by (by destruct Ha as [-> | ->]).
    cbn [set_if]. destruct (list_truth (pa_stroke_color annot)); by dict_lookup.
  - intros Ha.
    assert (str_truth (pa_subject annot) = false) as -> by (by destruct Ha as [-> | ->]).
    cbn [set_if]. destruct (list_truth (pa_stroke_color annot)); by dict_lookup.
  - intros Ha.
    assert (str_truth (pa_content annot) = false) as -> by (by destruct Ha as [-> | ->]).
    cbn [set_if]. destruct (list_truth (pa_stroke_color annot)); by dict_lookup.
Qed.

Lemma direct_optional_entries_witness :
  convert_pymupdf_to_pdf_annot (still_clock 0) two_colour_annot 792
  = Ok (pymupdf_common_dict (still_clock 0) two_colour_annot 792) ∧
  pymupdf_common_dict (still_clock 0) two_colour_annot 792 !! "/C"%string
  = Some (real_array [1; 0; 0]%Q) ∧
  pymupdf_common_dict (still_clock 0) two_colour_annot 792 !! "/F"%string
  = Some (PInt 0).
Proof.
  assert (convert_pymupdf_to_pdf_annot (still_clock 0) two_colour_annot 792
          = Ok (pymupdf_common_dict (still_clock 0) two_colour_annot 792)) as Hrun
    by reflexivity.
  split; [exact Hrun |].
  destruct (direct_optional_entries _ _ _ _ Hrun) as (Hc & _ & _ & _ & Hf & _).
  split; [exact (Hc [1; 0; 0]%Q eq_refl ltac:(done)) | exact Hf].
Defined.

(** ** Geometry that is not a list of points *)

Lemma flip_points_skip (h : Q) (v : PyVal) (rest : list PyVal) :
  is_point_like v = false → flip_points h (v :: rest) = flip_points h rest.
Proof. by destruct v as [q | [| a [| b l]]]. Qed.

(** X25.  The loop over quad points, vertices and the points of a stroke
    passes over every item that is not a list or tuple of at least two
    elements, without an error, and reads only the first two elements of the
    others: the result is that of the point-like items cut to two
    coordinates, and when the loop completes it has two numbers for each of
    them.  It completes exactly when those first two elements are numbers. *)
Theorem flip_points_skips_malformed (h : Q) (pts : list PyVal) :
  flip_points h pts
  = flip_points h (map (λ v, match v with
                              | PySeq l => PySeq (take 2 l)
                              | PyFloat _ => v
                              end)
                       (filter (λ v, is_point_like v = true) pts)) ∧
  (∀ flat, flip_points h pts = Ok flat →
           length flat = (2 * length (filter (λ v, is_point_like v = true) pts))%nat) ∧
  (is_ok (flip_points h pts) = true ↔
   Forall (λ v, is_point_like v = true → ∃ x y l, v = PySeq (PyFloat x :: PyFloat y :: l))
     pts).
Proof.
  induction pts as [| v rest (IH1 & IH2 & IH3)].
  { split; [done |]. split; [by intros flat [= <-] |]. split; [| done].
    intros _. apply Forall_nil_2. }
  destruct (is_point_like v) eqn:Hv.
  - destruct v as [q | [| a [| b l]]]; try discriminate.
    rewrite filter_cons_True by done. cbn [map take flip_points].
    destruct a as [x | la]; cbn [py_float]; simpl_result.
    2: { split; [done |]. split; [done |]. split; [done |].
         intros Hall. apply Forall_cons in Hall as [Hhead _].
         by destruct (Hhead eq_refl) as (x & y & l' & [=]). }
    destruct b as [y | lb]; cbn [py_rsub]; simpl_result.
    2: { split; [done |]. split; [done |]. split; [done |].
         intros Hall. apply Forall_cons in Hall as [Hhead _].
         by destruct (Hhead eq_refl) as (x' & y & l' & [=]). }
    rewrite <- IH1. destruct (flip_points h rest) as [r |] eqn:Hrest; simpl_result.
    + split; [done |]. split.
      * intros flat [= <-]. cbn [length]. rewrite (IH2 r eq_refl). lia.
      * split; [| done]. intros _. apply Forall_cons. split; [by eauto |].
        by apply IH3.
    + split; [done |]. split; [done |]. split; [done |].
      intros Hall. apply Forall_cons in Hall as [_ Hall]. by apply IH3 in Hall.
  - rewrite filter_cons_False by (by rewrite Hv). rewrite flip_points_skip by done.
    split; [exact IH1 |]. split; [exact IH2 |]. rewrite IH3. split.
    + intros Hall. apply Forall_cons. split; [| done]. by rewrite Hv.
    + by intros [_ Hall]%Forall_cons.
Qed.

(** X26.  A line whose vertices are a flat list of numbers.  Four or more
    numbers are read as two points, the first four in order, each [y]
    flipped; fewer than two give no [/L] entry; two or three numbers make
    the translator raise [IndexError]. *)
Theorem line_from_flat_numbers (stamps : string * string) (annot : PyAnnot) (h : Q)
    (nums : list Q) :
  pa_type annot = "Line"%string →
  pa_vertices annot = Some (PySeq (map PyFloat nums)) →
  let translated := convert_pymupdf_to_pdf_annot stamps annot h in
  (∀ a b c d rest,
     nums = a :: b :: c :: d :: rest →
     ∃ dict, translated = Ok dict ∧
             dict !! "/L"%string = Some (real_array [a; (h - b)%Q; c; (h - d)%Q])) ∧
  ((length nums < 2)%nat →
   ∃ dict, translated = Ok dict ∧ dict !! "/L"%string = None) ∧
  ((2 ≤ length nums < 4)%nat → translated = Raise IndexError).
Proof.
  intros Hty Hv translated. subst translated.
  rewrite (convert_line stamps annot h Hty), Hv.
  assert (pymupdf_common_dict stamps annot h !! "/L"%string = None) as Hnone
    by (apply pymupdf_common_dict_no_geometry; in_list).
  split; [| split].
  - intros a b c d rest ->. cbn. eexists. split; [reflexivity |].
    by rewrite lookup_insert_eq.
  - intros Hlen. destruct nums as [| a [| b rest]]; cbn [length] in Hlen; [| | lia].
    + cbn. eexists. by split.
    + cbn. eexists. by split.
  - intros Hlen.
    destruct nums as [| a [| b [| c [| d rest]]]]; cbn [length] in Hlen; try lia.
    + reflexivity.
    + reflexivity.
Qed.

Lemma flip_points_skips_malformed_witness :
  flip_points 792 ragged_points = Ok [1; 792 - 2]%Q.
Proof.
  destruct (flip_points_skips_malformed 792 ragged_points) as [Hcut _].
  rewrite Hcut. reflexivity.
Defined.

Lemma line_from_flat_numbers_witness :
  ∃ dict, convert_pymupdf_to_pdf_annot (still_clock 0) flat_line 792 = Ok dict ∧
          dict !! "/L"%string = Some (real_array [1; 792 - 2; 3; 792 - 4]%Q).
Proof.
  exact (proj1 (line_from_flat_numbers (still_clock 0) flat_line 792 [1; 2; 3; 4]%Q
                  eq_refl eq_refl) 1%Q 2%Q 3%Q 4%Q [] eq_refl).
Defined.

Lemma sample_ink_translated :
  convert_pymupdf_to_pdf_annot (still_clock 0) sample_ink 792 = Ok sample_ink_dict.
Proof. vm_compute. reflexivity. Qed.

Lemma translated_dict_entries_witness :
  Forall (λ k, is_Some (sample_ink_dict !! k)) required_keys ∧
  sample_ink_dict !! "/NM"%string = None.
Proof.
  destruct (proj1 (translated_dict_entries (still_clock 0)) sample_ink 792%Q
              sample_ink_dict sample_ink_translated) as (Hreq & _ & Hnm).
  split; [by apply Forall_forall | exact Hnm].
Defined.


(** ** The XFDF reader *)

Lemma mapM_result_Forall2 {A B} (f : A → result B) (l : list A) (k : list B) :
  mapM f l = Ok k ↔ Forall2 (λ x y, f x = Ok y) l k.
Proof.
  revert k. induction l as [| x l IH]; intros k; cbn [mapM].
  - split; [intros [= <-]; constructor | by intros ->%Forall2_nil_inv_l].
  - destruct (f x) as [y |] eqn:Hx; simpl_result.
    + destruct (mapM f l) as [k' |] eqn:Hl; simpl_result.
      * split.
        -- intros [= <-]. constructor; [done | by apply IH].
        -- intros (y' & k'' & Hy' & Hk'' & ->)%Forall2_cons_inv_l.
           apply IH in Hk'' as [= <-]. rewrite Hx in Hy'. by injection Hy' as <-.
      * split; [done |].
        intros (y' & k'' & _ & Hk'' & ->)%Forall2_cons_inv_l. by apply IH in Hk''.
    + split; [done |].
      intros (y' & k'' & Hy' & _ & ->)%Forall2_cons_inv_l. by rewrite Hx in Hy'.
Qed.

Lemma mapM_result_raise {A B} (f : A → result B) (l : list A) (x : A) :
  x ∈ l → is_ok (f x) = false → is_ok (mapM f l) = false.
Proof.
  intros Hin Hx. destruct (mapM f l) as [k |] eqn:Hl; [| done].
  apply mapM_result_Forall2 in Hl. destruct (Forall2_elem_l _ _ _ x Hl Hin) as [y Hy].
  by rewrite Hy in Hx.
Qed.

Lemma elem_or_namespaced_leaf (a b : option Element) :
  (∀ e, a = Some e → elem_children e = []) → elem_or a b = b.
Proof.
  intros Hleaf. destruct a as [e |]; [| done]. unfold elem_or.
  by rewrite (Hleaf e eq_refl).
Qed.

Section XfdfReaderFacts.

Variable float : string → result Q.
Variable int : string → result Z.

Lemma parse_element_common (elem : Element) (d : XfdfDict) :
  parse_element float int elem = Ok d →
  xd_contents d = contents_of elem ∧
  xd_name d = elem_get elem "name" "" ∧
  xd_title d = elem_get elem "title" "" ∧
  xd_subject d = elem_get elem "subject" "" ∧
  parse_color (elem_attrib elem !! "color"%string) = Ok (xd_color d) ∧
  int (elem_get elem "page" "0") = Ok (xd_page d) ∧
  int (elem_get elem "flags" "4") = Ok (xd_flags d) ∧
  float (elem_get elem "opacity" "1.0") = Ok (xd_opacity d) ∧
  float (elem_get elem "width" "1.0") = Ok (xd_width d) ∧
  parse_rect float (elem_get elem "rect" "0,0,0,0") = Ok (xd_rect d) ∧
  xd_type d = (if str_contains "}" (elem_tag elem)
               then default ""%string (last (str_split "}" (elem_tag elem)))
               else elem_tag elem).
Proof.
  unfold parse_element. cbv zeta.
  destruct (int (elem_get elem "page" "0")) as [page |]; simpl_result; [| done].
  destruct (parse_rect float _) as [rect |]; simpl_result; [| done].
  destruct (parse_color _) as [color |]; simpl_result; [| done].
  destruct (float (elem_get elem "opacity" "1.0")) as [opacity |]; simpl_result; [| done].
  destruct (float (elem_get elem "width" "1.0")) as [width |]; simpl_result; [| done].
  destruct (int (elem_get elem "flags" "4")) as [flags |]; simpl_result; [| done].
  repeat case_match; simpl_result; try discriminate;
    repeat (match goal with
            | |- context [result_bind _ ?m] => destruct m; cbn [result_bind]
            | |- context [mbind _ ?m] => destruct m; simpl_result
            end);
    try discriminate; by intros [= <-].
Qed.

End XfdfReaderFacts.

Lemma str_split_nonempty (sep : ascii) (s : string) : str_split sep s ≠ [].
Proof.
  destruct s as [| c r]; cbn [str_split]; [done |].
  destruct (Ascii.eqb c sep); [done |]. by destruct (str_split sep r).
Qed.

Lemma str_split_no_sep (sep : ascii) (s : string) :
  str_contains sep s = false → str_split sep s = [s].
Proof.
  induction s as [| c r IH]; cbn [str_contains str_split]; [done |].
  intros [Hc Hr]%orb_false_iff. rewrite Hc, (IH Hr). done.
Qed.

Lemma append_empty (s : string) : ("" +:+ s)%string = s.
Proof. reflexivity. Qed.

Lemma append_String (c : ascii) (r s : string) :
  (String c r +:+ s)%string = String c (r +:+ s).
Proof. reflexivity. Qed.

Lemma str_split_two_parts (sep : ascii) (pre s : string) :
  ∃ w w' ws, str_split sep (pre ++ String sep s) = w :: w' :: ws.
Proof.
  induction pre as [| c r (w & w' & ws & IH)];
    rewrite ?append_empty, ?append_String; cbn [str_split].
  - rewrite Ascii.eqb_refl. pose proof (str_split_nonempty sep s).
    destruct (str_split sep s) as [| w' ws]; [done |]. by exists ""%string, w', ws.
  - rewrite IH. destruct (Ascii.eqb c sep); by eauto.
Qed.

Lemma last_str_split_app (sep : ascii) (pre s : string) :
  last (str_split sep (pre ++ String sep s)) = last (str_split sep s).
Proof.
  induction pre as [| c r IH]; rewrite ?append_empty, ?append_String; cbn [str_split].
  - rewrite Ascii.eqb_refl. pose proof (str_split_nonempty sep s).
    by destruct (str_split sep s).
  - destruct (str_split_two_parts sep r s) as (w & w' & ws & Hparts).
    rewrite <- IH, Hparts. by destruct (Ascii.eqb c sep).
Qed.

Lemma str_contains_app (sep : ascii) (pre s : string) :
  str_contains sep (pre ++ String sep s) = true.
Proof.
  induction pre as [| c r IH]; rewrite ?append_empty, ?append_String; cbn [str_contains].
  - by rewrite Ascii.eqb_refl.
  - rewrite IH. by destruct (Ascii.eqb c sep).
Qed.

Lemma parse_color_three (color_str : option string) (rgb : list Q) :
  parse_color color_str = Ok rgb → ∃ r g b, rgb = [r; g; b].
Proof.
  unfold parse_color. intros Hrun.
  repeat case_match; simpl_result; try (injection Hrun as <-; by eexists _, _, _).
  destruct (int16 (substring 0 2 _)); simpl_result; [| done].
  destruct (int16 (substring 2 2 _)); simpl_result; [| done].
  destruct (int16 (substring 4 2 _)); simpl_result; [| done].
  injection Hrun as <-. by eexists _, _, _.
Qed.

Lemma gesture_points_ok (float : string → result Q) (point_strs : list string)
    (points : list (Q * Q)) :
  gesture_points float point_strs = Ok points →
  (length points ≤ length point_strs)%nat.
Proof.
  revert points. induction point_strs as [| p rest IH]; intros points; cbn [gesture_points].
  - by intros [= <-].
  - destruct (str_split "," p) as [| c0 [| c1 cs]].
    + intros Hrest. apply IH in Hrest. cbn [length]. lia.
    + intros Hrest. apply IH in Hrest. cbn [length]. lia.
    + destruct (float c0); simpl_result; [| done].
      destruct (float c1); simpl_result; [| done].
      destruct (gesture_points float rest) as [pts |]; simpl_result; [| done].
      intros [= <-]. specialize (IH pts eq_refl). cbn [length]. lia.
Qed.

Lemma gesture_strokes_ok (float : string → result Q) (gestures : list Element)
    (strokes : list (list (Q * Q))) :
  gesture_strokes float gestures = Ok strokes →
  Forall (λ stroke, stroke ≠ []) strokes ∧ (length strokes ≤ length gestures)%nat.
Proof.
  revert strokes. induction gestures as [| g rest IH]; intros strokes;
    cbn [gesture_strokes].
  - intros [= <-]. by split.
  - destruct (elem_text g) as [[| c r] |].
    + intros Hrest. destruct (IH _ Hrest). split; [done |]. cbn [length]. lia.
    + destruct (gesture_points float _) as [points |]; simpl_result; [| done].
      destruct (gesture_strokes float rest) as [strokes' |]; simpl_result; [| done].
      destruct (IH strokes' eq_refl) as [Hall Hlen].
      intros [= <-]. destruct points as [| p points].
      * split; [done |]. cbn [length]. lia.
      * split; [by constructor |]. cbn [length]. lia.
    + intros Hrest. destruct (IH _ Hrest). split; [done |]. cbn [length]. lia.
Qed.

Section XfdfReaderTheorems.

Variable float : string → result Q.
Variable int : string → result Z.

(** X27.  The reader looks an element up under its namespaced tag first,
    and takes the result only if that element has child elements.  So in a
    file whose elements are in the XFDF namespace the text of a contents
    element without child elements is never read, and the source name of an
    [f] element without children is read as empty; in a file without the
    namespace both are read. *)
Theorem namespaced_leaves_not_read :
  (∀ elem d,
     parse_element float int elem = Ok d →
     (find "contents" elem = None →
      (∀ c, find (xfdf "contents") elem = Some c → elem_children c = []) →
      xd_contents d = None) ∧
     (∀ c t, find (xfdf "contents") elem = None → find "contents" elem = Some c →
             elem_text c = Some t → t ≠ ""%string → xd_contents d = Some t)) ∧
  (∀ root source_pdf annotations,
     parse_xfdf_root float int root = Ok (source_pdf, annotations) →
     (find "f" root = None →
      (∀ f, find (xfdf "f") root = Some f → elem_children f = []) →
      source_pdf = ""%string) ∧
     (∀ f, find (xfdf "f") root = None → find "f" root = Some f →
           source_pdf = elem_get f "href" "")).
Proof.
  split.
  - intros elem d Hrun.
    destruct (parse_element_common float int elem d Hrun) as [-> _].
    unfold contents_of. split.
    + intros Hplain Hleaf. by rewrite (elem_or_namespaced_leaf _ _ Hleaf), Hplain.
    + intros c t -> -> Ht Hne. cbn [elem_or]. rewrite Ht. by destruct t.
  - intros root source_pdf annotations Hrun. unfold parse_xfdf_root in Hrun.
    cbv zeta in Hrun.
    assert (source_pdf
            = match elem_or (find (xfdf "f") root) (find "f" root) with
              | Some f => elem_get f "href" ""
              | None => ""%string
              end) as ->.
    { destruct (elem_or (find (xfdf "annots") root) (find "annots" root)).
      - destruct (mapM _ _); simpl_result; [| done]. by injection Hrun as <- _.
      - by injection Hrun as <- _. }
    split.
    + intros Hplain Hleaf. by rewrite (elem_or_namespaced_leaf _ _ Hleaf), Hplain.
    + by intros f -> ->.
Qed.

(** X28.  The reader returns one record for each child of the annots
    element, in the order of the file; the type of a record is the tag of its
    element without the namespace.  One element that cannot be read makes
    the whole file unreadable, and a file without an annots element has no
    annotations. *)
Theorem one_record_per_element (root : Element) :
  let annots_elem := elem_or (find (xfdf "annots") root) (find "annots" root) in
  (∀ source_pdf annotations,
     parse_xfdf_root float int root = Ok (source_pdf, annotations) →
     Forall2 (λ elem d, parse_element float int elem = Ok d)
       (from_option elem_children [] annots_elem) annotations) ∧
  (∀ annots elem,
     annots_elem = Some annots → elem ∈ elem_children annots →
     is_ok (parse_element float int elem) = false →
     is_ok (parse_xfdf_root float int root) = false) ∧
  (∀ elem d,
     parse_element float int elem = Ok d →
     (str_contains "}" (elem_tag elem) = false → xd_type d = elem_tag elem) ∧
     (∀ namespace name,
        elem_tag elem = (namespace +:+ String "}" name)%string →
        str_contains "}" name = false → xd_type d = name)).
Proof.
  intros annots_elem. split; [| split].
  - intros source_pdf annotations Hrun. unfold parse_xfdf_root in Hrun. cbv zeta in Hrun.
    fold annots_elem in Hrun. destruct annots_elem as [annots |]; cbn [from_option].
    + destruct (mapM _ _) as [l |] eqn:Hl; simpl_result; [| done].
      injection Hrun as _ <-. by apply mapM_result_Forall2.
    + injection Hrun as _ <-. constructor.
  - intros annots elem Hannots Hin Hbad. unfold parse_xfdf_root. cbv zeta.
    fold annots_elem. rewrite Hannots.
    pose proof (mapM_result_raise _ _ _ Hin Hbad) as Hall.
    by destruct (mapM _ _).
  - intros elem d Hrun.
    destruct (parse_element_common float int elem d Hrun)
      as (_ & _ & _ & _ & _ & _ & _ & _ & _ & _ & ->).
    split.
    + by intros ->.
    + intros namespace name -> Hname.
      by rewrite str_contains_app, last_str_split_app, (str_split_no_sep _ _ Hname).
Qed.

(** X29.  The strokes read for an ink element: a gesture without text, and
    a gesture none of whose points has two coordinates, gives no stroke, so
    no stroke is empty and there are at most as many strokes as gestures; the
    translator then writes [/InkList] exactly when a stroke was read, with an
    even count of numbers for each stroke. *)
Theorem ink_strokes_read (stamps : string * string) (elem : Element) (d : XfdfDict) :
  parse_element float int elem = Ok d →
  xd_type d = "ink"%string →
  ∃ strokes,
    xd_inklist d = Some strokes ∧
    parse_inklist float elem = Ok strokes ∧
    Forall (λ stroke, stroke ≠ []) strokes ∧
    (∀ inklist,
       elem_or (find (xfdf "inklist") elem) (find "inklist" elem) = Some inklist →
       (length strokes
        ≤ length (list_or (findall (xfdf "gesture") inklist)
                          (findall "gesture" inklist)))%nat) ∧
    (elem_or (find (xfdf "inklist") elem) (find "inklist" elem) = None → strokes = []) ∧
    create_annotation_dict stamps (as_annot d) !! "/InkList"%string
    = match strokes with
      | [] => None
      | _ :: _ => Some (PArray (build_ink_list strokes))
      end ∧
    Forall2 (λ stroke arr,
               ∃ nums, arr = real_array nums ∧ length nums = (2 * length stroke)%nat)
      strokes (build_ink_list strokes).
Proof.
  intros Hrun Hty.
  pose proof (parse_element_common float int elem d Hrun)
    as (_ & _ & _ & _ & _ & _ & _ & _ & _ & _ & Htag).
  rewrite Hty in Htag. unfold parse_element in Hrun. cbv zeta in Hrun.
  rewrite <- Htag in Hrun. cbn [String.eqb Ascii.eqb Bool.eqb] in Hrun.
  destruct (int (elem_get elem "page" "0")) as [page |]; simpl_result; [| done].
  destruct (parse_rect float _) as [rect |]; simpl_result; [| done].
  destruct (parse_color _) as [color |]; simpl_result; [| done].
  destruct (float (elem_get elem "opacity" "1.0")) as [opacity |]; simpl_result; [| done].
  destruct (float (elem_get elem "width" "1.0")) as [width |]; simpl_result; [| done].
  destruct (int (elem_get elem "flags" "4")) as [flags |]; simpl_result; [| done].
  destruct (parse_inklist float elem) as [strokes |] eqn:Hink; simpl_result; [| done].
  injection Hrun as <-. exists strokes. cbn [xd_inklist].
  split; [done |]. split; [done |].
  assert (Forall (λ stroke, stroke ≠ []) strokes ∧
          (∀ inklist,
             elem_or (find (xfdf "inklist") elem) (find "inklist" elem) = Some inklist →
             (length strokes
              ≤ length (list_or (findall (xfdf "gesture") inklist)
                                (findall "gesture" inklist)))%nat) ∧
          (elem_or (find (xfdf "inklist") elem) (find "inklist" elem) = None →
           strokes = [])) as (Hne & Hlen & Hnone).
  { unfold parse_inklist in Hink.
    destruct (elem_or (find (xfdf "inklist") elem) (find "inklist" elem)) as [inklist |].
    - apply gesture_strokes_ok in Hink as [Hne Hlen].
      split; [done |]. split; [by intros ? [= <-] | done].
    - injection Hink as <-. split; [done |]. split; [done | done]. }
  split; [done |]. split; [done |]. split; [done |]. split.
  - unfold create_annotation_dict. cbv zeta.
    cbn [as_annot xa_type xa_inklist xd_type xd_inklist default from_option id].
    assert (lower "ink" = "ink"%string) as -> by reflexivity.
    cbn [String.eqb Ascii.eqb Bool.eqb].
    rewrite lookup_insert_ne by done.
    destruct strokes as [| stroke strokes].
    + cbn [build_ink_list map]. rewrite bool_decide_eq_true_2 by done. cbn [negb set_if].
      apply xfdf_common_dict_no_specific. in_list.
    + cbn [build_ink_list map]. rewrite bool_decide_eq_false_2 by done. cbn [negb set_if].
      by rewrite lookup_insert_eq.
  - clear. induction strokes as [| stroke strokes IH]; [constructor |].
    cbn [build_ink_list map]. constructor; [| exact IH].
    eexists. split; [reflexivity |].
    induction stroke as [| pt stroke IHs]; [done |]. cbn [flat_map app length] in *.
    rewrite IHs. lia.
Qed.

(** X30.  What the translator writes for a record the reader made.  The
    colour is always there, three components, the default yellow when the
    element has no colour attribute; the flags are the parsed attribute; the
    rect has as many numbers as the attribute has fields between commas, four
    or not; and the name, title and subject are written when the attribute is
    there and not blank. *)
Theorem entries_of_a_read_record (stamps : string * string) (elem : Element)
    (d : XfdfDict) :
  parse_element float int elem = Ok d →
  let dict := create_annotation_dict stamps (as_annot d) in
  (∃ r g b, dict !! "/C"%string = Some (real_array [r; g; b])) ∧
  (elem_attrib elem !! "color"%string = None →
   dict !! "/C"%string = Some (real_array default_yellow)) ∧
  dict !! "/F"%string = Some (PInt (xd_flags d)) ∧
  (∃ rect, dict !! "/Rect"%string = Some (real_array rect) ∧
           length rect = length (str_split "," (elem_get elem "rect" "0,0,0,0"))) ∧
  (∀ key name, (key, name) ∈ [("name", "/NM"); ("title", "/T"); ("subject", "/Subj")]%string →
     dict !! name
     = match elem_attrib elem !! key with
       | Some (String _ _ as value) => Some (PString value)
       | _ => None
       end).
Proof.
  intros Hrun dict. subst dict.
  pose proof (parse_element_common float int elem d Hrun)
    as (_ & Hname & Htitle & Hsubject & Hcolor & _ & _ & _ & _ & Hrect & _).
  rewrite !create_frame by in_list.
  unfold xfdf_common_dict. cbv zeta.
  cbn [as_annot xa_color xa_flags xa_rect xa_name xa_title xa_subject xa_contents
       xa_opacity default from_option id].
  destruct (parse_color_three _ _ Hcolor) as (r & g & b & Hrgb).
  rewrite Hrgb. cbn [list_truth set_if].
  split; [| split; [| split; [| split]]].
  - exists r, g, b. by dict_lookup.
  - intros Hnone. rewrite Hnone in Hcolor. injection Hcolor as Hy. rewrite Hrgb in Hy.
    rewrite Hy. by dict_lookup.
  - by dict_lookup.
  - exists (xd_rect d). split; [by dict_lookup |].
    apply mapM_result_Forall2 in Hrect. by apply Forall2_length in Hrect.
  - intros key name Hin.
    repeat (apply elem_of_cons in Hin as [[= -> ->] | Hin]);
      [| | | by apply elem_of_nil in Hin];
      rewrite create_frame by in_list; unfold xfdf_common_dict; cbv zeta;
      cbn [as_annot xa_color xa_flags xa_rect xa_name xa_title xa_subject xa_contents
           xa_opacity default from_option id];
      rewrite Hname, Htitle, Hsubject; unfold elem_get; dict_lookup.
    + destruct (elem_attrib elem !! "name"%string) as [[| c s] |];
        cbn [default from_option id str_truth];
        rewrite ?bool_decide_eq_true_2, ?bool_decide_eq_false_2 by done;
        cbn [negb set_if]; by dict_lookup.
    + destruct (elem_attrib elem !! "title"%string) as [[| c s] |];
        cbn [default from_option id str_truth];
        rewrite ?bool_decide_eq_true_2, ?bool_decide_eq_false_2 by done;
        cbn [negb set_if]; by dict_lookup.
    + destruct (elem_attrib elem !! "subject"%string) as [[| c s] |];
        cbn [default from_option id str_truth];
        rewrite ?bool_decide_eq_true_2, ?bool_decide_eq_false_2 by done;
        cbn [negb set_if]; by dict_lookup.
Qed.

End XfdfReaderTheorems.

Lemma highlight_elem_read (namespaced : bool) :
  parse_element decimal_float decimal_int (highlight_elem namespaced)
  = Ok (highlight_dict namespaced).
Proof. destruct namespaced; vm_compute; reflexivity. Qed.

Lemma xfdf_root_read :
  parse_xfdf_root decimal_float decimal_int (xfdf_root true)
  = Ok (""%string, [highlight_dict true]).
Proof. vm_compute. reflexivity. Qed.

Lemma ink_elem_read :
  parse_element decimal_float decimal_int ink_elem = Ok ink_dict.
Proof. vm_compute. reflexivity. Qed.

Lemma namespaced_leaves_not_read_witness :
  parse_element decimal_float decimal_int (highlight_elem true) = Ok (highlight_dict true) ∧
  find "contents" (highlight_elem true) = None ∧
  xd_contents (highlight_dict true) = None.
Proof.
  assert (find "contents" (highlight_elem true) = None) as Hplain
    by (vm_compute; reflexivity).
  split; [exact (highlight_elem_read true) |]. split; [exact Hplain |].
  apply (proj1 (proj1 (namespaced_leaves_not_read decimal_float decimal_int)
                  (highlight_elem true) (highlight_dict true) (highlight_elem_read true)));
    [exact Hplain |].
  intros c Hc. vm_compute in Hc. by injection Hc as <-.
Defined.

Lemma one_record_per_element_witness :
  Forall2 (λ elem d, parse_element decimal_float decimal_int elem = Ok d)
    [highlight_elem true] [highlight_dict true].
Proof.
  exact (proj1 (one_record_per_element decimal_float decimal_int (xfdf_root true))
           ""%string [highlight_dict true] xfdf_root_read).
Defined.

Lemma ink_strokes_read_witness :
  ∃ strokes,
    xd_inklist ink_dict = Some strokes ∧
    Forall (λ stroke, stroke ≠ []) strokes ∧
    create_annotation_dict (still_clock 0) (as_annot ink_dict) !! "/InkList"%string
    = match strokes with
      | [] => None
      | _ :: _ => Some (PArray (build_ink_list strokes))
      end.
Proof.
  destruct (ink_strokes_read decimal_float decimal_int (still_clock 0) ink_elem ink_dict
              ink_elem_read eq_refl)
    as (strokes & Hlist & _ & Hne & _ & _ & Hdict & _).
  by exists strokes.
Defined.

Lemma entries_of_a_read_record_witness :
  create_annotation_dict (still_clock 0) (as_annot (highlight_dict true)) !! "/C"%string
  = Some (real_array default_yellow) ∧
  create_annotation_dict (still_clock 0) (as_annot (highlight_dict true)) !! "/F"%string
  = Some (PInt 4).
Proof.
  destruct (entries_of_a_read_record decimal_float decimal_int (still_clock 0)
              (highlight_elem true) (highlight_dict true) (highlight_elem_read true))
    as (_ & Hyellow & Hflags & _).
  split; [apply Hyellow; vm_compute; reflexivity | exact Hflags].
Defined.
